(** * fact.io: reading and writing tabular event data

    A shallow embedding of [fact/io.py] (pyfact).  The module reads event
    tables from HDF5 files written either with pandas or with h5py, and
    writes tables to hdf5/json/jsonl/csv.

    The Python code is translated function by function.  Library calls
    (os.path, numpy, pandas, h5py) are modelled in modules of their own,
    from their documented behaviour; the functions of [fact/io.py] live in
    module [IO] and keep their Python names.

    Conventions.
    - The language is Python 3 ([/] is true division, [IOError] is
      [OSError], PEP 479 holds), numpy is 1.x ([ndarray.newbyteorder]
      exists).
    - Python integers are [Z]; lengths and ranks are [nat].  A Python
      float is a double, kept as a mantissa and an exponent; the quotient
      of two ints is rounded to the nearest double.
    - A call that may raise returns a [result]; [Raise e] carries the
      exception class and its message.
    - A file system is a value that the readers consult; nothing in the
      module writes to an HDF5 file through h5py.
    - [log.info]/[log.warning] calls write to the logging subsystem only;
      they do not influence any returned value and are left out.

    The file has two parts: the model (modules [Py], [Numpy], [H5py],
    [Pandas], [IO], the notions used in the statements, and a sample
    file), and then the properties, grouped by subject. *)

From Stdlib Require Import ZArith List String Ascii Bool Lia Arith.
From Stdlib Require Import Strings.Byte.
From Stdlib Require Import DecimalString DecimalNat.
From Stdlib Require DecimalFacts FinFun.
Import ListNotations.

Local Open Scope string_scope.
Local Open Scope Z_scope.

(* ================================================================== *)
(** * Python: exceptions, results, strings                             *)
(* ================================================================== *)

Module Py.

(** Exception classes: the builtin ones the module can meet, and classes
    derived from them ([class name(parent)]), as libraries define them.
    [IOError] is an alias of [OSError] in Python 3. *)
Inductive exn_class : Type :=
| BaseException | KeyboardInterrupt | Exception
| TypeError | ValueError | UnicodeError
| OSError | FileNotFoundError | PermissionError
| LookupError | KeyError | IndexError
| AttributeError | ArithmeticError | ZeroDivisionError
| RuntimeError | NotImplementedError | StopIteration | MemoryError
| Derived (name : string) (parent : exn_class).

Definition IOError : exn_class := OSError.

Fixpoint exn_class_eqb (a b : exn_class) : bool :=
  match a, b with
  | BaseException, BaseException | KeyboardInterrupt, KeyboardInterrupt
  | Exception, Exception | TypeError, TypeError | ValueError, ValueError
  | UnicodeError, UnicodeError | OSError, OSError
  | FileNotFoundError, FileNotFoundError
  | PermissionError, PermissionError | LookupError, LookupError
  | KeyError, KeyError | IndexError, IndexError
  | AttributeError, AttributeError | ArithmeticError, ArithmeticError
  | ZeroDivisionError, ZeroDivisionError | RuntimeError, RuntimeError
  | NotImplementedError, NotImplementedError
  | StopIteration, StopIteration | MemoryError, MemoryError => true
  | Derived n p, Derived m q => String.eqb n m && exn_class_eqb p q
  | _, _ => false
  end.

(** The proper ancestors of a builtin class, nearest first. *)
Definition builtin_bases (c : exn_class) : list exn_class :=
  match c with
  | BaseException | Derived _ _ => []
  | KeyboardInterrupt | Exception => [BaseException]
  | UnicodeError => [ValueError; Exception; BaseException]
  | FileNotFoundError | PermissionError => [OSError; Exception; BaseException]
  | KeyError | IndexError => [LookupError; Exception; BaseException]
  | ZeroDivisionError => [ArithmeticError; Exception; BaseException]
  | NotImplementedError => [RuntimeError; Exception; BaseException]
  | _ => [Exception; BaseException]
  end.

(** The class itself followed by its ancestors. *)
Fixpoint mro (c : exn_class) : list exn_class :=
  match c with
  | Derived _ p => c :: mro p
  | _ => c :: builtin_bases c
  end.

Definition issubclass (c d : exn_class) : bool :=
  existsb (exn_class_eqb d) (mro c).

Record exn : Type := mkExn { exn_cls : exn_class; exn_msg : string }.

Definition isinstance (e : exn) (c : exn_class) : bool :=
  issubclass (exn_cls e) c.

Inductive result (A : Type) : Type :=
| Ok (a : A)
| Raise (e : exn).
Arguments Ok {A} a.
Arguments Raise {A} e.

Definition bind {A B} (r : result A) (k : A -> result B) : result B :=
  match r with
  | Ok a => k a
  | Raise e => Raise e
  end.

(** [for x in xs: acc = body(acc, x)], stopping at the first exception. *)
Fixpoint for_each {A S} (body : S -> A -> result S) (xs : list A) (acc : S)
  : result S :=
  match xs with
  | [] => Ok acc
  | x :: rest => bind (body acc x) (for_each body rest)
  end.

(** [range(n)] for a Python int [n]; empty when [n <= 0]. *)
Definition range (n : Z) : list Z :=
  map Z.of_nat (seq 0 (Z.to_nat n)).

(** [np.arange(start, stop)] / [range(start, stop)]. *)
Definition range2 (start stop : Z) : list Z :=
  map (fun i => start + Z.of_nat i) (seq 0 (Z.to_nat (stop - start))).

(** [l[start:stop]] with Python's clamping of out-of-range and negative
    bounds ([slice.indices]). *)
Definition slice_bound (len i : Z) : Z :=
  if i <? 0 then Z.max (i + len) 0 else Z.min i len.

Definition slice {A} (l : list A) (start stop : Z) : list A :=
  let len := Z.of_nat (List.length l) in
  let s := slice_bound len start in
  let e := slice_bound len stop in
  firstn (Z.to_nat (e - s)) (skipn (Z.to_nat s) l).

(** [key or default]: [None] and the empty string are falsy. *)
Definition or_default (key : option string) (default : string) : string :=
  match key with
  | None => default
  | Some "" => default
  | Some k => k
  end.

(** ** Floats

    A finite double is [m * 2^e] for two integers: [m], below 2^53 in
    absolute value, and [e], not below -1074.  A value is kept as such a
    pair; the sign of a zero is not kept ([int] ignores it). *)
Record float : Type := mkFloat { mantissa : Z; exponent : Z }.

(** [x * 2^k] for [k >= 0], and [x] for a negative [k]. *)
Definition shl (x k : Z) : Z := x * 2 ^ Z.max 0 k.

(** The integer nearest to [p / q] for [q > 0], a tie going to the even
    one. *)
Definition round_half_even (p q : Z) : Z :=
  let k := p / q in
  match 2 * (p mod q) ?= q with
  | Lt => k
  | Gt => k + 1
  | Eq => if Z.even k then k else k + 1
  end.

(** The exponent of the double nearest to [a / b], for [a, b > 0]: the
    [e] with [2^52 <= a / (b * 2^e) < 2^53], but not below -1074, where
    the subnormal numbers lie.  With [d = log2 a - log2 b] the quotient
    is between [2^(d-1)] and [2^(d+1)]. *)
Definition double_exponent (a b : Z) : Z :=
  let d := Z.log2 a - Z.log2 b in
  Z.max (-1074) (if shl b d <=? shl a (- d) then d - 52 else d - 53).

(** [a / b] for two positive ints: the double nearest to the exact
    quotient, ties to even (CPython rounds the quotient of two ints
    correctly, whatever their size). *)
Definition nearest_double (a b : Z) : float :=
  let e := double_exponent a b in
  mkFloat (round_half_even (shl a (- e)) (shl b e)) e.

(** [a / b] for Python ints (true division).  The result carries the
    sign of the quotient.  A quotient of 2^1024 or more is an
    [OverflowError] in Python; that branch is left out: the quotients
    taken below are those of a row count by a non-zero int, which stay
    under 2^64. *)
Definition truediv (a b : Z) : result float :=
  if b =? 0 then Raise (mkExn ZeroDivisionError "division by zero")
  else if a =? 0 then Ok (mkFloat 0 0)
  else
    let x := nearest_double (Z.abs a) (Z.abs b) in
    Ok (mkFloat (Z.sgn a * Z.sgn b * mantissa x) (exponent x)).

(** [int(x)] for a finite float: truncation towards zero. *)
Definition int_of_float (x : float) : Z :=
  Z.quot (shl (mantissa x) (exponent x)) (2 ^ Z.max 0 (- exponent x)).

(** ** Strings *)

Definition dquote : string := String (ascii_of_nat 34) "".
Definition squote : string := "'".

(** [str(i)] for a non-negative int. *)
Definition str_of_nat (n : nat) : string :=
  NilZero.string_of_uint (Nat.to_uint n).

(** [repr(s)] for a string without quotes, backslashes or control
    characters (every extension and key used below is of that kind). *)
Definition repr_str (s : string) : string := squote ++ s ++ squote.

Fixpoint join (sep : string) (xs : list string) : string :=
  match xs with
  | [] => ""
  | [x] => x
  | x :: rest => x ++ sep ++ join sep rest
  end.

(** [repr] of a tuple of strings: [()], [('a',)], [('a', 'b')]. *)
Definition repr_tuple (xs : list string) : string :=
  match xs with
  | [x] => "(" ++ repr_str x ++ ",)"
  | _ => "(" ++ join ", " (map repr_str xs) ++ ")"
  end.

(** [needle in hay] for strings. *)
Fixpoint contains (needle hay : string) : bool :=
  String.prefix needle hay ||
  match hay with
  | EmptyString => false
  | String _ rest => contains needle rest
  end.

(** [s in xs] for a sequence of strings. *)
Definition str_in (s : string) (xs : list string) : bool :=
  existsb (String.eqb s) xs.

(** ** os.path.splitext (posixpath)

    [genericpath._splitext(p, '/', None, '.')]: the extension starts at
    the last dot of the last path component, unless that component
    consists of leading dots only up to there. *)

(** [p.rfind(c)]: index of the last occurrence, [-1] if there is none. *)
Fixpoint rfind_from (c : ascii) (p : string) (i : Z) (found : Z) : Z :=
  match p with
  | EmptyString => found
  | String x rest =>
      rfind_from c rest (i + 1) (if Ascii.eqb x c then i else found)
  end.

Definition rfind (c : ascii) (p : string) : Z := rfind_from c p 0 (-1).

Definition str_slice (p : string) (start stop : Z) : string :=
  string_of_list_ascii (slice (list_ascii_of_string p) start stop).

Definition splitext (p : string) : string * string :=
  let sepIndex := rfind "/"%char p in
  let dotIndex := rfind "."%char p in
  let n := Z.of_nat (String.length p) in
  if dotIndex >? sepIndex then
    (* the while loop returns at the first non-dot character between the
       start of the file name and the last dot *)
    if existsb (fun ch => negb (Ascii.eqb ch "."%char))
               (slice (list_ascii_of_string p) (sepIndex + 1) dotIndex)
    then (str_slice p 0 dotIndex, str_slice p dotIndex n)
    else (p, "")
  else (p, "").

End Py.

Export Py.

Declare Scope py_scope.
Notation "x <- c ;; k" := (Py.bind c (fun x => k))
  (at level 61, c at next level, right associativity) : py_scope.
Local Open Scope py_scope.

(* ================================================================== *)
(** * numpy: arrays with a byte-order tag                              *)
(* ================================================================== *)

Module Numpy.

(** [sys.byteorder] of the executing host. *)
Inductive endian : Type := LittleEndian | BigEndian.

(** [dtype.byteorder]: one of the characters '=', '<', '>' and '|'. *)
Inductive byteorder : Type :=
| Native          (* '=' *)
| Little          (* '<' *)
| Big             (* '>' *)
| NotApplicable.  (* '|' *)

Definition byteorder_eqb (a b : byteorder) : bool :=
  match a, b with
  | Native, Native | Little, Little | Big, Big
  | NotApplicable, NotApplicable => true
  | _, _ => false
  end.

(** [bo in tags]. *)
Definition byteorder_in (bo : byteorder) (tags : list byteorder) : bool :=
  existsb (byteorder_eqb bo) tags.

(** One array element as it lies in memory: [itemsize] bytes, as the
    list of its parts.  A part is a run of bytes that has a byte order of
    its own: a number (integer, float, bool, single byte) or a byte string
    is one part, a complex number two (the real and the imaginary float),
    a unicode string one per character.  Arrays of a structured dtype
    (with fields) or of Python objects are not modelled. *)
Definition part : Type := list byte.
Definition elem : Type := list part.

(** The contents of an array by rank.  A rank-2 array of shape (n, w) is
    a list of n rows of w elements; an array of rank three or more keeps
    its trailing shape [d1 :: d2 :: rest] and one flattened block of
    elements per index of the first axis. *)
Inductive body : Type :=
| Rank0 (x : elem)
| Rank1 (xs : list elem)
| Rank2 (width : nat) (rows : list (list elem))
| RankN (d1 d2 : nat) (rest : list nat) (blocks : list (list elem)).

Record ndarray : Type := mkArray { dtype_byteorder : byteorder; data : body }.

Definition body_ndim (b : body) : nat :=
  match b with
  | Rank0 _ => 0
  | Rank1 _ => 1
  | Rank2 _ _ => 2
  | RankN _ _ rest _ => 3 + List.length rest
  end.

Definition body_shape (b : body) : list nat :=
  match b with
  | Rank0 _ => []
  | Rank1 xs => [List.length xs]
  | Rank2 w rows => [List.length rows; w]
  | RankN d1 d2 rest blocks => List.length blocks :: d1 :: d2 :: rest
  end.

Definition ndim (a : ndarray) : nat := body_ndim (data a).
Definition shape (a : ndarray) : list nat := body_shape (data a).

(** [a.shape[i]]; a tuple index out of range is an [IndexError]. *)
Definition shape_at (a : ndarray) (i : nat) : result nat :=
  match nth_error (shape a) i with
  | Some n => Ok n
  | None => Raise (mkExn IndexError "tuple index out of range")
  end.

Definition map_body (f : elem -> elem) (b : body) : body :=
  match b with
  | Rank0 x => Rank0 (f x)
  | Rank1 xs => Rank1 (map f xs)
  | Rank2 w rows => Rank2 w (map (map f) rows)
  | RankN d1 d2 rest blocks => RankN d1 d2 rest (map (map f) blocks)
  end.

(** The contents agree with the shape: every row of a rank-2 array has
    [width] elements. *)
Definition well_shaped (a : ndarray) : Prop :=
  match data a with
  | Rank2 w rows => Forall (fun row => List.length row = w) rows
  | _ => True
  end.

(** [a.byteswap()]: a copy in which the bytes of every part of every
    element are reversed (the two halves of a complex number each on its
    own); the dtype is kept.  Elements of a dtype tagged '|' are single
    bytes or byte strings and are copied as they are. *)
Definition swap_elem (bo : byteorder) (x : elem) : elem :=
  match bo with
  | NotApplicable => x
  | _ => map (@rev byte) x
  end.

Definition byteswap (a : ndarray) : ndarray :=
  mkArray (dtype_byteorder a) (map_body (swap_elem (dtype_byteorder a)) (data a)).

(** Does the tag denote the byte order of [host]? *)
Definition is_native (host : endian) (bo : byteorder) : bool :=
  match bo, host with
  | Native, _ | Little, LittleEndian | Big, BigEndian => true
  | _, _ => false
  end.

(** [a.newbyteorder()] (numpy 1.x, default 'S'): a view on the same
    bytes whose dtype has the opposite byte order.  A native order
    becomes the explicit opposite one, a non-native order the explicit
    native one, and '|' is left alone. *)
Definition swapped_order (host : endian) (bo : byteorder) : byteorder :=
  match bo with
  | NotApplicable => NotApplicable
  | _ => match host, is_native host bo with
         | LittleEndian, true => Big
         | LittleEndian, false => Little
         | BigEndian, true => Little
         | BigEndian, false => Big
         end
  end.

Definition newbyteorder (host : endian) (a : ndarray) : ndarray :=
  mkArray (swapped_order host (dtype_byteorder a)) (data a).

(** The value an element stands for: its parts, each as its bytes from
    least to most significant. *)
Definition value : Type := list part.

Definition stored_big_endian (host : endian) (bo : byteorder) : bool :=
  match bo, host with
  | Big, _ | Native, BigEndian => true
  | _, _ => false
  end.

Definition logical (host : endian) (bo : byteorder) (x : elem) : value :=
  if stored_big_endian host bo then map (@rev byte) x else x.

(** The values of an array, in the shape of its contents. *)
Definition values (host : endian) (a : ndarray) : body :=
  map_body (logical host (dtype_byteorder a)) (data a).

(** The values of a rank-1 array. *)
Definition values_1d (host : endian) (a : ndarray) : list value :=
  match data a with
  | Rank1 xs => map (logical host (dtype_byteorder a)) xs
  | _ => []
  end.

(** [a[:, i]] for [0 <= i < a.shape[1]]. *)
Definition take_column (a : ndarray) (i : nat) : result ndarray :=
  match data a with
  | Rank0 _ | Rank1 _ =>
      Raise (mkExn IndexError "too many indices for array")
  | Rank2 w rows =>
      if (i <? w)%nat
      then Ok (mkArray (dtype_byteorder a) (Rank1 (map (fun row => nth i row []) rows)))
      else Raise (mkExn IndexError "index out of bounds for axis 1")
  | RankN d1 d2 rest blocks =>
      if (i <? d1)%nat then
        let stride := (d2 * fold_right Nat.mul 1 rest)%nat in
        let sub blk := firstn stride (skipn (i * stride) blk) in
        Ok (mkArray (dtype_byteorder a)
              match rest with
              | [] => Rank2 d2 (map sub blocks)
              | d3 :: rest' => RankN d2 d3 rest' (map sub blocks)
              end)
      else Raise (mkExn IndexError "index out of bounds for axis 1")
  end.

(** [np.ceil(x)] for a finite float: the least integer not below [x],
    as a float. *)
Definition ceil (x : float) : float :=
  mkFloat (- ((- shl (mantissa x) (exponent x)) / 2 ^ Z.max 0 (- exponent x))) 0.

(** ** Array objects

    Arrays are objects on the heap: an object points to a buffer and
    carries its own dtype.  [byteswap] allocates a new buffer and a new
    object; [newbyteorder] allocates a new object on the same buffer. *)

Definition ref : Type := nat.

Record array_obj : Type := mkObj { obj_buffer : nat; obj_byteorder : byteorder }.

Record heap : Type := mkHeap { buffers : list body; objects : list array_obj }.

(** The array a reference denotes. *)
Definition deref (h : heap) (r : ref) : option ndarray :=
  match nth_error (objects h) r with
  | None => None
  | Some o =>
      match nth_error (buffers h) (obj_buffer o) with
      | None => None
      | Some b => Some (mkArray (obj_byteorder o) b)
      end
  end.

Definition byteswap_obj (h : heap) (r : ref) : option (heap * ref) :=
  match deref h r with
  | None => None
  | Some a =>
      Some (mkHeap (buffers h ++ [data (byteswap a)])
                   (objects h ++ [mkObj (List.length (buffers h)) (dtype_byteorder a)]),
            List.length (objects h))
  end.

Definition newbyteorder_obj (host : endian) (h : heap) (r : ref)
  : option (heap * ref) :=
  match nth_error (objects h) r with
  | None => None
  | Some o =>
      Some (mkHeap (buffers h)
                   (objects h ++ [mkObj (obj_buffer o) (swapped_order host (obj_byteorder o))]),
            List.length (objects h))
  end.

End Numpy.

Export Numpy.

(* ================================================================== *)
(** * h5py: files, groups and datasets                                 *)
(* ================================================================== *)

Module H5py.

(** A dataset is an array on disk: shape, dtype and stored elements. *)
Definition dataset : Type := ndarray.

(** The members of a group, in the order [group.keys()] lists them. *)
Definition group : Type := list (string * dataset).

(** What a name can stand for in a file: a group or a dataset. *)
Inductive node : Type :=
| Group (g : group)
| Dataset (d : dataset).

(** A file on disk: the permissions of the calling process on it and
    its objects, each under the names by which h5py finds it (a group
    [events] under 'events', its member [energy] under 'events/energy'). *)
Record h5file : Type :=
  mkFile { readable : bool; writable : bool; entries : list (string * node) }.

Definition filesystem : Type := list (string * h5file).

Fixpoint assoc {A} (k : string) (l : list (string * A)) : option A :=
  match l with
  | [] => None
  | (k', v) :: rest => if String.eqb k' k then Some v else assoc k rest
  end.

(** The modes of [h5py.File]: 'r' is read-only, 'r+' is read/write; for
    both the file must exist. *)
Inductive mode : Type := ModeR | ModeRPlus.

Definition File (fs : filesystem) (file_path : string) (m : mode)
  : result h5file :=
  match assoc file_path fs with
  | None =>
      Raise (mkExn FileNotFoundError
               ("Unable to open file (unable to open file: name = '"
                  ++ file_path ++ "', errno = 2)"))
  | Some f =>
      let granted := match m with
                     | ModeR => readable f
                     | ModeRPlus => readable f && writable f
                     end in
      if granted then Ok f
      else Raise (mkExn PermissionError
                    ("Unable to open file (unable to open file: name = '"
                       ++ file_path ++ "', errno = 13)"))
  end.

(** [f.get(key)]: the object of that name, a group or a dataset; [None]
    when the name stands for no object of the file. *)
Definition get (f : h5file) (key : string) : option node :=
  assoc key (entries f).

(** The entries of the groups below the root: each group under its name
    and each of its datasets under 'group/dataset'. *)
Definition group_entries (name : string) (g : group) : list (string * node) :=
  (name, Group g) :: map (fun m => (name ++ "/" ++ fst m, Dataset (snd m))) g.

Definition below_root (groups : list (string * group)) : list (string * node) :=
  flat_map (fun ng => group_entries (fst ng) (snd ng)) groups.

(** [dataset.keys()]: a dataset has no such method. *)
Definition dataset_has_no_keys : exn :=
  mkExn AttributeError "'Dataset' object has no attribute 'keys'".

(** [dataset[name]] for a string [name]: a field of a compound element
    type, which the datasets modelled here do not have. *)
Definition dataset_has_no_fields : exn :=
  mkExn ValueError "Field names only allowed for compound types".

(** [group.keys()]. *)
Definition keys (g : group) : list string := map fst g.

(** [group[name]]. *)
Definition getitem (g : group) (name : string) : result dataset :=
  match assoc name g with
  | Some d => Ok d
  | None =>
      Raise (mkExn KeyError
               ("Unable to open object (object '" ++ name ++ "' doesn't exist)"))
  end.

(** [dataset[start:stop]]: the selected range of the first axis, read
    into a numpy array of the dataset's dtype.  A scalar dataset cannot
    be sliced. *)
Definition read_slice (d : dataset) (start stop : Z) : result ndarray :=
  match data d with
  | Rank0 _ =>
      Raise (mkExn ValueError "Illegal slicing argument for scalar dataspace")
  | Rank1 xs => Ok (mkArray (dtype_byteorder d) (Rank1 (slice xs start stop)))
  | Rank2 w rows =>
      Ok (mkArray (dtype_byteorder d) (Rank2 w (slice rows start stop)))
  | RankN d1 d2 rest blocks =>
      Ok (mkArray (dtype_byteorder d)
            (RankN d1 d2 rest (slice blocks start stop)))
  end.

(** [dataset[:]]: the whole dataset. *)
Definition read_all (d : dataset) : result ndarray :=
  match data d with
  | Rank0 _ =>
      Raise (mkExn ValueError "Illegal slicing argument for scalar dataspace")
  | _ => Ok d
  end.

End H5py.

Export H5py.

(* ================================================================== *)
(** * pandas: data frames                                              *)
(* ================================================================== *)

Module Pandas.

(** A frame: the row index and the named columns in column order, each
    column holding one value per row. *)
Record DataFrame : Type :=
  mkFrame { index : list Z; columns : list (string * list value) }.

(** [pd.DataFrame()]. *)
Definition empty_frame : DataFrame := mkFrame [] [].

(** [pd.DataFrame(index=idx)]. *)
Definition frame_of_index (idx : list Z) : DataFrame := mkFrame idx [].

(** [np.nan] as a float64. *)
Definition nan : value := [[x00; x00; x00; x00; x00; x00; xf8; x7f]].

(** Store a column under [name]: in place when the name exists, as a
    new last column otherwise. *)
Fixpoint set_col (name : string) (vals : list value)
         (cols : list (string * list value)) : list (string * list value) :=
  match cols with
  | [] => [(name, vals)]
  | (n, v) :: rest =>
      if String.eqb n name then (n, vals) :: rest
      else (n, v) :: set_col name vals rest
  end.

(** [df[name] = vals] for a one-dimensional [vals].  A frame with an
    empty index takes the default index of a non-empty value (its
    existing columns are re-indexed and filled with NaN); otherwise the
    length has to match the index. *)
Definition setitem (df : DataFrame) (name : string) (vals : list value)
  : result DataFrame :=
  let n := List.length vals in
  match index df, n with
  | [], S _ =>
      Ok (mkFrame (range (Z.of_nat n))
                  (set_col name vals
                     (map (fun c => (fst c, repeat nan n)) (columns df))))
  | _, _ =>
      if (n =? List.length (index df))%nat
      then Ok (mkFrame (index df) (set_col name vals (columns df)))
      else Raise (mkExn ValueError
                    ("Length of values (" ++ str_of_nat n
                       ++ ") does not match length of index ("
                       ++ str_of_nat (List.length (index df)) ++ ")"))
  end.

(** [df[name] = array] for a numpy array: only a one-dimensional array
    is a column. *)
Definition setitem_array (host : endian) (df : DataFrame) (name : string)
           (array : ndarray) : result DataFrame :=
  if (ndim array =? 1)%nat then setitem df name (values_1d host array)
  else Raise (mkExn ValueError "Expected a 1D array").

(** [len(df)]. *)
Definition n_rows (df : DataFrame) : nat := List.length (index df).

(** [df[name]]. *)
Definition column (df : DataFrame) (name : string) : option (list value) :=
  assoc name (columns df).

Definition column_names (df : DataFrame) : list string :=
  map fst (columns df).

(** Row-wise concatenation of frames, in the words of the specification
    ("concatenating the chunks, in order"): the row indexes follow each
    other and every column is continued by the column of the same name
    and position.  It is defined for a non-empty list of frames with the
    same columns. *)
Fixpoint append_cols (a b : list (string * list value))
  : option (list (string * list value)) :=
  match a, b with
  | [], [] => Some []
  | (n, v) :: a', (m, w) :: b' =>
      if String.eqb n m
      then option_map (cons (n, (v ++ w)%list)) (append_cols a' b')
      else None
  | _, _ => None
  end.

Definition append_frames (a b : DataFrame) : option DataFrame :=
  option_map (mkFrame (index a ++ index b))
             (append_cols (columns a) (columns b)).

Fixpoint concat (frames : list DataFrame) : option DataFrame :=
  match frames with
  | [] => None
  | [f] => Some f
  | f :: rest =>
      match concat rest with
      | Some r => append_frames f r
      | None => None
      end
  end.

End Pandas.

Export Pandas.

(* ================================================================== *)
(** * fact.io                                                          *)
(* ================================================================== *)

Module IO.

Definition allowed_extensions : list string :=
  [".hdf"; ".hdf5"; ".h5"; ".json"; ".jsonl"; ".jsonlines"; ".csv"].

(** [{'little': '<', 'big': '>'}[sys.byteorder]] *)
Definition native_byteorder (host : endian) : byteorder :=
  match host with
  | LittleEndian => Little
  | BigEndian => Big
  end.

(** ** to_native_byteorder *)

Definition to_native_byteorder (host : endian) (array : ndarray) : ndarray :=
  if negb (byteorder_in (dtype_byteorder array) [Native; native_byteorder host])
  then newbyteorder host (byteswap array)
  else array.

(** The same function on array objects: which object is returned, and
    what is allocated on the way. *)
Definition to_native_byteorder_obj (host : endian) (h : heap) (array : ref)
  : option (heap * ref) :=
  match deref h array with
  | None => None
  | Some a =>
      if negb (byteorder_in (dtype_byteorder a) [Native; native_byteorder host])
      then match byteswap_obj h array with
           | None => None
           | Some (h1, swapped) => newbyteorder_obj host h1 swapped
           end
      else Some (h, array)
  end.

Section Readers.

Variable host : endian.
Variable fs : filesystem.

Definition group_not_found (key : string) : exn :=
  mkExn IOError ("File does not contain group " ++ dquote ++ key ++ dquote).

(** [[col for col in group.keys() if group[col].ndim == 1]] *)
Definition default_columns (group : H5py.group) : list string :=
  filter (fun col => match assoc col group with
                     | Some d => (ndim d =? 1)%nat
                     | None => false
                     end)
         (keys group).

Definition resolve_columns (group : H5py.group)
           (columns : option (list string)) : list string :=
  match columns with
  | None => default_columns group
  | Some cols => cols
  end.

(** [for i in range(array.shape[1]): df[col + '_{}'.format(i)] = array[:, i]] *)
Definition flatten_columns (col : string) (array : ndarray) (df : DataFrame)
  : result DataFrame :=
  w <- shape_at array 1 ;;
  for_each (fun df i =>
              c <- take_column array i ;;
              setitem_array host df (col ++ "_" ++ str_of_nat i) c)
           (seq 0 w) df.

(** ** read_h5py *)

(** The body of the loop over [columns]. *)
Definition read_h5py_column (group : H5py.group) (df : DataFrame)
           (col : string) : result DataFrame :=
  d <- getitem group col ;;
  a <- read_all d ;;
  let array := to_native_byteorder host a in
  if (ndim array =? 1)%nat then setitem_array host df col array
  else if (ndim array =? 2)%nat then flatten_columns col array df
  else Ok df.

Definition read_h5py (file_path : string) (key : string)
           (columns : option (list string)) : result DataFrame :=
  f <- File fs file_path ModeRPlus ;;
  match get f key with
  | None => Raise (group_not_found key)
  | Some (Group group) =>
      for_each (read_h5py_column group)
               (resolve_columns group columns) empty_frame
  | Some (Dataset _) =>
      (* [f.get] found a dataset: [group.keys()] and [group[col]] fail *)
      match columns with
      | None => Raise dataset_has_no_keys
      | Some cols =>
          for_each (fun _ _ => Raise dataset_has_no_fields) cols empty_frame
      end
  end.

(** ** h5py_get_n_events *)

Definition h5py_get_n_events (file_path : string) (key : string) : result Z :=
  f <- File fs file_path ModeRPlus ;;
  match get f key with
  | None => Raise (group_not_found key)
  | Some (Group group) =>
      match keys group with
      | [] => Raise (mkExn StopIteration "")
      | first :: _ =>
          d <- getitem group first ;;
          n <- shape_at d 0 ;;
          Ok (Z.of_nat n)
      end
  | Some (Dataset _) => Raise dataset_has_no_keys
  end.

(** ** read_h5py_chunked

    A generator function: calling it binds the arguments and returns
    a generator object; the body runs when elements are requested. *)


(** [l.remove(x)]: drops the first occurrence. *)
Fixpoint list_remove (x : string) (l : list string) : list string :=
  match l with
  | [] => []
  | y :: rest => if String.eqb y x then rest else y :: list_remove x rest
  end.

(** [for col in copy(columns): if group[col].ndim > 2: columns.remove(col)];
    [snapshot] is the copy that is iterated. *)
Fixpoint drop_high_rank (group : H5py.group) (snapshot : list string)
         (columns : list string) : result (list string) :=
  match snapshot with
  | [] => Ok columns
  | col :: rest =>
      d <- getitem group col ;;
      if (2 <? ndim d)%nat
      then drop_high_rank group rest (list_remove col columns)
      else drop_high_rank group rest columns
  end.

(** The local variables that live across a [yield]. *)
Record frame : Type :=
  mkFrameState {
      fr_group : H5py.group;
      fr_columns : list string;
      fr_n_events : Z;
      fr_chunksize : Z;
      fr_n_chunks : Z;
      fr_chunk : Z
    }.

Definition chunk : Type := (DataFrame * Z * Z)%type.

Inductive generator : Type :=
| Created (file_path key : string) (columns : option (list string))
          (chunksize : option Z)
| Suspended (fr : frame)
| Finished.

(** The call itself. *)
Definition read_h5py_chunked (file_path : string) (key : string)
           (columns : option (list string)) (chunksize : option Z)
  : result generator :=
  Ok (Created file_path key columns chunksize).

(** Everything before the loop over the chunks. *)
Definition chunked_prologue (file_path key : string)
           (columns : option (list string)) (chunksize : option Z)
  : result frame :=
  f <- File fs file_path ModeRPlus ;;
  match get f key with
  | None => Raise (group_not_found key)
  | Some (Group group) =>
      let columns := resolve_columns group columns in
      n_events <- h5py_get_n_events file_path key ;;
      sizes <- match chunksize with
               | None => Ok (1, n_events)
               | Some c =>
                   q <- truediv n_events c ;;
                   Ok (int_of_float (ceil q), c)
               end ;;
      columns <- drop_high_rank group columns columns ;;
      Ok (mkFrameState group columns n_events (snd sizes) (fst sizes) 0)
  | Some (Dataset _) =>
      (* [f.get] found a dataset: [group.keys()] fails, in the list of
         the default columns or else in [h5py_get_n_events] *)
      Raise dataset_has_no_keys
  end.

(** The body of the loop over [columns] inside one chunk. *)
Definition chunk_column (group : H5py.group) (start stop : Z)
           (df : DataFrame) (col : string) : result DataFrame :=
  d <- getitem group col ;;
  a <- read_slice d start stop ;;
  let array := to_native_byteorder host a in
  if (ndim array =? 1)%nat then setitem_array host df col array
  else flatten_columns col array df.

(** One pass through the body of [for chunk in range(n_chunks)] up to
    the [yield]. *)
Definition read_chunk (fr : frame) : result chunk :=
  let start := fr_chunk fr * fr_chunksize fr in
  let stop := Z.min (fr_n_events fr) ((fr_chunk fr + 1) * fr_chunksize fr) in
  df <- for_each (chunk_column (fr_group fr) start stop) (fr_columns fr)
                 (frame_of_index (range2 start stop)) ;;
  Ok (df, start, stop).

Inductive step : Type :=
| Yield (c : chunk)
| Throw (e : exn)
| Stop.                      (* StopIteration: the generator is exhausted *)

(** A [StopIteration] that escapes the body of a generator surfaces
    as a [RuntimeError] (PEP 479). *)
Definition escaping (e : exn) : exn :=
  if isinstance e StopIteration
  then mkExn RuntimeError "generator raised StopIteration"
  else e.

Definition loop_head (fr : frame) : step * generator :=
  if fr_chunk fr <? fr_n_chunks fr then
    match read_chunk fr with
    | Ok c => (Yield c, Suspended fr)
    | Raise e => (Throw (escaping e), Finished)
    end
  else (Stop, Finished).

Definition advance (fr : frame) : frame :=
  mkFrameState (fr_group fr) (fr_columns fr) (fr_n_events fr)
               (fr_chunksize fr) (fr_n_chunks fr) (fr_chunk fr + 1).

(** [next(g)]. *)
Definition next (g : generator) : step * generator :=
  match g with
  | Created file_path key columns chunksize =>
      match chunked_prologue file_path key columns chunksize with
      | Ok fr => loop_head fr
      | Raise e => (Throw (escaping e), Finished)
      end
  | Suspended fr => loop_head (advance fr)
  | Finished => (Stop, Finished)
  end.

(** [list(g)], with a bound on the number of [next] calls; [None]
    when the bound is reached before the generator is exhausted. *)
Fixpoint drain (fuel : nat) (g : generator) : option (result (list chunk)) :=
  match fuel with
  | O => None
  | S fuel' =>
      match next g with
      | (Yield c, g') =>
          match drain fuel' g' with
          | Some (Ok cs) => Some (Ok (c :: cs))
          | other => other
          end
      | (Throw e, _) => Some (Raise e)
      | (Stop, _) => Some (Ok [])
      end
  end.

(** The generator after [n] calls of [next]. *)
Fixpoint after (n : nat) (g : generator) : generator :=
  match n with
  | O => g
  | S n' => after n' (snd (next g))
  end.

(** The frame and the row range of a chunk. *)
Definition chunk_frame (ch : chunk) : DataFrame := fst (fst ch).
Definition chunk_range (ch : chunk) : Z * Z := (snd (fst ch), snd ch).

End Readers.

(** ** read_data, write_data, check_extension *)

Section Dispatch.

Variable host : endian.
Variable fs : filesystem.

(** The readers and writers of pandas and json, which the module only
    calls: [pd.read_hdf], [pd.DataFrame(json.load(open(path)))],
    [pd.read_json(path, lines=True)], [df.to_hdf], [df.to_json],
    [df.to_json(lines=True, orient='records')] and [df.to_csv]. *)
Variable pd_read_hdf :
  string -> string -> option (list string) -> option Z -> result DataFrame.
Variable json_load_frame : string -> result DataFrame.
Variable pd_read_json_lines : string -> result DataFrame.
Variable to_hdf : DataFrame -> string -> string -> result unit.
Variable to_json : DataFrame -> string -> result unit.
Variable to_json_lines : DataFrame -> string -> result unit.
Variable to_csv : DataFrame -> string -> result unit.

Definition read_pandas_hdf5 (file_path : string) (key : string)
           (columns : option (list string)) (chunksize : option Z)
  : result DataFrame :=
  pd_read_hdf file_path key columns chunksize.

Definition read_data (file_path : string) (key : option string)
           (columns : option (list string)) : result DataFrame :=
  let extension := snd (splitext file_path) in
  if str_in extension [".hdf"; ".hdf5"; ".h5"] then
    match read_pandas_hdf5 file_path (or_default key "table") columns None with
    | Ok df => Ok df
    | Raise e =>
        if isinstance e TypeError || isinstance e ValueError
        then read_h5py host fs file_path (or_default key "events") columns
        else Raise e
    end
  else if String.eqb extension ".json" then json_load_frame file_path
  else if str_in extension [".jsonl"; ".jsonlines"]
  then pd_read_json_lines file_path
  else Raise (mkExn NotImplementedError
                ("Unknown data file extension " ++ extension)).

Definition write_data (df : DataFrame) (file_path : string) (key : string)
  : result unit :=
  let extension := snd (splitext file_path) in
  if str_in extension [".hdf"; ".hdf5"; ".h5"] then to_hdf df file_path key
  else if String.eqb extension ".json" then to_json df file_path
  else if str_in extension [".jsonl"; ".jsonline"]
  then to_json_lines df file_path
  else if String.eqb extension ".csv" then to_csv df file_path
  else Raise (mkExn IOError
                ("cannot write tabular data with format " ++ extension
                   ++ ". Allowed formats: " ++ repr_tuple allowed_extensions)).

Definition check_extension (file_path : string) (allowed : list string)
  : result unit :=
  let extension := snd (splitext file_path) in
  if negb (str_in extension allowed)
  then Raise (mkExn IOError ("Allowed formats: " ++ repr_tuple allowed))
  else Ok tt.

End Dispatch.

End IO.

Export IO.

(* ================================================================== *)
(** * Notions used in the statements                                   *)
(* ================================================================== *)

(** The number of rows of an array: the extent of its first axis. *)
Definition n_rows_of (a : ndarray) : nat := hd 0%nat (shape a).

(** What holds of the frame whenever the generator is suspended: the
    chunk counter and the row count are not negative, and when there is
    any chunk at all the chunk size is not negative either. *)
Definition frame_ok (fr : frame) : Prop :=
  0 <= fr_chunk fr /\ 0 <= fr_n_events fr /\
  (0 < fr_n_chunks fr -> 0 <= fr_chunksize fr).

Definition generator_ok (g : generator) : Prop :=
  match g with
  | Suspended fr => frame_ok fr
  | _ => True
  end.

(** Both readers fill a frame by a sequence of assignments
    [df[name] = vals].  The sequence depends on the requested columns and
    the datasets only, which is what relates the two readers. *)

Definition assignment : Type := (string * list value)%type.

Definition assign (df : DataFrame) (nv : assignment) : result DataFrame :=
  setitem df (fst nv) (snd nv).

Definition on_values (f : list value -> list value) (nv : assignment)
  : assignment :=
  (fst nv, f (snd nv)).

Definition store (cols : list assignment) (nv : assignment) : list assignment :=
  set_col (fst nv) (snd nv) cols.

Definition flat_name (col : string) (i : nat) : string :=
  (col ++ "_" ++ str_of_nat i)%string.

(** The assignments one array gives rise to under the name [col]. *)
Definition array_assignments (host : endian) (col : string) (a : ndarray)
  : list assignment :=
  match data a with
  | Rank1 xs => [(col, map (logical host (dtype_byteorder a)) xs)]
  | Rank2 w rows =>
      map (fun i => (flat_name col i,
                     map (fun row => logical host (dtype_byteorder a) (nth i row []))
                         rows))
          (seq 0 w)
  | _ => []
  end.

Definition store_all (asg cols : list assignment) : list assignment :=
  fold_left store asg cols.

Definition of_length (n : nat) (nv : assignment) : Prop :=
  List.length (snd nv) = n.

(** The columns a rank-2 array of width [w] is flattened into. *)
Definition flat_columns (host : endian) (col : string) (bo : byteorder) (w : nat)
           (rows : list (list elem)) : list assignment :=
  map (fun i => (flat_name col i,
                 map (fun row => logical host bo (nth i row [])) rows))
      (seq 0 w).

(** Every member dataset has rank one or more and [n] rows. *)
Definition uniform_rows (n : nat) (group : H5py.group) : Prop :=
  Forall (fun m => hd_error (shape (snd m)) = Some n) group.

(** Every requested column is a member of the group. *)
Definition requested_exist (group : H5py.group) (columns : option (list string))
  : Prop :=
  match columns with
  | Some cols => Forall (fun c => assoc c group <> None) cols
  | None => True
  end.

(** The assignments a column gives rise to. *)
Definition column_assignments (host : endian) (group : H5py.group) (col : string)
  : list assignment :=
  match assoc col group with
  | Some d => array_assignments host col d
  | None => []
  end.

(** Does the column survive the removal of datasets of rank above two? *)
Definition low_rank (group : H5py.group) (col : string) : bool :=
  match assoc col group with
  | Some d => negb (2 <? ndim d)%nat
  | None => true
  end.

(** The columns of the table [read_h5py] returns for the requested
    columns [wanted]. *)
Definition table_columns (host : endian) (wanted : option (list string))
           (group : H5py.group) : list assignment :=
  store_all (flat_map (column_assignments host group)
                      (resolve_columns group wanted)) [].

(** The ceiling of [n / c], computed in the integers. *)
Definition ceil_div (n c : Z) : Z := - ((- n) / c).

(** [int(np.ceil(n / c))] for a chunk size [c] other than 0, as
    [read_h5py_chunked] computes the number of chunks: the quotient is
    rounded to a double first. *)
Definition n_chunks_of (n c : Z) : Z :=
  match truediv n c with
  | Ok q => int_of_float (ceil q)
  | Raise _ => 0
  end.

(** The frame of the generator when chunk [k] of size [c] is due, for a
    group of [n] rows. *)
Definition frame_at (wanted : option (list string)) (group : H5py.group)
           (n : nat) (c : Z) (k : Z) : frame :=
  mkFrameState group (filter (low_rank group) (resolve_columns group wanted))
               (Z.of_nat n) c (ceil_div (Z.of_nat n) c) k.

(** Chunk [k]: the rows from [k * c] up to [min n ((k + 1) * c)]. *)
Definition chunk_at (host : endian) (wanted : option (list string))
           (group : H5py.group) (n : nat) (c : Z) (k : Z) : chunk :=
  (mkFrame (range2 (k * c) (Z.min (Z.of_nat n) ((k + 1) * c)))
           (map (on_values (fun v => slice v (k * c)
                                           (Z.min (Z.of_nat n) ((k + 1) * c))))
                (table_columns host wanted group)),
   k * c, Z.min (Z.of_nat n) ((k + 1) * c)).

(** A group [events] with a rank-1 dataset [energy] and a rank-2 dataset
    [position] of width 2. *)
Definition events_group (bo_e bo_p : byteorder) (energy : list elem)
           (position : list (list elem)) : H5py.group :=
  [("energy", mkArray bo_e (Rank1 energy));
   ("position", mkArray bo_p (Rank2 2 position))].

(** The [KeyError] of h5py for a name that is no member of a group. *)
Definition missing_column (name : string) : exn :=
  mkExn KeyError ("Unable to open object (object '" ++ name ++ "' doesn't exist)").

(** The frame of a generator started with chunk size [c] on the file:
    the chunk size is [c], the row count is the one
    [h5py_get_n_events] reports, and the number of chunks is the one
    computed from the two. *)
Definition frame_of_call (fs : filesystem) (file_path key : string) (c : Z)
           (fr : frame) : Prop :=
  fr_chunksize fr = c /\
  h5py_get_n_events fs file_path key = Ok (fr_n_events fr) /\
  fr_n_chunks fr = n_chunks_of (fr_n_events fr) c /\
  c <> 0.

(** The generator after [n] calls of [next], started with chunk size
    [c] on the file. *)
Definition generator_at (fs : filesystem) (file_path key : string) (c : Z)
           (n : nat) (g : generator) : Prop :=
  match g with
  | Created p k _ cs => n = 0%nat /\ p = file_path /\ k = key /\ cs = Some c
  | Suspended fr =>
      frame_of_call fs file_path key c fr /\ Z.of_nat n = fr_chunk fr + 1
  | Finished => True
  end.

(** Is the member a rank-1 dataset? *)
Definition rank1_member (m : string * dataset) : bool := (ndim (snd m) =? 1)%nat.

(* ================================================================== *)
(** * A sample file                                                    *)
(* ================================================================== *)

Module Sample.

(** Ten events.  [energy] is a rank-1 dataset of big-endian 16-bit
    numbers 100, 101, ..., 109; [position] is a 10 x 2 dataset of
    native 16-bit numbers, row i holding (i, 256 + i). *)
Definition event_ids : list byte :=
  [x00; x01; x02; x03; x04; x05; x06; x07; x08; x09].

Definition energy_bytes : list byte :=
  [x64; x65; x66; x67; x68; x69; x6a; x6b; x6c; x6d].

Definition energy : dataset :=
  mkArray Big (Rank1 (map (fun b => [[x00; b]]) energy_bytes)).

Definition position : dataset :=
  mkArray Native (Rank2 2 (map (fun b => [[[b; x00]]; [[b; x01]]]) event_ids)).

Definition events : group := [("energy", energy); ("position", position)].

Definition run_file : h5file :=
  mkFile true true (below_root [("events", events)]).

(** The same content, without write permission. *)
Definition archived_file : h5file :=
  mkFile true false (below_root [("events", events)]).

(** A file whose group holds the rank-2 dataset only. *)
Definition tracks : group := [("position", position)].

Definition tracks_file : h5file :=
  mkFile true true (below_root [("events", tracks)]).

Definition disk : filesystem :=
  [("run.hdf5", run_file); ("archive/run.hdf5", archived_file);
   ("tracks.hdf5", tracks_file)].

(** A heap with one array of unsigned bytes (dtype '|u1') and one array
    of native 16-bit numbers. *)
Definition u8_heap : heap :=
  mkHeap [Rank1 [[[x01]]; [[x02]]; [[x03]]]; Rank1 [[[x01; x00]]; [[x02; x00]]]]
         [mkObj 0 NotApplicable; mkObj 1 Native].

(** Stand-ins for the pandas and json functions in closed examples: a
    table reader that fails with the given exception, and readers and
    writers that are never reached. *)
Definition failing_read_hdf (e : exn)
  : string -> string -> option (list string) -> option Z -> result DataFrame :=
  fun _ _ _ _ => Raise e.

Definition no_reader : string -> result DataFrame :=
  fun _ => Raise (mkExn RuntimeError "not reached").

End Sample.

(* ================================================================== *)
(** * Files with corner cases                                          *)
(* ================================================================== *)

Module Corner.

(** A rank-3 dataset of shape (10, 2, 2): one block of four bytes per
    event. *)
Definition cube : dataset :=
  mkArray NotApplicable
          (RankN 2 2 [] (map (fun b => [[[b]]; [[b]]; [[b]]; [[b]]])
                             Sample.event_ids)).

(** Ten events with a rank-1, a rank-3 and a rank-2 dataset. *)
Definition mixed : group :=
  [("cube", cube); ("energy", Sample.energy); ("position", Sample.position)].

(** Two datasets of different lengths: three and five rows. *)
Definition short : dataset :=
  mkArray NotApplicable (Rank1 [[[x01]]; [[x02]]; [[x03]]]).

Definition long : dataset :=
  mkArray NotApplicable (Rank1 [[[x0a]]; [[x0b]]; [[x0c]]; [[x0d]]; [[x0e]]]).

Definition ragged : group := [("a_short", short); ("b_long", long)].

(** The same datasets with the longer one first. *)
Definition lagging : group := [("b_long", long); ("a_short", short)].

(** A dataset without rows. *)
Definition no_rows : group := [("energy", mkArray Native (Rank1 []))].

Definition mixed_file : h5file :=
  mkFile true true (below_root [("events", mixed)]).

Definition ragged_file : h5file :=
  mkFile true true (below_root [("events", ragged); ("lagging", lagging)]).

Definition empty_file : h5file :=
  mkFile true true (below_root [("events", []); ("runs", no_rows)]).

Definition locked_file : h5file :=
  mkFile true false (below_root [("events", Sample.events)]).

(** Next to the rank-2 dataset [position], a rank-1 dataset of ten rows
    under the name of its first flattened column. *)
Definition marker : dataset :=
  mkArray Native (Rank1 (map (fun b => [[xff; b]]) Sample.event_ids)).

Definition colliding : group :=
  [("position", Sample.position); ("position_0", marker)].

Definition colliding_file : h5file :=
  mkFile true true (below_root [("events", colliding)]).

(** An array of two big-endian complex numbers (dtype '>c8'): 1 + 2j
    and 0 + 1j, each as its real and its imaginary float. *)
Definition complex_pair : ndarray :=
  mkArray Big (Rank1 [[[x3f; x80; x00; x00]; [x40; x00; x00; x00]];
                      [[x00; x00; x00; x00]; [x3f; x80; x00; x00]]]).

Definition complex_heap : heap :=
  mkHeap [data complex_pair] [mkObj 0 Big].

Definition disk : filesystem :=
  [("mixed.h5", mixed_file); ("ragged.h5", ragged_file);
   ("empty.h5", empty_file); ("locked.h5", locked_file);
   ("colliding.h5", colliding_file)].

(** Writers that succeed, for closed examples. *)
Definition ok_writer3 : DataFrame -> string -> string -> result unit :=
  fun _ _ _ => Ok tt.

Definition ok_writer : DataFrame -> string -> result unit :=
  fun _ _ => Ok tt.

End Corner.

(* ================================================================== *)
(** * Byte order                                                       *)
(* ================================================================== *)

Local Open Scope list_scope.

Section ByteOrder.

Variable host : endian.

Lemma map_body_compose (f g : elem -> elem) (b : body) :
  map_body f (map_body g b) = map_body (fun x => f (g x)) b.
Proof.
  destruct b; simpl; f_equal; rewrite ?map_map; try reflexivity;
    apply map_ext; intros; apply map_map.
Qed.

Lemma map_body_ext (f g : elem -> elem) (b : body) :
  (forall x, f x = g x) -> map_body f b = map_body g b.
Proof.
  intros E. destruct b; simpl; f_equal; auto using map_ext.
Qed.

Lemma map_body_ndim (f : elem -> elem) (b : body) :
  body_ndim (map_body f b) = body_ndim b.
Proof. destruct b; reflexivity. Qed.

Lemma map_body_shape (f : elem -> elem) (b : body) :
  body_shape (map_body f b) = body_shape b.
Proof. destruct b; simpl; rewrite ?length_map; reflexivity. Qed.

Lemma swap_parts_involutive (x : elem) :
  map (@rev byte) (map (@rev byte) x) = x.
Proof.
  rewrite map_map. rewrite <- (map_id x) at 2.
  apply map_ext. intros p. apply rev_involutive.
Qed.

(** Swapping the bytes and flipping the tag leaves every element's
    value alone. *)
Lemma logical_swapped (bo : byteorder) (x : elem) :
  is_native host bo = false ->
  logical host (swapped_order host bo) (swap_elem bo x) = logical host bo x.
Proof.
  destruct host, bo; simpl; intros H; try discriminate; unfold logical; simpl;
    try reflexivity; apply swap_parts_involutive.
Qed.

(** The test of [to_native_byteorder], read off the tag. *)
Lemma native_test (bo : byteorder) :
  byteorder_in bo [Native; native_byteorder host] = is_native host bo.
Proof. destruct host, bo; reflexivity. Qed.

Lemma to_native_byteorder_native (a : ndarray) :
  is_native host (dtype_byteorder a) = true ->
  to_native_byteorder host a = a.
Proof.
  intros H. unfold to_native_byteorder. rewrite native_test, H. reflexivity.
Qed.

Lemma to_native_byteorder_swaps (a : ndarray) :
  is_native host (dtype_byteorder a) = false ->
  to_native_byteorder host a = newbyteorder host (byteswap a).
Proof.
  intros H. unfold to_native_byteorder. rewrite native_test, H. reflexivity.
Qed.

Lemma to_native_byteorder_values (a : ndarray) :
  values host (to_native_byteorder host a) = values host a.
Proof.
  destruct (is_native host (dtype_byteorder a)) eqn:N.
  - rewrite to_native_byteorder_native; auto.
  - rewrite to_native_byteorder_swaps by assumption.
    unfold values, newbyteorder, byteswap; simpl.
    rewrite map_body_compose. apply map_body_ext.
    intros x. apply logical_swapped. assumption.
Qed.

Lemma to_native_byteorder_ndim (a : ndarray) :
  ndim (to_native_byteorder host a) = ndim a.
Proof.
  unfold to_native_byteorder. destruct (negb _); [|reflexivity].
  unfold ndim; simpl. apply map_body_ndim.
Qed.

Lemma to_native_byteorder_shape (a : ndarray) :
  shape (to_native_byteorder host a) = shape a.
Proof.
  unfold to_native_byteorder. destruct (negb _); [|reflexivity].
  unfold shape; simpl. apply map_body_shape.
Qed.

(** After one pass the tag is native or not applicable. *)
Lemma to_native_byteorder_tag (a : ndarray) :
  let bo := dtype_byteorder (to_native_byteorder host a) in
  is_native host bo = true \/ bo = NotApplicable.
Proof.
  unfold to_native_byteorder. rewrite native_test.
  destruct (is_native host (dtype_byteorder a)) eqn:N; simpl.
  - left; assumption.
  - destruct host, (dtype_byteorder a); simpl in *; auto; discriminate.
Qed.

(** The object-level function returns an object that denotes the array
    computed by the value-level one, and leaves its argument alone. *)
Lemma deref_alloc_old (h : heap) (bs : list body) (os : list array_obj)
      (r : ref) (a : ndarray) :
  deref h r = Some a ->
  deref (mkHeap (buffers h ++ bs) (objects h ++ os)) r = Some a.
Proof.
  unfold deref; simpl. intros H.
  destruct (nth_error (objects h) r) as [o|] eqn:O; [|discriminate].
  rewrite nth_error_app1 by (apply nth_error_Some; congruence).
  rewrite O.
  destruct (nth_error (buffers h) (obj_buffer o)) as [b|] eqn:B; [|discriminate].
  rewrite nth_error_app1 by (apply nth_error_Some; congruence).
  rewrite B. assumption.
Qed.

Lemma byteswap_obj_spec (h : heap) (r : ref) (a : ndarray) :
  deref h r = Some a ->
  exists h1,
    byteswap_obj h r = Some (h1, List.length (objects h)) /\
    buffers h1 = buffers h ++ [data (byteswap a)] /\
    objects h1 = objects h
                   ++ [mkObj (List.length (buffers h)) (dtype_byteorder a)] /\
    deref h1 (List.length (objects h)) = Some (byteswap a).
Proof.
  intros H. unfold byteswap_obj. rewrite H.
  eexists; repeat split.
  unfold deref; simpl.
  rewrite nth_error_app2, Nat.sub_diag by lia. simpl.
  rewrite nth_error_app2, Nat.sub_diag by lia. reflexivity.
Qed.

Lemma newbyteorder_obj_spec (h : heap) (r : ref) (a : ndarray) :
  deref h r = Some a ->
  exists h1,
    newbyteorder_obj host h r = Some (h1, List.length (objects h)) /\
    buffers h1 = buffers h /\
    List.length (objects h1) = S (List.length (objects h)) /\
    deref h1 (List.length (objects h)) = Some (newbyteorder host a) /\
    (forall r' a', deref h r' = Some a' -> deref h1 r' = Some a').
Proof.
  intros H. unfold newbyteorder_obj.
  pose proof H as H0. unfold deref in H0.
  destruct (nth_error (objects h) r) as [o|] eqn:O; [|discriminate].
  destruct (nth_error (buffers h) (obj_buffer o)) as [b|] eqn:B; [|discriminate].
  injection H0 as <-.
  eexists; repeat split.
  - simpl. rewrite length_app. simpl. lia.
  - unfold deref; simpl.
    rewrite nth_error_app2, Nat.sub_diag by lia. simpl. rewrite B. reflexivity.
  - intros r' a' D.
    pose proof (deref_alloc_old h []
                  [mkObj (obj_buffer o) (swapped_order host (obj_byteorder o))]
                  r' a' D) as D'.
    rewrite app_nil_r in D'. exact D'.
Qed.

End ByteOrder.

Lemma map_body_id (f : elem -> elem) (b : body) :
  (forall x, f x = x) -> map_body f b = b.
Proof.
  intros E. destruct b; simpl; f_equal; auto.
  - rewrite <- (map_id xs) at 2. apply map_ext, E.
  - rewrite <- (map_id rows) at 2. apply map_ext. intros row.
    rewrite <- (map_id row) at 2. apply map_ext, E.
  - rewrite <- (map_id blocks) at 2. apply map_ext. intros blk.
    rewrite <- (map_id blk) at 2. apply map_ext, E.
Qed.

Lemma byteswap_not_applicable (a : ndarray) :
  dtype_byteorder a = NotApplicable -> byteswap a = a.
Proof.
  intros E. destruct a as [bo b]. simpl in E. subst bo.
  unfold byteswap; simpl. f_equal. apply map_body_id. reflexivity.
Qed.

Lemma deref_bound (h : heap) (r : ref) (a : ndarray) :
  deref h r = Some a -> (r < List.length (objects h))%nat.
Proof.
  unfold deref. intros H. apply nth_error_Some.
  destruct (nth_error (objects h) r); congruence.
Qed.

(** The object-level function always returns an object denoting the
    value-level result. *)
Lemma to_native_byteorder_obj_denotes (host : endian) (h : heap) (r : ref)
      (a : ndarray) :
  deref h r = Some a ->
  exists h' r',
    to_native_byteorder_obj host h r = Some (h', r') /\
    deref h' r' = Some (to_native_byteorder host a) /\
    deref h' r = Some a.
Proof.
  intros D. unfold to_native_byteorder_obj, to_native_byteorder. rewrite D.
  destruct (negb (byteorder_in (dtype_byteorder a) [Native; native_byteorder host])).
  - destruct (byteswap_obj_spec h r a D) as (h1 & E1 & B1 & O1 & D1).
    rewrite E1.
    destruct (newbyteorder_obj_spec host h1 _ _ D1) as (h2 & E2 & B2 & L2 & D2 & K2).
    rewrite O1 in E2. rewrite E2. do 2 eexists. split; [reflexivity|].
    rewrite O1 in D2. split; [exact D2|].
    apply K2. destruct h1 as [bs os]; simpl in *; subst bs os.
    apply deref_alloc_old. exact D.
  - do 2 eexists. split; [reflexivity|]. split; exact D.
Qed.

(** C6, as the code has it.  For an array whose byte-order tag is native
    ('=' or the explicit tag of the host) [to_native_byteorder] returns the
    very object it was given and allocates nothing.  For an array tagged
    not-applicable ('|') it takes the swapping branch: the result is a new
    object on a newly allocated buffer that holds the same elements under
    the same tag, and the argument is left as it was. *)
Theorem to_native_byteorder_obj_identity (host : endian) (h : heap) (r : ref)
        (a : ndarray) :
  deref h r = Some a ->
  (is_native host (dtype_byteorder a) = true ->
   to_native_byteorder_obj host h r = Some (h, r)) /\
  (dtype_byteorder a = NotApplicable ->
   exists h' r',
     to_native_byteorder_obj host h r = Some (h', r') /\
     r' <> r /\
     buffers h' = buffers h ++ [data a] /\
     deref h' r' = Some a /\
     deref h' r = Some a).
Proof.
  intros D. split.
  - intros N. unfold to_native_byteorder_obj.
    rewrite D, native_test, N. reflexivity.
  - intros NA.
    assert (NN : is_native host (dtype_byteorder a) = false)
      by (rewrite NA; destruct host; reflexivity).
    unfold to_native_byteorder_obj. rewrite D, native_test, NN. simpl.
    destruct (byteswap_obj_spec h r a D) as (h1 & E1 & B1 & O1 & D1).
    rewrite E1.
    destruct (newbyteorder_obj_spec host h1 _ _ D1) as (h2 & E2 & B2 & L2 & D2 & K2).
    rewrite E2. exists h2, (List.length (objects h1)). split; [reflexivity|].
    pose proof (deref_bound _ _ _ D) as Lt.
    rewrite byteswap_not_applicable in * by assumption.
    repeat split.
    + rewrite O1, length_app. simpl. lia.
    + rewrite B2, B1. reflexivity.
    + rewrite O1 in D2 |- *. rewrite D2. unfold newbyteorder.
      rewrite NA. destruct a; simpl in *; subst; reflexivity.
    + apply K2. destruct h1 as [bs os]; simpl in *; subst bs os.
      apply deref_alloc_old. exact D.
Qed.

Lemma to_native_byteorder_obj_identity_witness :
  deref Sample.u8_heap 1%nat = Some (mkArray Native (Rank1 [[[x01; x00]]; [[x02; x00]]])) /\
  to_native_byteorder_obj LittleEndian Sample.u8_heap 1%nat = Some (Sample.u8_heap, 1%nat).
Proof.
  split; [reflexivity|].
  apply (to_native_byteorder_obj_identity LittleEndian Sample.u8_heap 1%nat
           (mkArray Native (Rank1 [[[x01; x00]]; [[x02; x00]]]))); reflexivity.
Defined.

(** C6, as stated, fails for the tag '|': on a little-endian host the
    array of unsigned bytes at reference 0 of [u8_heap] is not returned
    itself; the call allocates a third buffer and answers with the new
    object 3. *)
Lemma to_native_byteorder_obj_copies_u1 :
  option_map dtype_byteorder (deref Sample.u8_heap 0%nat) = Some NotApplicable /\
  to_native_byteorder_obj LittleEndian Sample.u8_heap 0%nat <> Some (Sample.u8_heap, 0%nat) /\
  option_map snd (to_native_byteorder_obj LittleEndian Sample.u8_heap 0%nat) = Some 3%nat /\
  option_map (fun hr => List.length (buffers (fst hr)))
             (to_native_byteorder_obj LittleEndian Sample.u8_heap 0%nat) = Some 3%nat.
Proof.
  repeat split; try reflexivity.
  vm_compute. discriminate.
Qed.

(** C7.  [to_native_byteorder] is defined on every array (called on any
    live array object it returns an object, which denotes the value-level
    result); applying it twice gives element-wise the same values as
    applying it once; and the values of the result are the values of the
    argument.  The values are taken part by part, so that the two floats
    of a complex number, which [byteswap] swaps each on its own, keep
    their places. *)
Theorem to_native_byteorder_idempotent (host : endian) (h : heap) (r : ref)
        (x : ndarray) :
  deref h r = Some x ->
  (exists h' r',
      to_native_byteorder_obj host h r = Some (h', r') /\
      deref h' r' = Some (to_native_byteorder host x)) /\
  values host (to_native_byteorder host (to_native_byteorder host x))
  = values host (to_native_byteorder host x) /\
  values host (to_native_byteorder host x) = values host x /\
  shape (to_native_byteorder host x) = shape x.
Proof.
  intros D. split; [|split; [|split]].
  - destruct (to_native_byteorder_obj_denotes host h r x D) as (h' & r' & E & D' & _).
    exists h', r'. split; assumption.
  - apply to_native_byteorder_values.
  - apply to_native_byteorder_values.
  - apply to_native_byteorder_shape.
Qed.

Lemma to_native_byteorder_idempotent_witness :
  to_native_byteorder LittleEndian Corner.complex_pair
  = mkArray Little
            (Rank1 [[[x00; x00; x80; x3f]; [x00; x00; x00; x40]];
                    [[x00; x00; x00; x00]; [x00; x00; x80; x3f]]]) /\
  values LittleEndian
         (to_native_byteorder LittleEndian
            (to_native_byteorder LittleEndian Corner.complex_pair))
  = values LittleEndian Corner.complex_pair.
Proof.
  split; [reflexivity|].
  pose proof (to_native_byteorder_idempotent LittleEndian
                Corner.complex_heap 0%nat Corner.complex_pair
                eq_refl) as (_ & E1 & E2 & _).
  rewrite E1. exact E2.
Defined.

(* ================================================================== *)
(** * Dispatch on the file extension                                   *)
(* ================================================================== *)

Section DispatchFacts.

Variable host : endian.
Variable fs : filesystem.
Variable pd_read_hdf :
  string -> string -> option (list string) -> option Z -> result DataFrame.
Variable json_load_frame : string -> result DataFrame.
Variable pd_read_json_lines : string -> result DataFrame.



End DispatchFacts.


(** The message of [check_extension] is a function of the allowed set
    alone. *)
Lemma check_extension_message (file_path : string) (allowed : list string) :
  str_in (snd (splitext file_path)) allowed = false ->
  check_extension file_path allowed
  = Raise (mkExn IOError ("Allowed formats: " ++ repr_tuple allowed)%string).
Proof.
  intros H. unfold check_extension. rewrite H. reflexivity.
Qed.

(** C9 at [check_extension('events.txt')]: the extension '.txt' is not
    allowed and the call raises an [IOError], but the message lists the
    allowed extensions only; neither the extension nor the path occurs in
    it.  ([write_data] and [read_data] do put the extension into their
    messages.) *)
Theorem check_extension_omits_extension :
  splitext "events.txt" = ("events", ".txt") /\
  check_extension "events.txt" allowed_extensions
  = Raise (mkExn IOError
             "Allowed formats: ('.hdf', '.hdf5', '.h5', '.json', '.jsonl', '.jsonlines', '.csv')") /\
  (forall e, check_extension "events.txt" allowed_extensions = Raise e ->
             contains ".txt" (exn_msg e) = false /\
             contains "events" (exn_msg e) = false) /\
  check_extension "events.txt" allowed_extensions
  = check_extension "notes.doc" allowed_extensions.
Proof.
  split; [reflexivity|]. split; [reflexivity|]. split; [|reflexivity].
  intros e E. vm_compute in E. injection E as <-. split; reflexivity.
Qed.

(** The sibling messages: what [write_data] and [read_data] raise for an
    extension they do not handle names that extension. *)
Lemma unknown_extension_messages
      (host : endian) (fs : filesystem)
      (pd_read_hdf : string -> string -> option (list string) -> option Z
                     -> result DataFrame)
      (rj rl : string -> result DataFrame)
      (to_hdf : DataFrame -> string -> string -> result unit)
      (wj wl wc : DataFrame -> string -> result unit)
      (df : DataFrame) :
  read_data host fs pd_read_hdf rj rl "events.txt" None None
  = Raise (mkExn NotImplementedError "Unknown data file extension .txt") /\
  write_data to_hdf wj wl wc df "events.txt" "table"
  = Raise (mkExn IOError
             "cannot write tabular data with format .txt. Allowed formats: ('.hdf', '.hdf5', '.h5', '.json', '.jsonl', '.jsonlines', '.csv')").
Proof. split; reflexivity. Qed.

(* ================================================================== *)
(** * Opening the file                                                 *)
(* ================================================================== *)

Section OpenMode.

Variable host : endian.
Variable fs : filesystem.

(** Whatever [h5py.File(file_path, 'r+')] raises is what the three
    readers raise: nothing precedes the open, and nothing catches. *)
Lemma read_h5py_open_fails (file_path key : string)
      (columns : option (list string)) (e : exn) :
  File fs file_path ModeRPlus = Raise e ->
  read_h5py host fs file_path key columns = Raise e.
Proof. intros H. unfold read_h5py. rewrite H. reflexivity. Qed.

Lemma h5py_get_n_events_open_fails (file_path key : string) (e : exn) :
  File fs file_path ModeRPlus = Raise e ->
  h5py_get_n_events fs file_path key = Raise e.
Proof. intros H. unfold h5py_get_n_events. rewrite H. reflexivity. Qed.

Lemma chunked_open_fails (file_path key : string)
      (columns : option (list string)) (chunksize : option Z) (e : exn) :
  File fs file_path ModeRPlus = Raise e ->
  next host fs (Created file_path key columns chunksize)
  = (Throw (escaping e), Finished).
Proof.
  intros H. unfold next, chunked_prologue. rewrite H. reflexivity.
Qed.

Lemma File_rplus_read_only (file_path : string) (f : h5file) :
  assoc file_path fs = Some f ->
  writable f = false ->
  exists e, File fs file_path ModeRPlus = Raise e /\ exn_cls e = PermissionError.
Proof.
  intros A W. unfold File. rewrite A, W, andb_false_r.
  eexists. split; reflexivity.
Qed.

(** C10.  [read_h5py], [h5py_get_n_events] and [read_h5py_chunked] open
    the file with mode 'r+'.  For an existing file without write
    permission that open fails, so each of the three raises the
    [PermissionError] of the open (the generator at its first element),
    although opening the same file with mode 'r' succeeds whenever the
    file is readable. *)
Theorem readers_need_write_permission (file_path key : string)
        (columns : option (list string)) (chunksize : option Z) (f : h5file) :
  assoc file_path fs = Some f ->
  writable f = false ->
  exists e,
    exn_cls e = PermissionError /\
    File fs file_path ModeRPlus = Raise e /\
    read_h5py host fs file_path key columns = Raise e /\
    h5py_get_n_events fs file_path key = Raise e /\
    (exists g, read_h5py_chunked file_path key columns chunksize = Ok g /\
               next host fs g = (Throw e, Finished)) /\
    (readable f = true -> File fs file_path ModeR = Ok f).
Proof.
  intros A W.
  destruct (File_rplus_read_only file_path f A W) as (e & E & C).
  exists e. repeat split; try assumption.
  - apply read_h5py_open_fails, E.
  - apply h5py_get_n_events_open_fails, E.
  - eexists. split; [reflexivity|].
    rewrite (chunked_open_fails _ _ _ _ e E).
    unfold escaping, isinstance. rewrite C. reflexivity.
  - intros R. unfold File. rewrite A, R. reflexivity.
Qed.

(** C3, as the code has it.  [read_h5py_chunked] is a generator function:
    for a file that opens and a key that names no group of it, the call
    raises nothing and returns a generator.  The error is raised when the
    first element is requested: the [IOError] naming the key when the key
    names no object of the file at all, and the [AttributeError] of h5py
    when it names a dataset ([f.get] returns it, and it has no [keys]).
    The generator is finished after that. *)
Theorem read_h5py_chunked_missing_group (file_path key : string)
        (columns : option (list string)) (chunksize : option Z) (f : h5file) :
  File fs file_path ModeRPlus = Ok f ->
  (forall group, get f key <> Some (Group group)) ->
  exists g e,
    read_h5py_chunked file_path key columns chunksize = Ok g /\
    next host fs g = (Throw e, Finished) /\
    (get f key = None -> e = group_not_found key) /\
    (forall d, get f key = Some (Dataset d) -> e = dataset_has_no_keys) /\
    next host fs Finished = (Stop, Finished).
Proof.
  intros O G. eexists.
  exists (match get f key with
          | None => group_not_found key
          | _ => dataset_has_no_keys
          end).
  split; [reflexivity|]. split; [|split; [|split; [|reflexivity]]].
  - unfold next, chunked_prologue. rewrite O. cbn [Py.bind].
    destruct (get f key) as [[group|d]|] eqn:E; [|reflexivity|reflexivity].
    exfalso. exact (G group eq_refl).
  - intros ->. reflexivity.
  - intros d ->. reflexivity.
Qed.

End OpenMode.

Lemma readers_need_write_permission_witness :
  exists e,
    exn_cls e = PermissionError /\
    read_h5py LittleEndian Sample.disk "archive/run.hdf5" "events" None = Raise e /\
    h5py_get_n_events Sample.disk "archive/run.hdf5" "events" = Raise e /\
    File Sample.disk "archive/run.hdf5" ModeR = Ok Sample.archived_file.
Proof.
  destruct (readers_need_write_permission LittleEndian Sample.disk
              "archive/run.hdf5" "events" None (Some 4) Sample.archived_file
              eq_refl eq_refl)
    as (e & C & _ & R & N & _ & M).
  exists e. split; [exact C|]. split; [exact R|]. split; [exact N|].
  apply M. reflexivity.
Defined.

Lemma read_h5py_chunked_missing_group_witness :
  (exists g,
      read_h5py_chunked "run.hdf5" "showers" None (Some 4) = Ok g /\
      next LittleEndian Sample.disk g
      = (Throw (mkExn IOError
                  ("File does not contain group " ++ dquote ++ "showers"
                     ++ dquote)%string),
         Finished)) /\
  (exists g,
      read_h5py_chunked "run.hdf5" "events/energy" None (Some 4) = Ok g /\
      next LittleEndian Sample.disk g
      = (Throw (mkExn AttributeError "'Dataset' object has no attribute 'keys'"),
         Finished)).
Proof.
  split.
  - destruct (read_h5py_chunked_missing_group LittleEndian Sample.disk
                "run.hdf5" "showers" None (Some 4) Sample.run_file eq_refl)
      as (g & e & C & N & E & _).
    + intros group. discriminate.
    + exists g. split; [exact C|]. rewrite N, (E eq_refl). reflexivity.
  - destruct (read_h5py_chunked_missing_group LittleEndian Sample.disk
                "run.hdf5" "events/energy" None (Some 4) Sample.run_file eq_refl)
      as (g & e & C & N & _ & E & _).
    + intros group. discriminate.
    + exists g. split; [exact C|].
      rewrite N, (E Sample.energy eq_refl). reflexivity.
Defined.

(** C3, as stated, fails: the file "run.hdf5" has no group "showers", and
    the call itself raises nothing; it returns the generator that has not
    yet run any of the body. *)
Lemma read_h5py_chunked_call_does_not_raise :
  get Sample.run_file "showers" = None /\
  File Sample.disk "run.hdf5" ModeRPlus = Ok Sample.run_file /\
  read_h5py_chunked "run.hdf5" "showers" None (Some 4)
  = Ok (Created "run.hdf5" "showers" None (Some 4)) /\
  read_h5py_chunked "run.hdf5" "showers" None (Some 4)
  <> Raise (group_not_found "showers").
Proof.
  repeat split; try reflexivity. discriminate.
Qed.

(* ================================================================== *)
(** * Slices, ranges and column assignment                             *)
(* ================================================================== *)

Lemma range2_length (start stop : Z) :
  List.length (range2 start stop) = Z.to_nat (stop - start).
Proof. unfold range2. rewrite length_map, length_seq. reflexivity. Qed.

Lemma slice_length_le {A} (l : list A) (start stop : Z) :
  0 <= start -> 0 <= stop ->
  (List.length (slice l start stop) <= Z.to_nat (stop - start))%nat.
Proof.
  intros Hs He. unfold slice, slice_bound.
  destruct (Z.ltb_spec start 0); [lia|].
  destruct (Z.ltb_spec stop 0); [lia|].
  rewrite length_firstn. lia.
Qed.

Lemma read_slice_rows (d : dataset) (start stop : Z) (a : ndarray) :
  read_slice d start stop = Ok a ->
  0 <= start -> 0 <= stop ->
  (n_rows_of a <= Z.to_nat (stop - start))%nat.
Proof.
  unfold read_slice, n_rows_of, shape. intros H Hs He.
  destruct (data d); try discriminate; injection H as <-; simpl;
    apply slice_length_le; assumption.
Qed.

Lemma to_native_byteorder_rows (host : endian) (a : ndarray) :
  n_rows_of (to_native_byteorder host a) = n_rows_of a.
Proof. unfold n_rows_of. rewrite to_native_byteorder_shape. reflexivity. Qed.

Lemma values_1d_length (host : endian) (a : ndarray) :
  ndim a = 1%nat -> List.length (values_1d host a) = n_rows_of a.
Proof.
  unfold ndim, values_1d, n_rows_of, shape.
  destruct (data a); simpl; try discriminate.
  intros _. apply length_map.
Qed.

Lemma take_column_rows (a c : ndarray) (i : nat) :
  take_column a i = Ok c -> n_rows_of c = n_rows_of a.
Proof.
  unfold take_column, n_rows_of, shape.
  destruct (data a) as [x|xs|w rows|d1 d2 rest blocks]; try discriminate.
  - destruct (i <? w)%nat; [|discriminate].
    intros H; injection H as <-. simpl. now rewrite length_map.
  - destruct (i <? d1)%nat; [|discriminate].
    intros H; injection H as <-. destruct rest; simpl; now rewrite length_map.
Qed.

(** An invariant of the accumulator of a [for] loop. *)
Lemma for_each_invariant {A S} (P : S -> Prop) (body : S -> A -> result S)
      (xs : list A) :
  (forall s x s', P s -> body s x = Ok s' -> P s') ->
  forall acc r, P acc -> for_each body xs acc = Ok r -> P r.
Proof.
  intros Step. induction xs as [|x xs IH]; simpl; intros acc r HP H.
  - injection H as <-. assumption.
  - destruct (body acc x) as [s'|e] eqn:B; simpl in H; [|discriminate].
    eapply IH; [|eassumption]. eapply Step; eassumption.
Qed.

(** A column no longer than the index leaves the index as it is. *)
Lemma setitem_index (df df' : DataFrame) (name : string) (vals : list value) :
  setitem df name vals = Ok df' ->
  (List.length vals <= List.length (index df))%nat ->
  index df' = index df.
Proof.
  unfold setitem. intros H L.
  destruct (index df) as [|i idx] eqn:I.
  - destruct vals; simpl in L; [|lia]. simpl in H. injection H as <-. reflexivity.
  - destruct (List.length vals) eqn:V;
      destruct (_ =? _)%nat; try discriminate; injection H as <-; reflexivity.
Qed.

Lemma setitem_array_index (host : endian) (df df' : DataFrame) (name : string)
      (a : ndarray) :
  setitem_array host df name a = Ok df' ->
  (n_rows_of a <= List.length (index df))%nat ->
  index df' = index df.
Proof.
  unfold setitem_array. destruct (ndim a =? 1)%nat eqn:N; [|discriminate].
  apply Nat.eqb_eq in N. intros H L.
  eapply setitem_index; [eassumption|].
  rewrite values_1d_length; assumption.
Qed.

Lemma flatten_columns_index (host : endian) (col : string) (a : ndarray)
      (df df' : DataFrame) :
  flatten_columns host col a df = Ok df' ->
  (n_rows_of a <= List.length (index df))%nat ->
  index df' = index df.
Proof.
  unfold flatten_columns. destruct (shape_at a 1) as [w|e]; [|discriminate].
  simpl. intros H L.
  refine (for_each_invariant (fun d => index d = index df) _ _ _ df df' eq_refl H).
  intros s i s' Hs B.
  destruct (take_column a i) as [c|e] eqn:T; [|discriminate]. simpl in B.
  rewrite <- Hs. eapply setitem_array_index; [eassumption|].
  rewrite (take_column_rows _ _ _ T), Hs. assumption.
Qed.

Lemma chunk_column_index (host : endian) (group : H5py.group) (start stop : Z)
      (df df' : DataFrame) (col : string) :
  0 <= start -> 0 <= stop ->
  chunk_column host group start stop df col = Ok df' ->
  index df = range2 start stop ->
  index df' = range2 start stop.
Proof.
  intros Hs He H I. unfold chunk_column in H.
  destruct (getitem group col) as [d|e]; [|discriminate]. simpl in H.
  destruct (read_slice d start stop) as [a|e] eqn:R; [|discriminate]. simpl in H.
  pose proof (read_slice_rows _ _ _ _ R Hs He) as L.
  rewrite <- (to_native_byteorder_rows host) in L.
  rewrite <- range2_length, <- I in L. rewrite <- I.
  destruct (ndim (to_native_byteorder host a) =? 1)%nat.
  - eapply setitem_array_index; eassumption.
  - eapply flatten_columns_index; eassumption.
Qed.

(* ================================================================== *)
(** * The number of chunks                                             *)
(* ================================================================== *)

Lemma int_of_ceil (x : float) :
  int_of_float (ceil x)
  = - ((- shl (mantissa x) (exponent x)) / 2 ^ Z.max 0 (- exponent x)).
Proof.
  unfold int_of_float, ceil, shl. simpl.
  rewrite Z.mul_1_r. apply Z.quot_1_r.
Qed.

Lemma round_half_even_nonneg (p q : Z) :
  0 <= p -> 0 < q -> 0 <= round_half_even p q.
Proof.
  intros P Q. unfold round_half_even.
  pose proof (Z.div_pos p q P Q).
  destruct (2 * (p mod q) ?= q); [destruct (Z.even _)| |]; lia.
Qed.

Lemma round_half_even_le (p q M : Z) :
  0 < q -> p <= M * q -> round_half_even p q <= M.
Proof.
  intros Q H. unfold round_half_even.
  pose proof (Z.div_mod p q ltac:(lia)) as E.
  pose proof (Z.mod_pos_bound p q Q) as B.
  assert (K : p / q <= M) by nia.
  destruct (Z.compare_spec (2 * (p mod q)) q) as [C|C|C].
  - destruct (Z.even (p / q)); [lia|]. nia.
  - lia.
  - nia.
Qed.

Lemma round_half_even_gt (p q K : Z) :
  0 < q -> q < 2 * (p - K * q) -> K < round_half_even p q.
Proof.
  intros Q H. unfold round_half_even.
  pose proof (Z.div_mod p q ltac:(lia)) as E.
  pose proof (Z.mod_pos_bound p q Q) as B.
  assert (K' : K <= p / q) by nia.
  destruct (Z.compare_spec (2 * (p mod q)) q) as [C|C|C].
  - destruct (Z.even (p / q)); nia.
  - nia.
  - lia.
Qed.

Lemma n_chunks_of_zero (c : Z) : n_chunks_of 0 c = 0.
Proof.
  unfold n_chunks_of, truediv. destruct (c =? 0); reflexivity.
Qed.

Lemma pow2_pos (k : Z) : 0 < 2 ^ Z.max 0 k.
Proof. apply Z.pow_pos_nonneg; lia. Qed.

(** The division succeeds for a divisor other than 0. *)
Lemma truediv_nonzero (n c : Z) :
  c <> 0 -> exists q, truediv n c = Ok q /\ int_of_float (ceil q) = n_chunks_of n c.
Proof.
  intros C. unfold n_chunks_of, truediv.
  destruct (Z.eqb_spec c 0); [contradiction|].
  destruct (n =? 0); eexists; split; reflexivity.
Qed.

(** A negative chunk size gives no chunk, whatever the row count. *)
Lemma n_chunks_of_negative_size (n c : Z) :
  0 <= n -> c < 0 -> n_chunks_of n c <= 0.
Proof.
  intros N C. unfold n_chunks_of, truediv.
  destruct (Z.eqb_spec c 0); [lia|].
  destruct (Z.eqb_spec n 0); [rewrite int_of_ceil; simpl; lia|].
  rewrite int_of_ceil. cbn [mantissa exponent nearest_double].
  set (e := double_exponent (Z.abs n) (Z.abs c)).
  set (m := round_half_even _ _).
  assert (M : 0 <= m).
  { apply round_half_even_nonneg; unfold shl.
    - pose proof (pow2_pos (- e)). nia.
    - pose proof (pow2_pos e). nia. }
  replace (Z.sgn n) with 1 by lia. replace (Z.sgn c) with (-1) by lia.
  unfold shl. pose proof (pow2_pos e) as P1. pose proof (pow2_pos (- e)) as P2.
  assert (0 <= (- (1 * -1 * m * 2 ^ Z.max 0 e)) / 2 ^ Z.max 0 (- e)).
  { apply Z.div_pos; nia. }
  lia.
Qed.

(** The exponent chosen for a dividend below 2^53 is not positive, and
    twice its power of two exceeds the divisor. *)
Lemma double_exponent_small (a b : Z) :
  0 < a < 2 ^ 53 -> 0 < b ->
  double_exponent a b <= 0 /\
  (b <= 2 ^ 1074 -> b < 2 * 2 ^ (- double_exponent a b)).
Proof.
  intros A B. unfold double_exponent.
  pose proof (Z.log2_spec a ltac:(lia)) as La.
  pose proof (Z.log2_spec b B) as Lb.
  pose proof (Z.log2_nonneg a) as Na. pose proof (Z.log2_nonneg b) as Nb.
  assert (La52 : Z.log2 a <= 52).
  { destruct (Z.le_gt_cases (Z.log2 a) 52) as [|G]; [assumption|].
    assert (2 ^ 53 <= 2 ^ Z.log2 a) by (apply Z.pow_le_mono_r; lia). lia. }
  set (d := Z.log2 a - Z.log2 b).
  set (e0 := if shl b d <=? shl a (- d) then d - 52 else d - 53).
  assert (E0 : e0 <= d - 52) by (unfold e0; destruct (_ <=? _); lia).
  split; [unfold d in E0; lia|].
  intros Bb.
  destruct (Z.max_spec (-1074) e0) as [(_ & ->)|(_ & ->)].
  - assert (2 ^ Z.log2 b <= 2 ^ (- e0)).
    { apply Z.pow_le_mono_r; unfold d in E0; lia. }
    rewrite Z.pow_succ_r in Lb by assumption. unfold Z.succ in *. lia.
  - change (- -1074) with 1074. lia.
Qed.

(** For a row count below 2^53 the number of chunks computed through
    the double is never above the exact ceiling, and it is the exact
    ceiling for a chunk size up to 2^1074 (beyond, the quotient may
    underflow). *)
Lemma n_chunks_of_bounds (n c : Z) :
  0 <= n < 2 ^ 53 -> 0 < c ->
  0 <= n_chunks_of n c <= ceil_div n c /\
  (c <= 2 ^ 1074 -> n_chunks_of n c = ceil_div n c).
Proof.
  intros N C.
  assert (CB : (ceil_div n c - 1) * c < n <= ceil_div n c * c).
  { unfold ceil_div.
    pose proof (Z.div_mod (- n) c ltac:(lia)).
    pose proof (Z.mod_pos_bound (- n) c C). nia. }
  destruct (Z.eq_dec n 0) as [->|NZ].
  { rewrite n_chunks_of_zero. unfold ceil_div. simpl. split; [lia|reflexivity]. }
  unfold n_chunks_of, truediv.
  destruct (Z.eqb_spec c 0); [lia|].
  destruct (Z.eqb_spec n 0); [lia|].
  rewrite int_of_ceil. cbn [mantissa exponent nearest_double].
  rewrite (Z.abs_eq n), (Z.abs_eq c) by lia.
  replace (Z.sgn n) with 1 by lia. replace (Z.sgn c) with 1 by lia.
  destruct (double_exponent_small n c ltac:(lia) C) as (E & Big).
  set (e := double_exponent n c) in *.
  unfold shl. rewrite (Z.max_l 0 e), (Z.max_r 0 (- e)) by lia.
  rewrite Z.pow_0_r, !Z.mul_1_r, !Z.mul_1_l.
  set (E2 := 2 ^ (- e)) in *.
  assert (PE : 0 < E2) by (apply Z.pow_pos_nonneg; lia).
  set (m := round_half_even (n * E2) c).
  assert (Up : m <= ceil_div n c * E2).
  { apply round_half_even_le; [assumption|]. nia. }
  assert (M0 : 0 <= m).
  { apply round_half_even_nonneg; nia. }
  assert (D : forall x, - ((- m) / E2) <= x <-> m <= x * E2).
  { intros x.
    pose proof (Z.div_mod (- m) E2 ltac:(lia)).
    pose proof (Z.mod_pos_bound (- m) E2 PE). split; intros; nia. }
  split.
  - split.
    + pose proof (Z.div_mod (- m) E2 ltac:(lia)).
      pose proof (Z.mod_pos_bound (- m) E2 PE). nia.
    + apply D. exact Up.
  - intros Cb. specialize (Big Cb).
    assert (Lo : (ceil_div n c - 1) * E2 < m).
    { apply round_half_even_gt; [assumption|]. nia. }
    assert (~ (- ((- m) / E2) <= ceil_div n c - 1)).
    { intros H. apply D in H. lia. }
    assert (- ((- m) / E2) <= ceil_div n c) by (apply D; exact Up).
    lia.
Qed.

(** Outside these bounds the count is not the ceiling.  For 2^53 + 1
    rows and a chunk size of 2^53 the quotient rounds to 1.0 and one
    chunk is counted where two are needed; for 2^53 + 3 rows in chunks of
    one row the count is one too many; for one row and a chunk size of
    2^1075 the quotient underflows to 0.0 and no chunk is counted. *)
Lemma n_chunks_of_inexact :
  n_chunks_of (2 ^ 53 + 1) (2 ^ 53) = 1 /\
  ceil_div (2 ^ 53 + 1) (2 ^ 53) = 2 /\
  n_chunks_of (2 ^ 53 + 3) 1 = 2 ^ 53 + 4 /\
  n_chunks_of 1 (2 ^ 1075) = 0.
Proof. vm_compute. repeat split. Qed.

(** The pair of the number of chunks and the chunk size, as the
    generator computes it. *)
Lemma chunk_sizes (n c : Z) :
  c <> 0 ->
  (q <- truediv n c ;; Ok (int_of_float (ceil q), c)) = Ok (n_chunks_of n c, c).
Proof.
  intros C. destruct (truediv_nonzero n c C) as (q & -> & Q).
  simpl. rewrite Q. reflexivity.
Qed.

Lemma chunk_sizes_exact (n c : Z) :
  0 <= n < 2 ^ 53 -> 0 < c <= 2 ^ 1074 ->
  (q <- truediv n c ;; Ok (int_of_float (ceil q), c)) = Ok (ceil_div n c, c).
Proof.
  intros N C. rewrite chunk_sizes by lia.
  destruct (n_chunks_of_bounds n c N ltac:(lia)) as (_ & E).
  rewrite E by lia. reflexivity.
Qed.

Lemma pow2_53_below_1074 : 2 ^ 53 <= 2 ^ 1074.
Proof. apply Z.pow_le_mono_r; lia. Qed.

(* ================================================================== *)
(** * The chunk generator                                              *)
(* ================================================================== *)

Section Generator.

Variable host : endian.
Variable fs : filesystem.

Lemma h5py_get_n_events_nonneg (file_path key : string) (n : Z) :
  h5py_get_n_events fs file_path key = Ok n -> 0 <= n.
Proof.
  unfold h5py_get_n_events.
  destruct (File fs file_path ModeRPlus) as [f|]; [|discriminate]. simpl.
  destruct (get f key) as [[group|d0]|]; [|discriminate|discriminate].
  destruct (keys group); [discriminate|].
  destruct (getitem group s) as [d|]; [|discriminate]. simpl.
  destruct (shape_at d 0) as [m|]; [|discriminate]. simpl.
  intros H; injection H as <-. lia.
Qed.

Lemma chunked_prologue_ok (file_path key : string)
      (columns : option (list string)) (chunksize : option Z) (fr : frame) :
  chunked_prologue fs file_path key columns chunksize = Ok fr -> frame_ok fr.
Proof.
  unfold chunked_prologue.
  destruct (File fs file_path ModeRPlus) as [f|]; [|discriminate]. simpl.
  destruct (get f key) as [[group|d0]|]; [|discriminate|discriminate].
  destruct (h5py_get_n_events fs file_path key) as [n|] eqn:N; [|discriminate].
  apply h5py_get_n_events_nonneg in N. simpl.
  destruct chunksize as [c|]; simpl.
  - destruct (Z.eqb_spec c 0) as [->|NZ]; [discriminate|].
    destruct (truediv_nonzero n c NZ) as (q & -> & Q). simpl.
    destruct (drop_high_rank _ _ _); [|discriminate]. simpl.
    intros H; injection H as <-. unfold frame_ok; simpl.
    repeat split; try lia. rewrite Q. intros P.
    destruct (Z.lt_ge_cases c 0) as [Neg|]; [|assumption].
    pose proof (n_chunks_of_negative_size n c N Neg). lia.
  - destruct (drop_high_rank _ _ _); [|discriminate]. simpl.
    intros H; injection H as <-. unfold frame_ok; simpl. lia.
Qed.

Lemma advance_ok (fr : frame) : frame_ok fr -> frame_ok (advance fr).
Proof. unfold frame_ok, advance; simpl. lia. Qed.

Lemma read_chunk_index (fr : frame) (df : DataFrame) (start stop : Z) :
  frame_ok fr ->
  fr_chunk fr < fr_n_chunks fr ->
  read_chunk host fr = Ok (df, start, stop) ->
  start = fr_chunk fr * fr_chunksize fr /\
  stop = Z.min (fr_n_events fr) ((fr_chunk fr + 1) * fr_chunksize fr) /\
  index df = range2 start stop.
Proof.
  intros (C & N & S) Lt. unfold read_chunk.
  set (s := fr_chunk fr * fr_chunksize fr).
  set (e := Z.min (fr_n_events fr) ((fr_chunk fr + 1) * fr_chunksize fr)).
  destruct (for_each _ _ _) as [d|] eqn:F; [|discriminate]. simpl.
  intros H; injection H as -> <- <-. repeat split.
  assert (0 <= fr_chunksize fr) by (apply S; lia).
  assert (0 <= s) by (subst s; nia).
  assert (0 <= e) by (subst e; nia).
  refine (for_each_invariant (fun d => index d = range2 s e) _ _ _
            (frame_of_index (range2 s e)) _ eq_refl F).
  intros d0 col d1 I B. eapply chunk_column_index; eassumption.
Qed.

Lemma loop_head_yield (fr : frame) (df : DataFrame) (start stop : Z)
      (g' : generator) :
  frame_ok fr ->
  loop_head host fr = (Yield (df, start, stop), g') ->
  index df = range2 start stop /\ g' = Suspended fr.
Proof.
  intros OK. unfold loop_head.
  destruct (Z.ltb_spec (fr_chunk fr) (fr_n_chunks fr)) as [Lt|]; [|discriminate].
  destruct (read_chunk host fr) as [[[d s] e]|] eqn:R; [|discriminate].
  intros H; injection H as -> -> -> <-.
  split; [|reflexivity]. eapply read_chunk_index; eassumption.
Qed.

Lemma loop_head_ok (fr : frame) :
  frame_ok fr -> generator_ok (snd (loop_head host fr)).
Proof.
  intros OK. unfold loop_head.
  destruct (_ <? _); [|exact I].
  destruct (read_chunk host fr); simpl; [assumption|exact I].
Qed.

Lemma next_ok (g : generator) :
  generator_ok g -> generator_ok (snd (next host fs g)).
Proof.
  destruct g as [p k c cs|fr|]; simpl; intros OK.
  - destruct (chunked_prologue fs p k c cs) eqn:P; [|exact I].
    apply loop_head_ok. eapply chunked_prologue_ok; eassumption.
  - apply loop_head_ok, advance_ok, OK.
  - exact I.
Qed.

Lemma after_ok (n : nat) (g : generator) :
  generator_ok g -> generator_ok (after host fs n g).
Proof.
  revert g. induction n as [|n IH]; simpl; intros g OK; [assumption|].
  apply IH, next_ok, OK.
Qed.

Lemma next_yield_index (g g' : generator) (df : DataFrame) (start stop : Z) :
  generator_ok g ->
  next host fs g = (Yield (df, start, stop), g') ->
  index df = range2 start stop.
Proof.
  destruct g as [p k c cs|fr|]; simpl; intros OK H.
  - destruct (chunked_prologue fs p k c cs) eqn:P; [|discriminate].
    eapply loop_head_yield; [|eassumption].
    eapply chunked_prologue_ok; eassumption.
  - eapply loop_head_yield; [|eassumption]. apply advance_ok, OK.
  - discriminate.
Qed.

(** C2.  Whatever the file, key, columns and chunk size: every element
    [(df, start, stop)] that the generator of [read_h5py_chunked] yields,
    at any of its [next] calls, carries a frame whose row index is
    [start, start + 1, ..., stop - 1]. *)
Theorem chunk_index_is_global (file_path key : string)
        (columns : option (list string)) (chunksize : option Z)
        (g0 g' : generator) (n : nat) (df : DataFrame) (start stop : Z) :
  read_h5py_chunked file_path key columns chunksize = Ok g0 ->
  next host fs (after host fs n g0) = (Yield (df, start, stop), g') ->
  index df = range2 start stop.
Proof.
  intros Call Y. injection Call as <-.
  eapply next_yield_index; [|exact Y].
  apply after_ok. exact I.
Qed.

End Generator.

Lemma chunk_index_is_global_witness :
  index (mkFrame [4; 5; 6; 7]
           [("energy", [[[x68; x00]]; [[x69; x00]]; [[x6a; x00]]; [[x6b; x00]]])])
  = range2 4 8.
Proof.
  refine (chunk_index_is_global LittleEndian Sample.disk
            "run.hdf5" "events" None (Some 4) _ _ 1%nat _ 4 8 eq_refl _).
  vm_compute. reflexivity.
Defined.

(* ================================================================== *)
(** * Columns as a sequence of assignments                             *)
(* ================================================================== *)

Lemma bind_ok_r {A} (r : result A) : Py.bind r Ok = r.
Proof. destruct r; reflexivity. Qed.

Lemma for_each_app {A S} (body : S -> A -> result S) (xs ys : list A) (acc : S) :
  for_each body (xs ++ ys) acc
  = Py.bind (for_each body xs acc) (for_each body ys).
Proof.
  revert acc. induction xs as [|x xs IH]; intros acc; simpl; [reflexivity|].
  destruct (body acc x); simpl; [apply IH|reflexivity].
Qed.

Lemma for_each_map {A B S} (body : S -> B -> result S) (g : A -> B)
      (xs : list A) (acc : S) :
  for_each body (map g xs) acc = for_each (fun s x => body s (g x)) xs acc.
Proof.
  revert acc. induction xs as [|x xs IH]; intros acc; simpl; [reflexivity|].
  destruct (body acc (g x)); simpl; [apply IH|reflexivity].
Qed.

Lemma for_each_ext_in {A S} (f g : S -> A -> result S) (xs : list A) (acc : S) :
  (forall s x, In x xs -> f s x = g s x) ->
  for_each f xs acc = for_each g xs acc.
Proof.
  revert acc. induction xs as [|x xs IH]; intros acc E; simpl; [reflexivity|].
  rewrite (E acc x) by (left; reflexivity).
  destruct (g acc x); simpl; [|reflexivity].
  apply IH. intros s y Hy. apply E. right. assumption.
Qed.

Lemma for_each_flat_map {A B S} (body : S -> B -> result S) (g : A -> list B)
      (xs : list A) (acc : S) :
  for_each body (flat_map g xs) acc
  = for_each (fun s x => for_each body (g x) s) xs acc.
Proof.
  revert acc. induction xs as [|x xs IH]; intros acc; simpl; [reflexivity|].
  rewrite for_each_app.
  destruct (for_each body (g x) acc); simpl; [apply IH|reflexivity].
Qed.

Lemma slice_map {A B} (f : A -> B) (l : list A) (start stop : Z) :
  slice (map f l) start stop = map f (slice l start stop).
Proof.
  unfold slice. rewrite length_map, skipn_map, firstn_map. reflexivity.
Qed.

Section Assignments.

Variable host : endian.

Lemma swap_elem_nil (bo : byteorder) : swap_elem bo [] = [].
Proof. destruct bo; reflexivity. Qed.

Lemma array_assignments_to_native (col : string) (a : ndarray) :
  array_assignments host col (to_native_byteorder host a)
  = array_assignments host col a.
Proof.
  destruct (is_native host (dtype_byteorder a)) eqn:N.
  - rewrite to_native_byteorder_native; auto.
  - rewrite to_native_byteorder_swaps by assumption.
    unfold array_assignments, newbyteorder, byteswap; simpl.
    destruct (data a) as [x|xs|w rows|d1 d2 rest blocks]; simpl; try reflexivity.
    + rewrite map_map. do 2 f_equal. apply map_ext.
      intros x. apply logical_swapped, N.
    + apply map_ext. intros i. f_equal. rewrite map_map. apply map_ext.
      intros row. rewrite <- (swap_elem_nil (dtype_byteorder a)) at 1.
      rewrite map_nth. apply logical_swapped, N.
Qed.

Lemma setitem_array_assign (df : DataFrame) (col : string) (a : ndarray)
      (xs : list elem) :
  data a = Rank1 xs ->
  setitem_array host df col a = for_each assign (array_assignments host col a) df.
Proof.
  intros D. unfold setitem_array, array_assignments, values_1d, ndim.
  rewrite D. simpl. unfold assign; simpl. symmetry. apply bind_ok_r.
Qed.

Lemma flatten_columns_assign (df : DataFrame) (col : string) (a : ndarray)
      (w : nat) (rows : list (list elem)) :
  data a = Rank2 w rows ->
  flatten_columns host col a df
  = for_each assign (array_assignments host col a) df.
Proof.
  intros D. unfold flatten_columns, array_assignments, shape_at, shape.
  rewrite D. simpl. rewrite for_each_map.
  apply for_each_ext_in. intros s i Hi. apply in_seq in Hi.
  unfold take_column. rewrite D.
  destruct (Nat.ltb_spec i w) as [_|]; [|lia]. simpl.
  unfold setitem_array, assign, values_1d, ndim; simpl.
  rewrite map_map. reflexivity.
Qed.

(** What [read_h5py] does for one column is to carry out the assignments
    of its dataset. *)
Lemma read_h5py_column_assign (group : H5py.group) (df : DataFrame)
      (col : string) (d : dataset) :
  getitem group col = Ok d ->
  ndim d <> 0%nat ->
  read_h5py_column host group df col
  = for_each assign (array_assignments host col d) df.
Proof.
  intros G R. unfold read_h5py_column. rewrite G. simpl.
  assert (A : read_all d = Ok d).
  { unfold read_all. unfold ndim in R. destruct (data d); simpl in R;
      [contradiction| | |]; reflexivity. }
  rewrite A. simpl.
  rewrite <- (array_assignments_to_native col d).
  set (array := to_native_byteorder host d).
  assert (N : ndim array = ndim d) by apply to_native_byteorder_ndim.
  unfold ndim in N, R |- *.
  destruct (data array) as [x|xs|w rows|d1 d2 rest blocks] eqn:D; simpl in *.
  - congruence.
  - eapply setitem_array_assign; eassumption.
  - eapply flatten_columns_assign; eassumption.
  - unfold array_assignments. rewrite D. reflexivity.
Qed.

Lemma array_assignments_slice (col : string) (d a : ndarray) (start stop : Z) :
  read_slice d start stop = Ok a ->
  array_assignments host col a
  = map (on_values (fun v => slice v start stop)) (array_assignments host col d).
Proof.
  unfold read_slice, array_assignments. intros H.
  destruct (data d) as [x|xs|w rows|d1 d2 rest blocks];
    try discriminate; injection H as <-; simpl; try reflexivity.
  - unfold on_values; simpl. now rewrite slice_map.
  - rewrite map_map. apply map_ext. intros i.
    unfold on_values; simpl. now rewrite slice_map.
Qed.

(** What the chunked reader does for one column of rank 1 or 2 is to
    carry out the same assignments, each cut to the rows of the chunk. *)
Lemma chunk_column_assign (group : H5py.group) (start stop : Z)
      (df : DataFrame) (col : string) (d : dataset) :
  getitem group col = Ok d ->
  ndim d = 1%nat \/ ndim d = 2%nat ->
  chunk_column host group start stop df col
  = for_each assign
             (map (on_values (fun v => slice v start stop))
                  (array_assignments host col d)) df.
Proof.
  intros G R. unfold chunk_column. rewrite G. simpl.
  destruct (read_slice d start stop) as [a|e] eqn:S.
  2:{ unfold read_slice, ndim in *. destruct (data d); simpl in R;
        try discriminate; lia. }
  simpl. rewrite <- (array_assignments_slice col d a start stop S).
  rewrite <- (array_assignments_to_native col a).
  assert (N : ndim (to_native_byteorder host a) = ndim d).
  { rewrite to_native_byteorder_ndim. unfold read_slice, ndim in *.
    destruct (data d); try discriminate; injection S as <-; reflexivity. }
  set (array := to_native_byteorder host a) in *.
  unfold ndim in N, R |- *.
  destruct (data array) as [x|xs|w rows|d1 d2 rest blocks] eqn:D; simpl in *.
  - lia.
  - eapply setitem_array_assign; eassumption.
  - eapply flatten_columns_assign; eassumption.
  - lia.
Qed.

End Assignments.

(* ================================================================== *)
(** * Frames built from assignments of one length                      *)
(* ================================================================== *)

Lemma assign_uniform (n : nat) (df : DataFrame) (nv : assignment) :
  List.length (index df) = n -> of_length n nv ->
  assign df nv = Ok (mkFrame (index df) (store (columns df) nv)).
Proof.
  unfold assign, setitem, of_length, store. intros I L. rewrite L, I.
  destruct (index df) as [|i idx] eqn:E; simpl in I; subst n; simpl.
  - reflexivity.
  - rewrite Nat.eqb_refl. reflexivity.
Qed.

Lemma assign_all_uniform (n : nat) (asg : list assignment) (df : DataFrame) :
  List.length (index df) = n -> Forall (of_length n) asg ->
  for_each assign asg df = Ok (mkFrame (index df) (store_all asg (columns df))).
Proof.
  revert df. induction asg as [|nv asg IH]; intros df I F; simpl.
  - destruct df; reflexivity.
  - pose proof (Forall_inv F) as L. pose proof (Forall_inv_tail F) as F'.
    rewrite (assign_uniform n df nv I L). simpl.
    rewrite IH by assumption. reflexivity.
Qed.

Lemma range_length_Z (m : Z) : List.length (range m) = Z.to_nat m.
Proof. unfold range. now rewrite length_map, length_seq. Qed.

Lemma range_length (n : nat) : List.length (range (Z.of_nat n)) = n.
Proof. unfold range. now rewrite length_map, length_seq, Nat2Z.id. Qed.

(** From [pd.DataFrame()] the first assignment fixes the index. *)
Lemma assign_all_empty_frame (n : nat) (asg : list assignment) :
  Forall (of_length n) asg ->
  for_each assign asg empty_frame
  = Ok (mkFrame (match asg with [] => [] | _ => range (Z.of_nat n) end)
                (store_all asg [])).
Proof.
  intros F. destruct asg as [|nv asg]; [reflexivity|].
  pose proof (Forall_inv F) as L. pose proof (Forall_inv_tail F) as F'.
  unfold of_length in L.
  destruct n as [|m].
  - rewrite (assign_all_uniform 0 (nv :: asg) empty_frame eq_refl F).
    reflexivity.
  - simpl for_each. unfold assign at 1, setitem. rewrite L. simpl Py.bind.
    rewrite (assign_all_uniform (S m)); simpl index; simpl columns.
    + destruct nv; reflexivity.
    + exact (range_length (S m)).
    + exact F'.
Qed.

Lemma set_col_fresh (name : string) (v : list value) (cols : list assignment) :
  ~ In name (map fst cols) -> set_col name v cols = cols ++ [(name, v)].
Proof.
  induction cols as [|[n w] cols IH]; simpl; intros N; [reflexivity|].
  destruct (String.eqb_spec n name) as [->|D].
  - exfalso. apply N. left. reflexivity.
  - rewrite IH; [reflexivity|]. intros H. apply N. right. assumption.
Qed.

Lemma store_all_fresh (asg cols : list assignment) :
  NoDup (map fst asg) ->
  (forall nv, In nv asg -> ~ In (fst nv) (map fst cols)) ->
  store_all asg cols = cols ++ asg.
Proof.
  revert cols. induction asg as [|nv asg IH]; intros cols ND Fr.
  - simpl. now rewrite app_nil_r.
  - inversion ND as [|? ? NI ND']; subst.
    change (store_all (nv :: asg) cols)
      with (store_all asg (set_col (fst nv) (snd nv) cols)).
    rewrite set_col_fresh by (apply Fr; left; reflexivity).
    rewrite IH.
    + rewrite <- app_assoc. destruct nv; reflexivity.
    + assumption.
    + intros nv' Hin. rewrite map_app, in_app_iff. simpl.
      intros [H|[H|[]]].
      * apply (Fr nv'); [right; assumption|assumption].
      * apply NI. rewrite H. apply in_map. assumption.
Qed.

Lemma set_col_on_values (f : list value -> list value) (name : string)
      (v : list value) (cols : list assignment) :
  set_col name (f v) (map (on_values f) cols)
  = map (on_values f) (set_col name v cols).
Proof.
  induction cols as [|[n w] cols IH]; simpl; [reflexivity|].
  destruct (String.eqb n name); simpl; [reflexivity|].
  now rewrite IH.
Qed.

Lemma store_all_on_values (f : list value -> list value)
      (asg cols : list assignment) :
  store_all (map (on_values f) asg) (map (on_values f) cols)
  = map (on_values f) (store_all asg cols).
Proof.
  revert cols. induction asg as [|nv asg IH]; intros cols; [reflexivity|].
  change (store_all (map (on_values f) (nv :: asg)) (map (on_values f) cols))
    with (store_all (map (on_values f) asg)
                    (set_col (fst nv) (f (snd nv)) (map (on_values f) cols))).
  rewrite set_col_on_values. apply IH.
Qed.

Lemma set_col_of_length (n : nat) (name : string) (v : list value)
      (cols : list assignment) :
  List.length v = n -> Forall (of_length n) cols ->
  Forall (of_length n) (set_col name v cols).
Proof.
  intros L. induction cols as [|[m w] cols IH]; simpl; intros F.
  - constructor; [exact L|constructor].
  - pose proof (Forall_inv F) as Lw. pose proof (Forall_inv_tail F) as Fc.
    destruct (String.eqb m name); constructor;
      try assumption; try exact L; apply IH, Fc.
Qed.

Lemma store_all_of_length (n : nat) (asg cols : list assignment) :
  Forall (of_length n) asg -> Forall (of_length n) cols ->
  Forall (of_length n) (store_all asg cols).
Proof.
  revert cols. induction asg as [|nv asg IH]; intros cols Fa Fc;
    [assumption|].
  inversion Fa; subst.
  change (store_all (nv :: asg) cols)
    with (store_all asg (set_col (fst nv) (snd nv) cols)).
  apply IH; [assumption|].
  apply set_col_of_length; assumption.
Qed.

Lemma set_col_not_nil (name : string) (v : list value) (cols : list assignment) :
  set_col name v cols <> [].
Proof.
  destruct cols as [|[m w] cols]; simpl; [discriminate|].
  destruct (String.eqb m name); discriminate.
Qed.

Lemma store_all_not_nil (asg cols : list assignment) :
  cols <> [] -> store_all asg cols <> [].
Proof.
  revert cols. induction asg as [|nv asg IH]; intros cols NE; [exact NE|].
  change (store_all (nv :: asg) cols)
    with (store_all asg (set_col (fst nv) (snd nv) cols)).
  apply IH, set_col_not_nil.
Qed.

Lemma store_all_nil_inv (asg : list assignment) :
  store_all asg [] = [] -> asg = [].
Proof.
  destruct asg as [|nv asg]; [reflexivity|]. intros H. exfalso.
  revert H.
  change (store_all (nv :: asg) [])
    with (store_all asg (set_col (fst nv) (snd nv) [])).
  apply store_all_not_nil, set_col_not_nil.
Qed.

(** ** Names of flattened columns *)

Lemma string_app_inv_head (a s t : string) :
  (a ++ s = a ++ t)%string -> s = t.
Proof.
  induction a as [|c a IH]; simpl; intros H; [assumption|].
  injection H as H. apply IH, H.
Qed.

Lemma to_uint_nonnil (n : nat) : Nat.to_uint n <> Decimal.Nil.
Proof.
  rewrite <- (DecimalNat.Unsigned.of_to n) at 1.
  rewrite DecimalNat.Unsigned.to_of. apply DecimalFacts.unorm_nonnil.
Qed.

Lemma str_of_nat_inj (i j : nat) : str_of_nat i = str_of_nat j -> i = j.
Proof.
  unfold str_of_nat. intros H.
  apply DecimalNat.Unsigned.to_uint_inj.
  assert (E : NilZero.uint_of_string (NilZero.string_of_uint (Nat.to_uint i))
              = NilZero.uint_of_string (NilZero.string_of_uint (Nat.to_uint j)))
    by (rewrite H; reflexivity).
  rewrite !NilZero.usu in E by apply to_uint_nonnil.
  injection E as E. exact E.
Qed.

Lemma flat_name_inj (col : string) (i j : nat) :
  flat_name col i = flat_name col j -> i = j.
Proof.
  unfold flat_name. intros H.
  apply string_app_inv_head in H. apply string_app_inv_head in H.
  apply str_of_nat_inj, H.
Qed.

Lemma flat_names_NoDup (col : string) (w : nat) :
  NoDup (map (flat_name col) (seq 0 w)).
Proof.
  apply Finite.Injective_map_NoDup; [|apply seq_NoDup].
  intros i j. apply flat_name_inj.
Qed.

Lemma map_nth_seq {A} (l : list A) (d : A) :
  map (fun i => nth i l d) (seq 0 (List.length l)) = l.
Proof.
  induction l as [|x l IH]; simpl; [reflexivity|].
  f_equal. rewrite <- seq_shift, map_map. exact IH.
Qed.

(* ================================================================== *)
(** * Flattening a rank-2 dataset                                      *)
(* ================================================================== *)

Section Flatten.

Variable host : endian.
Variable fs : filesystem.

Lemma getitem_assoc (group : H5py.group) (name : string) (d : dataset) :
  assoc name group = Some d -> getitem group name = Ok d.
Proof. intros A. unfold getitem. rewrite A. reflexivity. Qed.

Lemma flat_columns_names (col : string) (bo : byteorder) (w : nat)
      (rows : list (list elem)) :
  map fst (flat_columns host col bo w rows) = map (flat_name col) (seq 0 w).
Proof. unfold flat_columns. rewrite map_map. reflexivity. Qed.

Lemma flat_columns_row (col : string) (bo : byteorder) (w : nat)
      (rows : list (list elem)) (r : nat) (row : list elem) :
  nth_error rows r = Some row ->
  List.length row = w ->
  map (fun c => nth r (snd c) []) (flat_columns host col bo w rows)
  = map (logical host bo) row.
Proof.
  intros R L. unfold flat_columns. rewrite map_map. simpl.
  rewrite <- (map_nth_seq row []) at 1. rewrite L, map_map.
  apply map_ext. intros i.
  apply nth_error_nth.
  apply (map_nth_error (fun row0 => logical host bo (nth i row0 []))), R.
Qed.

(** Let [x] be a rank-2 dataset of width [w] in the group that
    [read_h5py] reads.  Asked for [x] alone, [read_h5py] returns a table
    whose columns are exactly [x_0], ..., [x_(w-1)], in this order and
    under pairwise different names; column [x_i] holds, row by row, the
    value of element [i] of the row. *)
Lemma read_h5py_flattens_alone (file_path key : string) (f : h5file)
        (group : H5py.group) (x : string) (bo : byteorder) (w : nat)
        (rows : list (list elem)) :
  File fs file_path ModeRPlus = Ok f ->
  get f key = Some (Group group) ->
  assoc x group = Some (mkArray bo (Rank2 w rows)) ->
  well_shaped (mkArray bo (Rank2 w rows)) ->
  exists df,
    read_h5py host fs file_path key (Some [x]) = Ok df /\
    column_names df = map (flat_name x) (seq 0 w) /\
    NoDup (column_names df) /\
    columns df = flat_columns host x bo w rows /\
    forall r row,
      nth_error rows r = Some row ->
      map (fun c => nth r (snd c) []) (columns df) = map (logical host bo) row.
Proof.
  intros O G A WS. unfold read_h5py. rewrite O. simpl. rewrite G. simpl.
  rewrite (read_h5py_column_assign host group empty_frame x _
             (getitem_assoc _ _ _ A)) by discriminate.
  rewrite bind_ok_r.
  change (array_assignments host x (mkArray bo (Rank2 w rows)))
    with (flat_columns host x bo w rows).
  rewrite (assign_all_empty_frame (List.length rows)).
  2:{ unfold flat_columns. apply Forall_forall. intros nv Hin.
      apply in_map_iff in Hin. destruct Hin as (i & <- & _).
      unfold of_length. simpl. apply length_map. }
  eexists. split; [reflexivity|]. unfold column_names. simpl.
  rewrite store_all_fresh.
  - simpl. rewrite flat_columns_names.
    repeat split; try apply flat_names_NoDup.
    intros r row R. apply flat_columns_row; [assumption|].
    unfold well_shaped in WS. simpl in WS.
    rewrite Forall_forall in WS. apply WS.
    eapply nth_error_In; eassumption.
  - rewrite flat_columns_names. apply flat_names_NoDup.
  - intros nv _ [].
Qed.

End Flatten.

(* ================================================================== *)
(** * Groups whose datasets have the same number of rows               *)
(* ================================================================== *)

Lemma assoc_In {A} (k : string) (l : list (string * A)) (v : A) :
  assoc k l = Some v -> In (k, v) l.
Proof.
  induction l as [|[k' v'] l IH]; simpl; [discriminate|].
  destruct (String.eqb_spec k' k) as [->|_].
  - intros H; injection H as ->. left. reflexivity.
  - intros H. right. apply IH, H.
Qed.

Lemma default_columns_exist (group : H5py.group) :
  Forall (fun c => assoc c group <> None) (default_columns group).
Proof.
  unfold default_columns. apply Forall_forall. intros c Hin.
  apply filter_In in Hin. destruct Hin as (_ & H).
  destruct (assoc c group); [discriminate|discriminate].
Qed.

Lemma resolve_columns_exist (group : H5py.group) (columns : option (list string)) :
  requested_exist group columns ->
  Forall (fun c => assoc c group <> None) (resolve_columns group columns).
Proof.
  destruct columns as [cols|]; simpl; intros R;
    [assumption|apply default_columns_exist].
Qed.

Section UniformGroup.

Variable host : endian.
Variable fs : filesystem.
Variable group : H5py.group.
Variable n : nat.
Hypothesis uniform : uniform_rows n group.

Lemma member_rows (col : string) (d : dataset) :
  assoc col group = Some d -> hd_error (shape d) = Some n.
Proof.
  intros A. apply assoc_In in A.
  pose proof uniform as U. unfold uniform_rows in U.
  rewrite Forall_forall in U. apply (U (col, d) A).
Qed.

Lemma member_rank (col : string) (d : dataset) :
  assoc col group = Some d -> ndim d <> 0%nat.
Proof.
  intros A. apply member_rows in A. unfold shape, ndim in *.
  destruct (data d); simpl in *; congruence.
Qed.

Lemma array_assignments_of_length (col : string) (d : ndarray) :
  hd_error (shape d) = Some n ->
  Forall (of_length n) (array_assignments host col d).
Proof.
  unfold shape, array_assignments. intros H.
  destruct (data d) as [x|xs|w rows|d1 d2 rest blocks]; simpl in H;
    try constructor.
  - injection H as <-. unfold of_length. simpl. apply length_map.
  - constructor.
  - injection H as <-. apply Forall_forall. intros nv Hin.
    apply in_map_iff in Hin. destruct Hin as (i & <- & _).
    unfold of_length. simpl. apply length_map.
Qed.

Lemma column_assignments_of_length (cols : list string) :
  Forall (of_length n) (flat_map (column_assignments host group) cols).
Proof.
  apply Forall_flat_map, Forall_forall. intros c _.
  unfold column_assignments.
  destruct (assoc c group) as [d|] eqn:A; [|constructor].
  apply array_assignments_of_length. eapply member_rows, A.
Qed.

(** The loop of [read_h5py] carries out the assignments of the requested
    columns, in order. *)
Lemma read_h5py_loop_assign (cols : list string) (df : DataFrame) :
  Forall (fun c => assoc c group <> None) cols ->
  for_each (read_h5py_column host group) cols df
  = for_each assign (flat_map (column_assignments host group) cols) df.
Proof.
  intros E. rewrite for_each_flat_map. apply for_each_ext_in.
  intros s c Hin. rewrite Forall_forall in E. specialize (E c Hin).
  unfold column_assignments.
  destruct (assoc c group) as [d|] eqn:A; [|contradiction].
  apply read_h5py_column_assign.
  - apply getitem_assoc, A.
  - eapply member_rank, A.
Qed.

Lemma flat_map_filter_nil {A B} (p : A -> bool) (g : A -> list B) (l : list A) :
  (forall x, In x l -> p x = false -> g x = []) ->
  flat_map g (filter p l) = flat_map g l.
Proof.
  induction l as [|x l IH]; simpl; intros H; [reflexivity|].
  destruct (p x) eqn:P; simpl.
  - f_equal. apply IH. intros y Hy. apply H. right. assumption.
  - rewrite (H x (or_introl eq_refl) P). simpl.
    apply IH. intros y Hy. apply H. right. assumption.
Qed.

Lemma map_flat_map {A B C} (f : B -> C) (g : A -> list B) (l : list A) :
  map f (flat_map g l) = flat_map (fun x => map f (g x)) l.
Proof.
  induction l as [|x l IH]; simpl; [reflexivity|].
  now rewrite map_app, IH.
Qed.

Lemma high_rank_no_assignments (c : string) :
  low_rank group c = false -> column_assignments host group c = [].
Proof.
  unfold low_rank, column_assignments, array_assignments, ndim.
  destruct (assoc c group) as [d|]; [|discriminate].
  destruct (data d); simpl; try discriminate. reflexivity.
Qed.

(** The loop of one chunk carries out the same assignments, cut to the
    rows of the chunk. *)
Lemma chunk_loop_assign (cols : list string) (start stop : Z) (df : DataFrame) :
  Forall (fun c => assoc c group <> None) cols ->
  for_each (chunk_column host group start stop) (filter (low_rank group) cols) df
  = for_each assign
             (map (on_values (fun v => slice v start stop))
                  (flat_map (column_assignments host group) cols)) df.
Proof.
  intros E.
  rewrite <- (flat_map_filter_nil (low_rank group) (column_assignments host group) cols)
    by (intros; apply high_rank_no_assignments; assumption).
  rewrite map_flat_map, for_each_flat_map. apply for_each_ext_in.
  intros s c Hin. apply filter_In in Hin. destruct Hin as (Hin & Low).
  rewrite Forall_forall in E. specialize (E c Hin).
  unfold column_assignments, low_rank in *.
  destruct (assoc c group) as [d|] eqn:A; [|contradiction].
  apply chunk_column_assign.
  - apply getitem_assoc, A.
  - pose proof (member_rank c d A).
    apply negb_true_iff, Nat.ltb_ge in Low. lia.
Qed.

End UniformGroup.

Lemma h5py_get_n_events_uniform (fs : filesystem) (group : H5py.group)
      (n : nat) (file_path key : string) (f : h5file) :
  uniform_rows n group ->
  File fs file_path ModeRPlus = Ok f ->
  get f key = Some (Group group) ->
  group <> [] ->
  h5py_get_n_events fs file_path key = Ok (Z.of_nat n).
Proof.
  intros U O G NE. unfold h5py_get_n_events. rewrite O. simpl. rewrite G.
  destruct group as [|[first d] rest]; [contradiction|]. simpl.
  unfold getitem. simpl. rewrite String.eqb_refl. simpl.
  pose proof (Forall_inv U) as R. simpl in R.
  unfold shape_at. destruct (shape d); simpl in *; [discriminate|].
  injection R as ->. reflexivity.
Qed.

(** ** The removal of columns of rank above two *)

Lemma list_remove_middle (x : string) (kept rest : list string) :
  ~ In x kept -> list_remove x (kept ++ x :: rest) = kept ++ rest.
Proof.
  induction kept as [|y kept IH]; simpl; intros N.
  - now rewrite String.eqb_refl.
  - destruct (String.eqb_spec y x) as [->|_].
    + exfalso. apply N. left. reflexivity.
    + rewrite IH; [reflexivity|]. intros H. apply N. right. assumption.
Qed.

Lemma drop_high_rank_filter (group : H5py.group) (snapshot kept : list string) :
  Forall (fun c => assoc c group <> None) snapshot ->
  Forall (fun c => low_rank group c = true) kept ->
  drop_high_rank group snapshot (kept ++ snapshot)
  = Ok (kept ++ filter (low_rank group) snapshot).
Proof.
  revert kept. induction snapshot as [|c rest IH]; intros kept E K; simpl.
  - reflexivity.
  - pose proof (Forall_inv E) as Ec. pose proof (Forall_inv_tail E) as Er.
    unfold getitem, low_rank at 1.
    destruct (assoc c group) as [d|] eqn:A; [|contradiction]. simpl.
    destruct (2 <? ndim d)%nat eqn:High; simpl.
    + rewrite list_remove_middle; [apply IH; assumption|].
      intros Hin. rewrite Forall_forall in K. specialize (K c Hin).
      unfold low_rank in K. rewrite A, High in K. discriminate.
    + change (kept ++ c :: rest) with (kept ++ [c] ++ rest).
      rewrite app_assoc, IH; [now rewrite <- app_assoc|assumption|].
      apply Forall_app. split; [assumption|].
      constructor; [|constructor]. unfold low_rank. now rewrite A, High.
Qed.

(* ================================================================== *)
(** * Slices and ranges that follow each other                         *)
(* ================================================================== *)

Lemma firstn_add {A} (x y : nat) (l : list A) :
  firstn (x + y) l = firstn x l ++ firstn y (skipn x l).
Proof.
  revert l. induction x as [|x IH]; intros l; simpl; [reflexivity|].
  destruct l as [|a l]; simpl.
  - now rewrite firstn_nil.
  - now rewrite IH.
Qed.

Lemma slice_inside {A} (l : list A) (a b : Z) :
  0 <= a <= b -> b <= Z.of_nat (List.length l) ->
  slice l a b = firstn (Z.to_nat b - Z.to_nat a) (skipn (Z.to_nat a) l).
Proof.
  intros Hab Hb. unfold slice, slice_bound.
  destruct (Z.ltb_spec a 0); [lia|]. destruct (Z.ltb_spec b 0); [lia|].
  rewrite !Z.min_l by lia. f_equal. lia.
Qed.

Lemma slice_length {A} (l : list A) (a b : Z) :
  0 <= a <= b -> b <= Z.of_nat (List.length l) ->
  List.length (slice l a b) = Z.to_nat (b - a).
Proof.
  intros Hab Hb. rewrite slice_inside by assumption.
  rewrite length_firstn, length_skipn. lia.
Qed.

Lemma slice_app {A} (l : list A) (a b d : Z) :
  0 <= a <= b -> b <= d -> d <= Z.of_nat (List.length l) ->
  slice l a b ++ slice l b d = slice l a d.
Proof.
  intros Hab Hbd Hd. rewrite !slice_inside by lia.
  replace (Z.to_nat d - Z.to_nat a)%nat
    with ((Z.to_nat b - Z.to_nat a) + (Z.to_nat d - Z.to_nat b))%nat by lia.
  rewrite firstn_add, skipn_skipn. do 3 f_equal. lia.
Qed.

Lemma slice_all {A} (l : list A) :
  slice l 0 (Z.of_nat (List.length l)) = l.
Proof.
  rewrite slice_inside by lia. simpl. rewrite Nat.sub_0_r, Nat2Z.id.
  apply firstn_all.
Qed.

Lemma map_seq_from {A} (f : nat -> A) (x y : nat) :
  map f (seq x y) = map (fun i => f (x + i)%nat) (seq 0 y).
Proof.
  revert x. induction y as [|y IH]; intros x; simpl; [reflexivity|].
  rewrite Nat.add_0_r. f_equal.
  rewrite (IH (S x)), <- seq_shift, map_map. apply map_ext. intros i.
  f_equal. lia.
Qed.

Lemma range2_app (a b d : Z) :
  a <= b -> b <= d -> range2 a b ++ range2 b d = range2 a d.
Proof.
  intros Hab Hbd. unfold range2.
  replace (Z.to_nat (d - a)) with (Z.to_nat (b - a) + Z.to_nat (d - b))%nat by lia.
  rewrite seq_app, map_app. apply (f_equal (app _)).
  rewrite (map_seq_from _ (0 + Z.to_nat (b - a))).
  apply map_ext. intros i. lia.
Qed.

Lemma range2_from_zero (n : Z) : range2 0 n = range n.
Proof.
  unfold range2, range. rewrite Z.sub_0_r. apply map_ext. intros i. lia.
Qed.

Lemma append_cols_on_values (f g : list value -> list value)
      (cols : list assignment) :
  append_cols (map (on_values f) cols) (map (on_values g) cols)
  = Some (map (on_values (fun v => f v ++ g v)) cols).
Proof.
  induction cols as [|[name v] cols IH]; simpl; [reflexivity|].
  rewrite String.eqb_refl, IH. reflexivity.
Qed.

Lemma concat_cons (x : DataFrame) (l : list DataFrame) :
  l <> [] ->
  concat (x :: l) = match concat l with
                    | Some r => append_frames x r
                    | None => None
                    end.
Proof. destruct l; [contradiction|reflexivity]. Qed.

Lemma on_values_ext_in (f g : list value -> list value) (cols : list assignment)
      (n : nat) :
  Forall (of_length n) cols ->
  (forall v, List.length v = n -> f v = g v) ->
  map (on_values f) cols = map (on_values g) cols.
Proof.
  intros F E. apply map_ext_in. intros [name v] Hin.
  rewrite Forall_forall in F. specialize (F _ Hin).
  unfold on_values. simpl. f_equal. apply E, F.
Qed.

Lemma ceil_div_bounds (n c : Z) :
  0 < c -> (ceil_div n c - 1) * c < n <= ceil_div n c * c.
Proof.
  intros Hc. unfold ceil_div.
  pose proof (Z.div_mod (- n) c ltac:(lia)) as E.
  pose proof (Z.mod_pos_bound (- n) c Hc) as B.
  nia.
Qed.

(* ================================================================== *)
(** * Reading a uniform group in chunks                                *)
(* ================================================================== *)

Section ChunkedRead.

Variable host : endian.
Variable fs : filesystem.
Variables file_path key : string.
Variable wanted : option (list string).
Variable f : h5file.
Variable group : H5py.group.
Variable n : nat.
Variable c : Z.

Hypothesis opens : File fs file_path ModeRPlus = Ok f.
Hypothesis found : get f key = Some (Group group).
Hypothesis nonempty : group <> [].
Hypothesis uniform : uniform_rows n group.
Hypothesis requested : requested_exist group wanted.
Hypothesis size : 1 <= c <= Z.of_nat n.

Let N : Z := Z.of_nat n.
Let cols : list string := resolve_columns group wanted.
Let asg : list assignment := flat_map (column_assignments host group) cols.

Local Abbreviation the_columns := (table_columns host wanted group).
Local Abbreviation frame_k := (frame_at wanted group n c).
Local Abbreviation chunk_k := (chunk_at host wanted group n c).

Lemma cols_exist : Forall (fun col => assoc col group <> None) cols.
Proof. apply resolve_columns_exist, requested. Qed.

Lemma asg_of_length : Forall (of_length n) asg.
Proof. apply column_assignments_of_length, uniform. Qed.

Lemma table_columns_of_length : Forall (of_length n) the_columns.
Proof. apply store_all_of_length; [apply asg_of_length|constructor]. Qed.

Lemma n_chunks_bounds :
  (ceil_div N c - 1) * c < N <= ceil_div N c * c /\ 1 <= ceil_div N c.
Proof.
  pose proof (ceil_div_bounds N c ltac:(lia)) as B.
  split; [exact B|]. unfold N in *. nia.
Qed.

Lemma chunked_prologue_uniform :
  Z.of_nat n < 2 ^ 53 ->
  chunked_prologue fs file_path key wanted (Some c) = Ok (frame_k 0).
Proof.
  intros rows_bound. unfold chunked_prologue. rewrite opens. simpl. rewrite found.
  rewrite (h5py_get_n_events_uniform fs group n file_path key f
             uniform opens found nonempty).
  cbn [Py.bind].
  rewrite chunk_sizes_exact by (pose proof pow2_53_below_1074; lia).
  cbn [Py.bind]. fold cols.
  pose proof (drop_high_rank_filter group cols [] cols_exist (Forall_nil _)) as D.
  simpl in D. rewrite D. reflexivity.
Qed.

Lemma read_chunk_at (k : Z) :
  0 <= k < ceil_div N c ->
  read_chunk host (frame_k k) = Ok (chunk_k k).
Proof.
  intros K. pose proof n_chunks_bounds as (B & _).
  unfold read_chunk, frame_at, chunk_at. simpl. fold N cols.
  set (start := k * c). set (stop := Z.min N ((k + 1) * c)).
  assert (R : 0 <= start <= stop /\ stop <= N) by (subst start stop; nia).
  rewrite (chunk_loop_assign host group n uniform cols start stop _ cols_exist).
  fold asg.
  rewrite (assign_all_uniform (Z.to_nat (stop - start))).
  - simpl. unfold table_columns.
    rewrite <- store_all_on_values. reflexivity.
  - simpl. apply range2_length.
  - apply Forall_forall. intros nv Hin.
    apply in_map_iff in Hin. destruct Hin as (nv0 & <- & Hin).
    pose proof asg_of_length as L. rewrite Forall_forall in L.
    specialize (L nv0 Hin). unfold of_length, on_values in *. simpl.
    apply slice_length; [lia|]. rewrite L. unfold N in *. lia.
Qed.

Lemma loop_head_at (k : Z) :
  0 <= k < ceil_div N c ->
  loop_head host (frame_k k) = (Yield (chunk_k k), Suspended (frame_k k)).
Proof.
  intros K. unfold loop_head.
  rewrite (read_chunk_at k K).
  change (fr_chunk (frame_k k)) with k.
  change (fr_n_chunks (frame_k k)) with (ceil_div N c).
  destruct (Z.ltb_spec k (ceil_div N c)); [reflexivity|lia].
Qed.

Lemma loop_head_end : loop_head host (frame_k (ceil_div N c)) = (Stop, Finished).
Proof.
  unfold loop_head.
  change (fr_chunk (frame_k (ceil_div N c))) with (ceil_div N c).
  change (fr_n_chunks (frame_k (ceil_div N c))) with (ceil_div N c).
  rewrite Z.ltb_irrefl. reflexivity.
Qed.

(** Draining a generator whose next step is the loop head at chunk [k]
    yields the chunks [k], [k + 1], ... up to the last. *)
Lemma drain_from (m : nat) :
  forall (k : Z) (g : generator) (fuel : nat),
    0 <= k -> k + Z.of_nat m = ceil_div N c ->
    next host fs g = loop_head host (frame_k k) ->
    (m < fuel)%nat ->
    drain host fs fuel g = Some (Ok (map chunk_k (range2 k (ceil_div N c)))).
Proof.
  induction m as [|m IH]; intros k g fuel K E Nx F;
    destruct fuel as [|fuel]; try lia; simpl; rewrite Nx.
  - replace k with (ceil_div N c) by lia. rewrite loop_head_end.
    unfold range2. rewrite Z.sub_diag. reflexivity.
  - rewrite loop_head_at by lia.
    rewrite (IH (k + 1) (Suspended (frame_k k)) fuel); try lia.
    + f_equal. f_equal.
      rewrite <- (range2_app k (k + 1) (ceil_div N c)) by lia.
      unfold range2 at 2. replace (k + 1 - k) with 1 by lia.
      simpl. rewrite Z.add_0_r. reflexivity.
    + reflexivity.
Qed.

(** The frames of the chunks from [k] on, concatenated, are the rows
    from [k * c] on. *)
Lemma concat_from (m : nat) :
  forall k : Z,
    0 <= k -> k + Z.of_nat (S m) = ceil_div N c ->
    concat (map chunk_frame
                (map chunk_k (range2 k (ceil_div N c))))
    = Some (mkFrame (range2 (k * c) N)
                    (map (on_values (fun v => slice v (k * c) N)) the_columns)).
Proof.
  pose proof n_chunks_bounds as (B & _).
  induction m as [|m IH]; intros k K E.
  - unfold range2 at 1. replace (ceil_div N c - k) with 1 by lia. simpl.
    rewrite Z.add_0_r. unfold chunk_frame, chunk_at. simpl. fold N.
    replace (Z.min N ((k + 1) * c)) with N by nia.
    reflexivity.
  - rewrite <- (range2_app k (k + 1) (ceil_div N c)) by lia.
    unfold range2 at 1. replace (k + 1 - k) with 1 by lia.
    simpl app. rewrite Z.add_0_r.
    specialize (IH (k + 1) ltac:(lia) ltac:(lia)).
    rewrite !map_cons, concat_cons, IH.
    + unfold append_frames, chunk_frame, chunk_at. simpl. fold N.
      replace (Z.min N ((k + 1) * c)) with ((k + 1) * c) by nia.
      rewrite append_cols_on_values. simpl.
      rewrite range2_app by nia.
      f_equal. f_equal.
      apply (on_values_ext_in _ _ _ n table_columns_of_length).
      intros v Lv. apply slice_app; unfold N in *; nia.
    + intros E0. rewrite E0 in IH. discriminate IH.
Qed.

Lemma concat_chunks :
  concat (map chunk_frame
              (map chunk_k (range (ceil_div N c))))
  = Some (mkFrame (range N) the_columns).
Proof.
  pose proof n_chunks_bounds as (_ & P).
  rewrite <- range2_from_zero.
  rewrite (concat_from (Z.to_nat (ceil_div N c) - 1) 0) by lia.
  simpl. rewrite range2_from_zero. f_equal. f_equal.
  rewrite <- (map_id the_columns) at 2.
  apply map_ext_in. intros [name v] Hin.
  pose proof table_columns_of_length as F. rewrite Forall_forall in F.
  specialize (F _ Hin). unfold on_values, of_length in *. simpl in *.
  f_equal. unfold N. rewrite <- F. apply slice_all.
Qed.

Lemma read_h5py_uniform :
  read_h5py host fs file_path key wanted
  = Ok (mkFrame (match asg with [] => [] | _ => range N end) the_columns).
Proof.
  unfold read_h5py. rewrite opens. simpl. rewrite found. fold cols.
  rewrite (read_h5py_loop_assign host group n uniform cols _ cols_exist).
  fold asg. apply assign_all_empty_frame, asg_of_length.
Qed.

Lemma table_columns_nil : the_columns = [] -> asg = [].
Proof. apply store_all_nil_inv. Qed.

End ChunkedRead.

(* ================================================================== *)
(** * The chunked read against the single read                         *)
(* ================================================================== *)

Lemma nth_error_seq (m k i : nat) :
  nth_error (seq 0 m) k = Some i -> (k < m)%nat /\ i = k.
Proof.
  intros E.
  assert (L : (k < m)%nat).
  { rewrite <- (length_seq m 0). apply nth_error_Some. congruence. }
  split; [exact L|].
  apply (nth_error_nth _ _ 0%nat) in E. rewrite seq_nth in E by exact L.
  lia.
Qed.

Lemma nth_error_map_range {A} (g : Z -> A) (m : Z) (k : nat) (x : A) :
  nth_error (map g (range m)) k = Some x ->
  (k < Z.to_nat m)%nat /\ x = g (Z.of_nat k).
Proof.
  unfold range. rewrite map_map. intros H.
  destruct (nth_error (seq 0 (Z.to_nat m)) k) as [i|] eqn:E.
  - pose proof (nth_error_seq _ _ _ E) as (L & ->).
    apply (map_nth_error (fun j => g (Z.of_nat j))) in E.
    split; [exact L|congruence].
  - exfalso. apply nth_error_None in E.
    assert (N : nth_error (map (fun j => g (Z.of_nat j)) (seq 0 (Z.to_nat m))) k
                = None) by (apply nth_error_None; rewrite length_map; exact E).
    congruence.
Qed.

Lemma nth_error_map_range_intro {A} (g : Z -> A) (m : Z) (k : nat) :
  (k < Z.to_nat m)%nat ->
  nth_error (map g (range m)) k = Some (g (Z.of_nat k)).
Proof.
  intros L. unfold range. rewrite map_map.
  apply (map_nth_error (fun i => g (Z.of_nat i))).
  destruct (nth_error (seq 0 (Z.to_nat m)) k) as [i|] eqn:E.
  - apply nth_error_seq in E. destruct E as (_ & ->). reflexivity.
  - apply nth_error_None in E. rewrite length_seq in E. lia.
Qed.

(** Under the assumptions of section [ChunkedRead]: what the generator
    yields, what the single read returns, and how they are related. *)
Lemma chunked_read_summary (host : endian) (fs : filesystem)
      (file_path key : string) (wanted : option (list string)) (f : h5file)
      (group : H5py.group) (n : nat) (c : Z) :
  File fs file_path ModeRPlus = Ok f ->
  get f key = Some (Group group) ->
  group <> [] ->
  uniform_rows n group ->
  requested_exist group wanted ->
  1 <= c <= Z.of_nat n ->
  Z.of_nat n < 2 ^ 53 ->
  let chunks := map (chunk_at host wanted group n c)
                    (range (ceil_div (Z.of_nat n) c)) in
  let cols := table_columns host wanted group in
  (forall fuel, (List.length chunks < fuel)%nat ->
                drain host fs fuel (Created file_path key wanted (Some c))
                = Some (Ok chunks)) /\
  (exists idx,
      read_h5py host fs file_path key wanted = Ok (mkFrame idx cols) /\
      (cols <> [] -> idx = range (Z.of_nat n)) /\
      (cols = [] -> idx = [])) /\
  concat (map chunk_frame chunks) = Some (mkFrame (range (Z.of_nat n)) cols) /\
  ((ceil_div (Z.of_nat n) c - 1) * c < Z.of_nat n <= ceil_div (Z.of_nat n) c * c
   /\ 1 <= ceil_div (Z.of_nat n) c).
Proof.
  intros O G NE U R S Bd chunks cols.
  pose proof (n_chunks_bounds n c S) as B.
  split; [|split; [|split]].
  - intros fuel F. subst chunks. rewrite <- range2_from_zero.
    apply (drain_from host fs wanted group n c U R S
             (Z.to_nat (ceil_div (Z.of_nat n) c))); try lia.
    + simpl. rewrite (chunked_prologue_uniform fs file_path key wanted
                        f group n c O G NE U R S Bd). reflexivity.
    + rewrite length_map, range_length_Z in F. exact F.
  - rewrite (read_h5py_uniform host fs file_path key wanted f group n O G U R).
    eexists. split; [reflexivity|]. split.
    + intros C. destruct (flat_map _ _) eqn:A; [|reflexivity].
      exfalso. apply C. unfold cols, table_columns. rewrite A. reflexivity.
    + intros C. apply table_columns_nil in C. rewrite C. reflexivity.
  - apply (concat_chunks host wanted group n c U S).
  - exact B.
Qed.

(** C1, as the code has it.  Take a group whose datasets all have [n]
    rows, with [n] below 2^53, a chunk size [c] with [1 <= c <= n] and
    requested columns that exist in the group.  The generator of [read_h5py_chunked] yields
    [ceil(n / c)] chunks and then stops.  Chunk [k] covers the rows from
    [k * c] up to [min n (k * c + c)] and is indexed by them: the first
    chunk starts at 0, each chunk starts where the one before it ends, the
    last one ends at [n], and every chunk but the last has exactly [c]
    rows.  [read_h5py] on the same columns returns a table, and the chunks
    concatenated in order have the columns of that table (names, order and
    values) and the row index [0 .. n-1].  This is the very table of
    [read_h5py] whenever it has at least one column; with no column at all
    the table of [read_h5py] has no rows. *)
Theorem read_h5py_chunked_partitions (host : endian) (fs : filesystem)
        (file_path key : string) (wanted : option (list string)) (f : h5file)
        (group : H5py.group) (n : nat) (c : Z) :
  File fs file_path ModeRPlus = Ok f ->
  get f key = Some (Group group) ->
  group <> [] ->
  uniform_rows n group ->
  requested_exist group wanted ->
  1 <= c <= Z.of_nat n ->
  Z.of_nat n < 2 ^ 53 ->
  exists g chunks table whole,
    read_h5py_chunked file_path key wanted (Some c) = Ok g /\
    (forall fuel, (List.length chunks < fuel)%nat ->
                  drain host fs fuel g = Some (Ok chunks)) /\
    Z.of_nat (List.length chunks) = ceil_div (Z.of_nat n) c /\
    (ceil_div (Z.of_nat n) c - 1) * c < Z.of_nat n <= ceil_div (Z.of_nat n) c * c /\
    (forall k df start stop,
        nth_error chunks k = Some (df, start, stop) ->
        start = Z.of_nat k * c /\
        stop = Z.min (Z.of_nat n) (start + c) /\
        index df = range2 start stop /\
        Z.of_nat (n_rows df) = stop - start /\
        ((S k < List.length chunks)%nat ->
         stop - start = c /\
         exists df' stop', nth_error chunks (S k) = Some (df', stop, stop')) /\
        (S k = List.length chunks -> stop = Z.of_nat n)) /\
    read_h5py host fs file_path key wanted = Ok table /\
    concat (map chunk_frame chunks) = Some whole /\
    columns whole = columns table /\
    index whole = range (Z.of_nat n) /\
    (columns table <> [] -> whole = table) /\
    (columns table = [] -> index table = []).
Proof.
  intros O G NE U R Sz Bd.
  destruct (chunked_read_summary host fs file_path key wanted f group n c
              O G NE U R Sz Bd) as (D & (idx & T & I1 & I0) & C & B & P).
  set (nch := ceil_div (Z.of_nat n) c) in *.
  set (chunks := map (chunk_at host wanted group n c) (range nch)) in *.
  assert (L : List.length chunks = Z.to_nat nch)
    by (unfold chunks; now rewrite length_map, range_length_Z).
  exists (Created file_path key wanted (Some c)), chunks,
    (mkFrame idx (table_columns host wanted group)),
    (mkFrame (range (Z.of_nat n)) (table_columns host wanted group)).
  split; [reflexivity|]. split; [exact D|]. split; [lia|]. split; [exact B|].
  split; [|split; [exact T|split; [exact C|split; [reflexivity|split;
    [reflexivity|split]]]]].
  - intros k df start stop H.
    apply nth_error_map_range in H. destruct H as (K & E).
    unfold chunk_at in E. injection E as -> -> ->. simpl index.
    replace (Z.of_nat k * c + c) with ((Z.of_nat k + 1) * c) by lia.
    split; [reflexivity|]. split; [reflexivity|]. split; [reflexivity|].
    split; [|split].
    + unfold n_rows. simpl. rewrite range2_length. nia.
    + intros Lt. split; [nia|].
      assert (K' : (S k < Z.to_nat nch)%nat) by lia.
      pose proof (nth_error_map_range_intro (chunk_at host wanted group n c)
                    nch (S k) K') as E'.
      unfold chunks. rewrite E'. unfold chunk_at.
      replace (Z.of_nat (S k) * c) with (Z.min (Z.of_nat n) ((Z.of_nat k + 1) * c))
        by nia.
      do 2 eexists. reflexivity.
    + intros Last. nia.
  - simpl. intros NEc. rewrite (I1 NEc). reflexivity.
  - simpl. exact I0.
Qed.

Lemma read_h5py_chunked_partitions_witness :
  exists chunks table,
    drain LittleEndian Sample.disk 4
          (Created "run.hdf5" "events" (Some ["energy"; "position"]) (Some 4))
    = Some (Ok chunks) /\
    map chunk_range chunks = [(0, 4); (4, 8); (8, 10)] /\
    read_h5py LittleEndian Sample.disk "run.hdf5" "events"
              (Some ["energy"; "position"]) = Ok table /\
    concat (map chunk_frame chunks) = Some table.
Proof.
  destruct (read_h5py_chunked_partitions LittleEndian Sample.disk
              "run.hdf5" "events" (Some ["energy"; "position"])
              Sample.run_file Sample.events 10 4)
    as (g & chunks & table & whole & Cg & D & L & _ & _ & T & C & _ & _ & W & _).
  - reflexivity.
  - reflexivity.
  - discriminate.
  - repeat constructor.
  - repeat constructor; discriminate.
  - lia.
  - reflexivity.
  - injection Cg as <-.
    assert (Len : List.length chunks = 3%nat).
    { change (ceil_div (Z.of_nat 10) 4) with 3 in L. lia. }
    exists chunks, table.
    pose proof (D 4%nat ltac:(lia)) as D4.
    split; [exact D4|].
    split.
    + vm_compute in D4. injection D4 as <-. reflexivity.
    + split; [exact T|]. rewrite C. f_equal. apply W.
      vm_compute in T. injection T as <-. discriminate.
Defined.

(** C1, as stated, fails when no column is read: the group of
    "tracks.hdf5" holds a rank-2 dataset only, so with the columns left
    to their default [read_h5py] returns the frame without rows, while
    the three chunks of size 4, concatenated, have the ten rows
    0, ..., 9. *)
Lemma chunked_read_differs_without_columns :
  uniform_rows 10 Sample.tracks /\
  read_h5py LittleEndian Sample.disk "tracks.hdf5" "events" None
  = Ok empty_frame /\
  exists chunks whole,
    drain LittleEndian Sample.disk 4 (Created "tracks.hdf5" "events" None (Some 4))
    = Some (Ok chunks) /\
    concat (map chunk_frame chunks) = Some whole /\
    n_rows whole = 10%nat /\
    n_rows empty_frame = 0%nat /\
    whole <> empty_frame.
Proof.
  split; [repeat constructor|]. split; [reflexivity|].
  do 2 eexists. split; [vm_compute; reflexivity|].
  split; [vm_compute; reflexivity|].
  split; [reflexivity|]. split; [reflexivity|]. discriminate.
Qed.

(* ================================================================== *)
(** * The events scenario                                              *)
(* ================================================================== *)

Lemma events_group_uniform (bo_e bo_p : byteorder) (energy : list elem)
      (position : list (list elem)) :
  List.length energy = 10%nat ->
  List.length position = 10%nat ->
  uniform_rows 10 (events_group bo_e bo_p energy position).
Proof.
  intros Le Lp. unfold uniform_rows, events_group, shape.
  repeat constructor; simpl; congruence.
Qed.

(** Three chunks of size 4 over ten rows, read off the summary. *)
Lemma ten_rows_in_fours (host : endian) (fs : filesystem) (file_path : string)
      (wanted : option (list string)) (f : h5file) (group : H5py.group) :
  File fs file_path ModeRPlus = Ok f ->
  get f "events" = Some (Group group) ->
  group <> [] ->
  uniform_rows 10 group ->
  requested_exist group wanted ->
  table_columns host wanted group <> [] ->
  exists c0 c1 c2 table,
    (forall fuel, (3 < fuel)%nat ->
                  drain host fs fuel (Created file_path "events" wanted (Some 4))
                  = Some (Ok [(c0, 0, 4); (c1, 4, 8); (c2, 8, 10)])) /\
    Forall (fun df => column_names df
                      = map fst (table_columns host wanted group)) [c0; c1; c2] /\
    read_h5py host fs file_path "events" wanted = Ok table /\
    column_names table = map fst (table_columns host wanted group) /\
    concat [c0; c1; c2] = Some table /\
    n_rows table = 10%nat.
Proof.
  intros O G NE U R TC.
  destruct (chunked_read_summary host fs file_path "events" wanted f group 10 4
              O G NE U R ltac:(lia) eq_refl) as (D & (idx & T & I1 & _) & C & _).
  change (ceil_div (Z.of_nat 10) 4) with 3 in D, C.
  rewrite (I1 TC) in T.
  exists (chunk_frame (chunk_at host wanted group 10 4 0)),
    (chunk_frame (chunk_at host wanted group 10 4 1)),
    (chunk_frame (chunk_at host wanted group 10 4 2)),
    (mkFrame (range (Z.of_nat 10)) (table_columns host wanted group)).
  split; [exact D|]. split.
  - repeat constructor; unfold column_names, chunk_frame, chunk_at; simpl;
      rewrite map_map; reflexivity.
  - split; [exact T|]. split; [reflexivity|]. split; [exact C|reflexivity].
Qed.

(** C4, as the code has it.  Let the group [events] hold [energy]
    (rank 1, 10 rows) and [position] (rank 2, 10 x 2).  Read with
    [chunksize=4] and the columns [energy] and [position] requested, the
    generator yields exactly three chunks with the ranges (0, 4), (4, 8)
    and (8, 10), each with the columns energy, position_0, position_1, and
    their concatenation is the table of [read_h5py] on these columns,
    which has 10 rows.  With the columns left out, the ranges are the
    same, each chunk and the single read hold the column energy only, and
    again the concatenation is the table of the single read. *)
Theorem events_scenario (host : endian) (fs : filesystem) (file_path : string)
        (f : h5file) (bo_e bo_p : byteorder) (energy : list elem)
        (position : list (list elem)) :
  File fs file_path ModeRPlus = Ok f ->
  get f "events" = Some (Group (events_group bo_e bo_p energy position)) ->
  List.length energy = 10%nat ->
  List.length position = 10%nat ->
  (exists c0 c1 c2 table,
      (forall fuel, (3 < fuel)%nat ->
         drain host fs fuel
               (Created file_path "events" (Some ["energy"; "position"]) (Some 4))
         = Some (Ok [(c0, 0, 4); (c1, 4, 8); (c2, 8, 10)])) /\
      Forall (fun df => column_names df = ["energy"; "position_0"; "position_1"])
             [c0; c1; c2] /\
      read_h5py host fs file_path "events" (Some ["energy"; "position"]) = Ok table /\
      column_names table = ["energy"; "position_0"; "position_1"] /\
      concat [c0; c1; c2] = Some table /\
      n_rows table = 10%nat) /\
  (exists c0 c1 c2 table,
      (forall fuel, (3 < fuel)%nat ->
         drain host fs fuel (Created file_path "events" None (Some 4))
         = Some (Ok [(c0, 0, 4); (c1, 4, 8); (c2, 8, 10)])) /\
      Forall (fun df => column_names df = ["energy"]) [c0; c1; c2] /\
      read_h5py host fs file_path "events" None = Ok table /\
      column_names table = ["energy"] /\
      concat [c0; c1; c2] = Some table /\
      n_rows table = 10%nat).
Proof.
  intros O G Le Lp.
  pose proof (events_group_uniform bo_e bo_p energy position Le Lp) as U.
  split.
  - apply (ten_rows_in_fours host fs file_path (Some ["energy"; "position"]) f
             _ O G); try assumption; try discriminate.
    repeat constructor; discriminate.
  - apply (ten_rows_in_fours host fs file_path None f _ O G);
      try assumption; try discriminate. exact I.
Qed.

Lemma events_scenario_witness :
  exists c0 c1 c2 table,
    drain LittleEndian Sample.disk 4
          (Created "run.hdf5" "events" (Some ["energy"; "position"]) (Some 4))
    = Some (Ok [(c0, 0, 4); (c1, 4, 8); (c2, 8, 10)]) /\
    Forall (fun df => column_names df = ["energy"; "position_0"; "position_1"])
           [c0; c1; c2] /\
    read_h5py LittleEndian Sample.disk "run.hdf5" "events"
              (Some ["energy"; "position"]) = Ok table /\
    concat [c0; c1; c2] = Some table /\
    n_rows table = 10%nat.
Proof.
  destruct (events_scenario LittleEndian Sample.disk "run.hdf5" Sample.run_file
              Big Native (map (fun b => [[x00; b]]) Sample.energy_bytes)
              (map (fun b => [[[b; x00]]; [[b; x01]]]) Sample.event_ids)
              eq_refl eq_refl eq_refl eq_refl)
    as ((c0 & c1 & c2 & table & D & N & T & _ & C & R) & _).
  exists c0, c1, c2, table.
  split; [apply D; lia|]. split; [exact N|]. split; [exact T|].
  split; [exact C|exact R].
Defined.

(** C4, as stated, fails when the scenario is read as written, with no
    columns given: the default is the rank-1 datasets, so each of the
    three chunks of the sample file holds the column energy alone, and
    neither position_0 nor position_1. *)
Lemma default_columns_leave_position_out :
  exists chunks,
    drain LittleEndian Sample.disk 4 (Created "run.hdf5" "events" None (Some 4))
    = Some (Ok chunks) /\
    map chunk_range chunks = [(0, 4); (4, 8); (8, 10)] /\
    map (fun ch => column_names (chunk_frame ch)) chunks
    = [["energy"]; ["energy"]; ["energy"]] /\
    Forall (fun ch => column (chunk_frame ch) "position_0" = None /\
                      column (chunk_frame ch) "position_1" = None) chunks.
Proof.
  eexists. split; [vm_compute; reflexivity|].
  split; [reflexivity|]. split; [reflexivity|].
  repeat constructor.
Qed.

(* ================================================================== *)
(** * A rank-2 dataset among other columns                             *)
(* ================================================================== *)

(** Filtering the columns by a predicate on names commutes with storing
    a column. *)
Lemma filter_set_col (p : string -> bool) (name : string) (v : list value)
      (cols : list assignment) :
  filter (fun c => p (fst c)) (set_col name v cols)
  = if p name then set_col name v (filter (fun c => p (fst c)) cols)
    else filter (fun c => p (fst c)) cols.
Proof.
  induction cols as [|[m w] cols IH]; simpl.
  - destruct (p name); reflexivity.
  - destruct (String.eqb_spec m name) as [->|D]; simpl.
    + destruct (p name); simpl; [now rewrite String.eqb_refl|reflexivity].
    + rewrite IH. destruct (p m) eqn:Pm, (p name) eqn:Pn; simpl;
        try reflexivity.
      destruct (String.eqb_spec m name); [contradiction|reflexivity].
Qed.

Lemma filter_store_all (p : string -> bool) (asg cols : list assignment) :
  filter (fun c => p (fst c)) (store_all asg cols)
  = store_all (filter (fun c => p (fst c)) asg)
              (filter (fun c => p (fst c)) cols).
Proof.
  revert cols. induction asg as [|nv asg IH]; intros cols; [reflexivity|].
  change (store_all (nv :: asg) cols)
    with (store_all asg (set_col (fst nv) (snd nv) cols)).
  rewrite IH, filter_set_col. simpl. destruct (p (fst nv)); reflexivity.
Qed.

(** Storing a column that is already there, under a name that occurs
    once, changes nothing. *)
Lemma set_col_same (name : string) (v : list value) (cols : list assignment) :
  NoDup (map fst cols) -> In (name, v) cols -> set_col name v cols = cols.
Proof.
  induction cols as [|[m w] cols IH]; simpl; intros ND Hin; [contradiction|].
  inversion ND as [|? ? NI ND']; subst.
  destruct (String.eqb_spec m name) as [->|D].
  - destruct Hin as [E|Hin]; [injection E as ->; reflexivity|].
    exfalso. apply NI. apply (in_map fst) in Hin. exact Hin.
  - destruct Hin as [E|Hin]; [injection E as E _; contradiction|].
    now rewrite IH.
Qed.

Lemma store_all_same (asg cols : list assignment) :
  NoDup (map fst cols) -> incl asg cols -> store_all asg cols = cols.
Proof.
  intros ND. induction asg as [|nv asg IH]; intros Inc; [reflexivity|].
  change (store_all (nv :: asg) cols)
    with (store_all asg (set_col (fst nv) (snd nv) cols)).
  rewrite set_col_same; [|assumption|].
  - apply IH. intros y Hy. apply Inc. right. exact Hy.
  - destruct nv. apply Inc. left. reflexivity.
Qed.

Lemma store_all_app (a b cols : list assignment) :
  store_all (a ++ b) cols = store_all b (store_all a cols).
Proof. unfold store_all. apply fold_left_app. Qed.

(** The lists [flat] stored any number of times, at least once, next to
    nothing else, give [flat]. *)
Lemma store_all_copies (flat : list assignment) (parts : list (list assignment))
      (cols : list assignment) :
  NoDup (map fst flat) ->
  Forall (fun part => part = flat \/ part = []) parts ->
  cols = [] \/ cols = flat ->
  store_all (List.concat parts) cols = cols
  \/ store_all (List.concat parts) cols = flat.
Proof.
  intros ND F. revert cols.
  induction parts as [|part parts IH]; intros cols C; simpl; [left; reflexivity|].
  pose proof (Forall_inv F) as P. pose proof (Forall_inv_tail F) as F'.
  rewrite store_all_app.
  assert (S1 : store_all part cols = cols \/ store_all part cols = flat).
  { destruct P as [->| ->]; [|left; reflexivity].
    destruct C as [->| ->].
    - right. rewrite store_all_fresh; [reflexivity|assumption|].
      intros nv _ [].
    - left. apply store_all_same; [assumption|apply incl_refl]. }
  destruct S1 as [E|E]; rewrite E.
  - apply IH; assumption.
  - destruct (IH F' flat (or_intror eq_refl)) as [H|H]; right; exact H.
Qed.

Lemma store_all_copies_once (flat : list assignment)
      (parts : list (list assignment)) :
  NoDup (map fst flat) ->
  Forall (fun part => part = flat \/ part = []) parts ->
  In flat parts ->
  store_all (List.concat parts) [] = flat.
Proof.
  intros ND F Hin. apply in_split in Hin. destruct Hin as (l1 & l2 & ->).
  rewrite concat_app. simpl. rewrite !store_all_app.
  apply Forall_app in F. destruct F as (F1 & F2).
  pose proof (Forall_inv_tail F2) as F2'.
  assert (A : store_all flat (store_all (List.concat l1) []) = flat).
  { destruct (store_all_copies flat l1 [] ND F1 (or_introl eq_refl)) as [E|E];
      rewrite E.
    - rewrite store_all_fresh; [reflexivity|assumption|]. intros nv _ [].
    - apply store_all_same; [assumption|apply incl_refl]. }
  rewrite A.
  destruct (store_all_copies flat l2 flat ND F2' (or_intror eq_refl)) as [E|E];
    exact E.
Qed.

Lemma filter_none {A} (p : A -> bool) (l : list A) :
  (forall x, In x l -> p x = false) -> filter p l = [].
Proof.
  induction l as [|x l IH]; simpl; intros H; [reflexivity|].
  rewrite (H x (or_introl eq_refl)). apply IH.
  intros y Hy. apply H. right. exact Hy.
Qed.

Lemma filter_all {A} (p : A -> bool) (l : list A) :
  (forall x, In x l -> p x = true) -> filter p l = l.
Proof.
  induction l as [|x l IH]; simpl; intros H; [reflexivity|].
  rewrite (H x (or_introl eq_refl)). f_equal. apply IH.
  intros y Hy. apply H. right. exact Hy.
Qed.

Lemma filter_flat_map {A B} (p : B -> bool) (g : A -> list B) (l : list A) :
  filter p (flat_map g l) = List.concat (map (fun x => filter p (g x)) l).
Proof.
  induction l as [|x l IH]; simpl; [reflexivity|].
  now rewrite filter_app, IH.
Qed.

(** C5, as the code has it.  Let [x] be a rank-2 dataset of width [w]
    among the requested columns of [read_h5py], in a group whose datasets
    have the same number of rows and hold all requested columns.  As long
    as no other requested column is stored under one of the names
    [x_0 .. x_(w-1)], the columns of the resulting table under these
    names are exactly [w] columns, [x_0], ..., [x_(w-1)] in this order
    and under pairwise different names; column [x_i] holds, row by row,
    the value of element [i] of the row, so that for every row [r] of the
    dataset the values of these columns at [r], in column order, are the
    values of that row. *)
Theorem read_h5py_flattens_rank2 (host : endian) (fs : filesystem)
        (file_path key : string) (f : h5file) (group : H5py.group) (n : nat)
        (cols : list string) (x : string) (bo : byteorder) (w : nat)
        (rows : list (list elem)) :
  File fs file_path ModeRPlus = Ok f ->
  get f key = Some (Group group) ->
  uniform_rows n group ->
  Forall (fun c => assoc c group <> None) cols ->
  In x cols ->
  assoc x group = Some (mkArray bo (Rank2 w rows)) ->
  well_shaped (mkArray bo (Rank2 w rows)) ->
  (forall c nv, In c cols -> c <> x ->
                In nv (column_assignments host group c) ->
                str_in (fst nv) (map (flat_name x) (seq 0 w)) = false) ->
  exists df xcols,
    read_h5py host fs file_path key (Some cols) = Ok df /\
    xcols = filter (fun c => str_in (fst c) (map (flat_name x) (seq 0 w)))
                   (columns df) /\
    map fst xcols = map (flat_name x) (seq 0 w) /\
    NoDup (map fst xcols) /\
    xcols = flat_columns host x bo w rows /\
    forall r row,
      nth_error rows r = Some row ->
      map (fun c => nth r (snd c) []) xcols = map (logical host bo) row.
Proof.
  intros O G U E Hx A WS Free.
  rewrite (read_h5py_uniform host fs file_path key (Some cols) f group n O G U E).
  assert (X : filter (fun c : assignment =>
                        str_in (fst c) (map (flat_name x) (seq 0 w)))
                     (table_columns host (Some cols) group)
              = flat_columns host x bo w rows).
  { unfold table_columns.
    rewrite (filter_store_all
               (fun name => str_in name (map (flat_name x) (seq 0 w)))).
    simpl resolve_columns.
    change (filter _ []) with (@nil assignment).
    rewrite filter_flat_map.
    assert (Own : filter (fun c : assignment =>
                            str_in (fst c) (map (flat_name x) (seq 0 w)))
                         (column_assignments host group x)
                  = flat_columns host x bo w rows).
    { unfold column_assignments. rewrite A.
      change (array_assignments host x (mkArray bo (Rank2 w rows)))
        with (flat_columns host x bo w rows).
      apply filter_all. intros nv Hnv. unfold str_in. apply existsb_exists.
      exists (fst nv). split; [|apply String.eqb_refl].
      rewrite <- (flat_columns_names host x bo w rows). apply in_map, Hnv. }
    apply store_all_copies_once.
    - rewrite flat_columns_names. apply flat_names_NoDup.
    - apply Forall_forall. intros part Hin.
      apply in_map_iff in Hin. destruct Hin as (c & <- & Hc).
      destruct (String.eqb_spec c x) as [->|D].
      + left. exact Own.
      + right. apply filter_none. intros nv Hnv. apply (Free c nv Hc D Hnv).
    - apply in_map_iff. exists x. split; [exact Own|exact Hx]. }
  eexists. exists (flat_columns host x bo w rows).
  split; [reflexivity|]. simpl columns.
  split; [symmetry; exact X|].
  split; [apply flat_columns_names|].
  split; [rewrite flat_columns_names; apply flat_names_NoDup|].
  split; [reflexivity|].
  intros r row R. apply flat_columns_row; [assumption|].
  unfold well_shaped in WS. simpl in WS.
  rewrite Forall_forall in WS. apply WS.
  eapply nth_error_In; eassumption.
Qed.

Lemma read_h5py_flattens_rank2_witness :
  exists df,
    read_h5py LittleEndian Sample.disk "run.hdf5" "events"
              (Some ["energy"; "position"]) = Ok df /\
    map fst (filter (fun c => str_in (fst c) ["position_0"; "position_1"])
                    (columns df))
    = ["position_0"; "position_1"] /\
    map (fun c => nth 3 (snd c) [])
        (filter (fun c => str_in (fst c) ["position_0"; "position_1"])
                (columns df))
    = [[[x03; x00]]; [[x03; x01]]].
Proof.
  destruct (read_h5py_flattens_rank2 LittleEndian Sample.disk
              "run.hdf5" "events" Sample.run_file Sample.events 10
              ["energy"; "position"] "position" Native 2
              (map (fun b => [[[b; x00]]; [[b; x01]]]) Sample.event_ids)
              eq_refl eq_refl)
    as (df & xcols & R & F & N & _ & _ & V).
  - repeat constructor.
  - repeat constructor; discriminate.
  - right. left. reflexivity.
  - reflexivity.
  - simpl. repeat constructor.
  - intros c nv [<-|[<-|[]]] D Hin; [|contradiction].
    destruct Hin as [<-|[]]. reflexivity.
  - exists df. split; [exact R|].
    change (map (flat_name "position") (seq 0 2))
      with ["position_0"; "position_1"] in F, N.
    rewrite <- F. split; [exact N|].
    exact (V 3%nat [[[x03; x00]]; [[x03; x01]]] eq_refl).
Defined.

(** C5, as stated, fails when another requested column is stored under
    the name of a flattened one: the group of "colliding.h5" holds the
    rank-2 dataset [position] and a rank-1 dataset [position_0]; asked
    for both, [read_h5py] returns the columns position_0 and position_1,
    and position_0 holds the rank-1 dataset, not the first element of
    the rows of [position]. *)
Lemma flattened_column_overwritten :
  uniform_rows 10 Corner.colliding /\
  exists df,
    read_h5py LittleEndian Corner.disk "colliding.h5" "events"
              (Some ["position"; "position_0"]) = Ok df /\
    column_names df = ["position_0"; "position_1"] /\
    column df "position_0" = Some (values_1d LittleEndian Corner.marker) /\
    column df "position_0"
    <> Some (map (fun row => logical LittleEndian Native (nth 0 row []))
                 (map (fun b => [[[b; x00]]; [[b; x01]]]) Sample.event_ids)).
Proof.
  split; [repeat constructor|].
  eexists. split; [vm_compute; reflexivity|].
  split; [reflexivity|]. split; [reflexivity|]. discriminate.
Qed.

(* ================================================================== *)
(** * Further properties: byte order                                   *)
(* ================================================================== *)

Lemma to_native_byteorder_not_applicable (host : endian) (a : ndarray) :
  dtype_byteorder a = NotApplicable -> to_native_byteorder host a = a.
Proof.
  intros NA. rewrite to_native_byteorder_swaps
    by (rewrite NA; destruct host; reflexivity).
  rewrite byteswap_not_applicable by assumption.
  unfold newbyteorder. rewrite NA. destruct a; simpl in *; subst; reflexivity.
Qed.

(** X1.  [to_native_byteorder] is idempotent on the nose: a second
    application returns the array of the first with the same bytes and the
    same dtype.  The byte-order tag of a result is native ('=' or the tag
    of the host) or '|', never the foreign order. *)
Theorem to_native_byteorder_settles (host : endian) (x : ndarray) :
  to_native_byteorder host (to_native_byteorder host x)
  = to_native_byteorder host x /\
  byteorder_in (dtype_byteorder (to_native_byteorder host x))
               [Native; native_byteorder host; NotApplicable] = true.
Proof.
  destruct (to_native_byteorder_tag host x) as [N|NA].
  - split; [apply to_native_byteorder_native, N|].
    destruct host, (dtype_byteorder (to_native_byteorder _ x));
      simpl in *; congruence.
  - split; [apply to_native_byteorder_not_applicable, NA|].
    rewrite NA. destruct host; reflexivity.
Qed.

(** X2.  For an array in the foreign byte order the result holds every
    element with the bytes of each of its parts reversed (a number as a
    whole, the two halves of a complex number each on its own), under the
    explicit tag of the host, in the same shape. *)
Theorem to_native_byteorder_foreign (host : endian) (x : ndarray) :
  byteorder_in (dtype_byteorder x) [Native; native_byteorder host; NotApplicable]
  = false ->
  to_native_byteorder host x
  = mkArray (native_byteorder host) (map_body (map (@rev byte)) (data x)).
Proof.
  intros F.
  assert (N : is_native host (dtype_byteorder x) = false)
    by (destruct host, (dtype_byteorder x); simpl in *; congruence).
  rewrite to_native_byteorder_swaps by assumption.
  unfold newbyteorder, byteswap. simpl.
  destruct host, (dtype_byteorder x); simpl in *; try discriminate; reflexivity.
Qed.

Lemma to_native_byteorder_foreign_witness :
  to_native_byteorder LittleEndian Sample.energy
  = mkArray Little (Rank1 (map (fun b => [[b; x00]]) Sample.energy_bytes)).
Proof.
  rewrite (to_native_byteorder_foreign LittleEndian Sample.energy eq_refl).
  reflexivity.
Defined.

Lemma byteswap_obj_keeps (h : heap) (r : ref) (h1 : heap) (r1 : ref) :
  byteswap_obj h r = Some (h1, r1) ->
  forall r0 a0, deref h r0 = Some a0 -> deref h1 r0 = Some a0.
Proof.
  unfold byteswap_obj. destruct (deref h r) as [a|]; [|discriminate].
  intros E. injection E as <- <-. intros r0 a0. apply deref_alloc_old.
Qed.

Lemma newbyteorder_obj_keeps (host : endian) (h : heap) (r : ref) (h1 : heap)
      (r1 : ref) :
  newbyteorder_obj host h r = Some (h1, r1) ->
  forall r0 a0, deref h r0 = Some a0 -> deref h1 r0 = Some a0.
Proof.
  unfold newbyteorder_obj. destruct (nth_error (objects h) r) as [o|]; [|discriminate].
  intros E. injection E as <- <-. intros r0 a0 D.
  pose proof (deref_alloc_old h []
                [mkObj (obj_buffer o) (swapped_order host (obj_byteorder o))]
                r0 a0 D) as D'.
  rewrite app_nil_r in D'. exact D'.
Qed.

(** X3.  On array objects: [to_native_byteorder] never changes an array
    that exists already (its argument included), whatever branch it
    takes; and for an array whose tag is not '|' the object it returns is
    settled: called on it again, the function returns that same object
    and allocates nothing. *)
Theorem to_native_byteorder_obj_frame (host : endian) (h : heap) (r : ref)
        (a : ndarray) :
  deref h r = Some a ->
  exists h' r',
    to_native_byteorder_obj host h r = Some (h', r') /\
    (forall r0 a0, deref h r0 = Some a0 -> deref h' r0 = Some a0) /\
    (dtype_byteorder a <> NotApplicable ->
     to_native_byteorder_obj host h' r' = Some (h', r')).
Proof.
  intros D.
  destruct (to_native_byteorder_obj_denotes host h r a D) as (h' & r' & E & D' & _).
  exists h', r'. split; [exact E|]. split.
  - unfold to_native_byteorder_obj in E. rewrite D in E.
    destruct (negb _).
    + destruct (byteswap_obj h r) as [[h1 r1]|] eqn:B; [|discriminate].
      intros r0 a0 D0. eapply newbyteorder_obj_keeps; [exact E|].
      eapply byteswap_obj_keeps; eassumption.
    + injection E as <- <-. auto.
  - intros NNA. unfold to_native_byteorder_obj at 1. rewrite D'.
    destruct (to_native_byteorder_tag host a) as [N|NA].
    + rewrite native_test, N. reflexivity.
    + exfalso. apply NNA.
      destruct (is_native host (dtype_byteorder a)) eqn:Na.
      * rewrite to_native_byteorder_native in NA by assumption. exact NA.
      * rewrite to_native_byteorder_swaps in NA by assumption.
        unfold newbyteorder, byteswap in NA. simpl in NA.
        destruct host, (dtype_byteorder a); simpl in *; congruence.
Qed.

Lemma to_native_byteorder_obj_frame_witness :
  exists h' r',
    to_native_byteorder_obj LittleEndian
      (mkHeap [data Sample.energy] [mkObj 0 Big]) 0%nat = Some (h', r') /\
    deref h' 0%nat = Some Sample.energy /\
    to_native_byteorder_obj LittleEndian h' r' = Some (h', r').
Proof.
  destruct (to_native_byteorder_obj_frame LittleEndian
              (mkHeap [data Sample.energy] [mkObj 0 Big]) 0%nat Sample.energy
              eq_refl) as (h' & r' & E & K & S).
  exists h', r'. split; [exact E|]. split.
  - apply K. reflexivity.
  - apply S. discriminate.
Defined.

(* ================================================================== *)
(** * Further properties: errors and their messages                    *)
(* ================================================================== *)

Lemma prefix_app (k b : string) : String.prefix k (k ++ b)%string = true.
Proof.
  induction k as [|c k IH]; simpl; [destruct b; reflexivity|].
  destruct (ascii_dec c c); [exact IH|contradiction].
Qed.

Lemma append_nil_r (s : string) : (s ++ "")%string = s.
Proof. induction s as [|c s IH]; simpl; [reflexivity|now rewrite IH]. Qed.

Lemma contains_prefix (k s : string) :
  String.prefix k s = true -> contains k s = true.
Proof. intros H. destruct s; cbn [contains]; rewrite H; reflexivity. Qed.

Lemma contains_app_l (k a s : string) :
  contains k s = true -> contains k (a ++ s)%string = true.
Proof.
  intros H. induction a as [|c a IH]; [exact H|].
  cbn [append contains]. rewrite IH. apply orb_true_r.
Qed.

Lemma contains_app_r (k b : string) : contains k (k ++ b)%string = true.
Proof. apply contains_prefix, prefix_app. Qed.

Lemma contains_self (k : string) : contains k k = true.
Proof. rewrite <- (append_nil_r k) at 2. apply contains_app_r. Qed.

(** X4.  When the file opens and [key] names no object of it (neither a
    group nor a dataset), [read_h5py] and [h5py_get_n_events] raise at the
    call, both the same [IOError], whose message contains the key; the
    columns asked for play no part. *)
Theorem missing_group_names_key (host : endian) (fs : filesystem)
        (file_path key : string) (columns : option (list string)) (f : h5file) :
  File fs file_path ModeRPlus = Ok f ->
  get f key = None ->
  exists e,
    read_h5py host fs file_path key columns = Raise e /\
    h5py_get_n_events fs file_path key = Raise e /\
    exn_cls e = IOError /\
    contains key (exn_msg e) = true.
Proof.
  intros O G. exists (group_not_found key).
  unfold read_h5py, h5py_get_n_events. rewrite O. cbn [Py.bind]. rewrite G.
  split; [reflexivity|]. split; [reflexivity|]. split; [reflexivity|].
  unfold group_not_found. cbn [exn_msg].
  apply contains_app_l, contains_app_l, contains_app_r.
Qed.

Lemma missing_group_names_key_witness :
  exists e,
    read_h5py LittleEndian Sample.disk "run.hdf5" "showers" (Some ["energy"])
    = Raise e /\
    h5py_get_n_events Sample.disk "run.hdf5" "showers" = Raise e /\
    contains "showers" (exn_msg e) = true.
Proof.
  destruct (missing_group_names_key LittleEndian Sample.disk "run.hdf5"
              "showers" (Some ["energy"]) Sample.run_file eq_refl eq_refl)
    as (e & R & N & _ & C).
  exists e. split; [exact R|]. split; [exact N|exact C].
Defined.

Section Extensions.

Variable host : endian.
Variable fs : filesystem.
Variable pd_read_hdf :
  string -> string -> option (list string) -> option Z -> result DataFrame.
Variable json_load_frame : string -> result DataFrame.
Variable pd_read_json_lines : string -> result DataFrame.
Variable to_hdf : DataFrame -> string -> string -> result unit.
Variable to_json : DataFrame -> string -> result unit.
Variable to_json_lines : DataFrame -> string -> result unit.
Variable to_csv : DataFrame -> string -> result unit.

Let reading := read_data host fs pd_read_hdf json_load_frame pd_read_json_lines.
Let writing := write_data to_hdf to_json to_json_lines to_csv.

Lemma str_in_false (s : string) (l : list string) :
  ~ In s l -> str_in s l = false.
Proof.
  intros N. unfold str_in.
  destruct (existsb (String.eqb s) l) eqn:E; [|reflexivity].
  exfalso. apply existsb_exists in E. destruct E as (y & Hy & Ey).
  apply String.eqb_eq in Ey. subst y. exact (N Hy).
Qed.

Lemma str_in_true (s : string) (l : list string) :
  In s l -> str_in s l = true.
Proof.
  intros H. unfold str_in. apply existsb_exists.
  exists s. split; [exact H|apply String.eqb_refl].
Qed.

(** X5.  For a path whose extension is none of those [read_data]
    handles, [read_data] raises a [NotImplementedError] whose message
    contains the extension, without calling any reader; for a path whose
    extension is none of those [write_data] handles, [write_data] raises an
    [IOError] whose message contains the extension and the allowed
    extensions. *)
Theorem unsupported_extension_is_named (df : DataFrame) (file_path key : string)
        (rkey : option string) (columns : option (list string)) :
  (~ In (snd (splitext file_path))
        [".hdf"; ".hdf5"; ".h5"; ".json"; ".jsonl"; ".jsonlines"] ->
   exists e,
     reading file_path rkey columns = Raise e /\
     exn_cls e = NotImplementedError /\
     contains (snd (splitext file_path)) (exn_msg e) = true) /\
  (~ In (snd (splitext file_path))
        [".hdf"; ".hdf5"; ".h5"; ".json"; ".jsonl"; ".jsonline"; ".csv"] ->
   exists e,
     writing df file_path key = Raise e /\
     exn_cls e = IOError /\
     contains (snd (splitext file_path)) (exn_msg e) = true /\
     contains (repr_tuple allowed_extensions) (exn_msg e) = true).
Proof.
  set (ext := snd (splitext file_path)).
  split; intros N.
  - eexists. unfold reading, read_data. fold ext.
    rewrite (str_in_false ext [".hdf"; ".hdf5"; ".h5"])
      by (intros H; apply N; simpl in *; tauto).
    destruct (String.eqb_spec ext ".json") as [E|_];
      [exfalso; apply N; rewrite E; simpl; tauto|].
    rewrite (str_in_false ext [".jsonl"; ".jsonlines"])
      by (intros H; apply N; simpl in *; tauto).
    split; [reflexivity|]. split; [reflexivity|].
    cbn [exn_msg]. apply contains_app_l, contains_self.
  - eexists. unfold writing, write_data. fold ext.
    rewrite (str_in_false ext [".hdf"; ".hdf5"; ".h5"])
      by (intros H; apply N; simpl in *; tauto).
    destruct (String.eqb_spec ext ".json") as [E|_];
      [exfalso; apply N; rewrite E; simpl; tauto|].
    rewrite (str_in_false ext [".jsonl"; ".jsonline"])
      by (intros H; apply N; simpl in *; tauto).
    destruct (String.eqb_spec ext ".csv") as [E|_];
      [exfalso; apply N; rewrite E; simpl; tauto|].
    split; [reflexivity|]. split; [reflexivity|].
    cbn [exn_msg]. split.
    + apply contains_app_l, contains_app_r.
    + apply contains_app_l, contains_app_l, contains_app_l, contains_self.
Qed.

End Extensions.

Lemma unsupported_extension_is_named_witness :
  exists e,
    write_data Corner.ok_writer3 Corner.ok_writer Corner.ok_writer Corner.ok_writer
               empty_frame "events.txt" "table" = Raise e /\
    contains ".txt" (exn_msg e) = true.
Proof.
  destruct (proj2 (unsupported_extension_is_named LittleEndian Sample.disk
                     (Sample.failing_read_hdf (mkExn ValueError ""))
                     Sample.no_reader Sample.no_reader
                     Corner.ok_writer3 Corner.ok_writer Corner.ok_writer
                     Corner.ok_writer empty_frame "events.txt" "table" None None))
    as (e & W & _ & C & _).
  - simpl. intros H. repeat (destruct H as [H|H]; [discriminate H|]). exact H.
  - exists e. split; [exact W|exact C].
Defined.

Section DispatchSets.

Variable host : endian.
Variable fs : filesystem.
Variable pd_read_hdf :
  string -> string -> option (list string) -> option Z -> result DataFrame.
Variable json_load_frame : string -> result DataFrame.
Variable pd_read_json_lines : string -> result DataFrame.
Variable to_hdf : DataFrame -> string -> string -> result unit.
Variable to_json : DataFrame -> string -> result unit.
Variable to_json_lines : DataFrame -> string -> result unit.
Variable to_csv : DataFrame -> string -> result unit.

Let reading := read_data host fs pd_read_hdf json_load_frame pd_read_json_lines.
Let writing := write_data to_hdf to_json to_json_lines to_csv.

Lemma check_extension_ok (file_path : string) (allowed : list string) :
  check_extension file_path allowed = Ok tt ->
  In (snd (splitext file_path)) allowed.
Proof.
  unfold check_extension.
  destruct (str_in (snd (splitext file_path)) allowed) eqn:E; [|discriminate].
  intros _. unfold str_in in E. apply existsb_exists in E.
  destruct E as (y & Hy & Ey). apply String.eqb_eq in Ey. now subst y.
Qed.

(** X6.  A path that [check_extension] accepts with the default
    extensions goes to one of the writers of [write_data], unless its
    extension is '.jsonlines': that one [write_data] rejects, with an
    [IOError] whose own list of allowed formats contains '.jsonlines'. *)
Theorem checked_path_written (df : DataFrame) (file_path key : string) :
  check_extension file_path allowed_extensions = Ok tt ->
  (snd (splitext file_path) = ".jsonlines" /\
   exists e, writing df file_path key = Raise e /\
             exn_cls e = IOError /\
             contains "'.jsonlines'" (exn_msg e) = true)
  \/ (snd (splitext file_path) <> ".jsonlines" /\
      (writing df file_path key = to_hdf df file_path key \/
       writing df file_path key = to_json df file_path \/
       writing df file_path key = to_json_lines df file_path \/
       writing df file_path key = to_csv df file_path)).
Proof.
  intros C. apply check_extension_ok in C.
  unfold writing, write_data.
  destruct C as [E|[E|[E|[E|[E|[E|[E|[]]]]]]]]; rewrite <- E; simpl.
  - right. split; [discriminate|]. left. reflexivity.
  - right. split; [discriminate|]. left. reflexivity.
  - right. split; [discriminate|]. left. reflexivity.
  - right. split; [discriminate|]. right. left. reflexivity.
  - right. split; [discriminate|]. right. right. left. reflexivity.
  - left. split; [reflexivity|]. eexists.
    split; [reflexivity|]. split; reflexivity.
  - right. split; [discriminate|]. right. right. right. reflexivity.
Qed.

Lemma str_in_In (x : string) (l : list string) :
  str_in x l = true -> In x l.
Proof.
  unfold str_in. intros E. apply existsb_exists in E.
  destruct E as (y & Hy & Ey). apply String.eqb_eq in Ey. now subst y.
Qed.

(** X7.  Whenever [write_data] returns normally for a path, the
    extension of the path is one of those it hands to a writer, and
    [read_data] on the same path does one of two things: for '.jsonline'
    and '.csv' it raises the [NotImplementedError] for an unknown
    extension, so that what was written is not read back; for .hdf,
    .hdf5, .h5, .json and .jsonl it goes to the reader of that format. *)
Theorem written_path_read (df : DataFrame) (file_path key : string)
        (rkey : option string) (columns : option (list string)) :
  writing df file_path key = Ok tt ->
  (In (snd (splitext file_path)) [".jsonline"; ".csv"] /\
   reading file_path rkey columns
   = Raise (mkExn NotImplementedError
              ("Unknown data file extension " ++ snd (splitext file_path))))
  \/ (In (snd (splitext file_path)) [".hdf"; ".hdf5"; ".h5"] /\
      reading file_path rkey columns
      = match pd_read_hdf file_path (or_default rkey "table") columns None with
        | Ok t => Ok t
        | Raise e =>
            if isinstance e TypeError || isinstance e ValueError
            then read_h5py host fs file_path (or_default rkey "events") columns
            else Raise e
        end)
  \/ (snd (splitext file_path) = ".json" /\
      reading file_path rkey columns = json_load_frame file_path)
  \/ (snd (splitext file_path) = ".jsonl" /\
      reading file_path rkey columns = pd_read_json_lines file_path).
Proof.
  unfold writing, write_data, reading, read_data, read_pandas_hdf5.
  set (ext := snd (splitext file_path)).
  destruct (str_in ext [".hdf"; ".hdf5"; ".h5"]) eqn:H5.
  { intros _. right. left. split; [apply str_in_In, H5|reflexivity]. }
  destruct (String.eqb_spec ext ".json") as [J|NJ].
  { intros _. right. right. left. split; [exact J|reflexivity]. }
  destruct (str_in ext [".jsonl"; ".jsonline"]) eqn:JL.
  { intros _. apply str_in_In in JL. destruct JL as [E|[E|[]]].
    - right. right. right. split; [now symmetry|].
      rewrite <- E. reflexivity.
    - left. split; [left; exact E|]. rewrite <- E. reflexivity. }
  destruct (String.eqb_spec ext ".csv") as [C|NC].
  { intros _. left. split; [right; left; now symmetry|].
    rewrite C. reflexivity. }
  discriminate.
Qed.

(** X8.  [read_data] cannot read a raw-container file the caller may not
    write to: when the table reader fails with a [TypeError] or a
    [ValueError] and the file exists without write permission, the
    fall-back opens it with 'r+' and [read_data] raises that
    [PermissionError]; the error of the table reader is lost. *)
Theorem read_data_needs_write_permission (file_path : string)
        (rkey : option string) (columns : option (list string)) (f : h5file)
        (e0 : exn) :
  In (snd (splitext file_path)) [".hdf"; ".hdf5"; ".h5"] ->
  pd_read_hdf file_path (or_default rkey "table") columns None = Raise e0 ->
  isinstance e0 TypeError = true \/ isinstance e0 ValueError = true ->
  assoc file_path fs = Some f ->
  writable f = false ->
  exists e,
    reading file_path rkey columns = Raise e /\
    exn_cls e = PermissionError /\
    File fs file_path ModeRPlus = Raise e.
Proof.
  intros X P C A W.
  destruct (File_rplus_read_only fs file_path f A W) as (e & O & K).
  exists e. split; [|split; assumption].
  unfold reading, read_data, read_pandas_hdf5.
  rewrite (str_in_true _ _ X), P.
  apply orb_true_iff in C. rewrite C.
  apply read_h5py_open_fails, O.
Qed.

End DispatchSets.

Lemma checked_path_written_witness :
  check_extension "night/run.jsonlines" allowed_extensions = Ok tt /\
  exists e,
    write_data Corner.ok_writer3 Corner.ok_writer Corner.ok_writer Corner.ok_writer
               empty_frame "night/run.jsonlines" "table" = Raise e /\
    exn_cls e = IOError.
Proof.
  split; [reflexivity|].
  destruct (checked_path_written Corner.ok_writer3 Corner.ok_writer
              Corner.ok_writer Corner.ok_writer empty_frame
              "night/run.jsonlines" "table" eq_refl)
    as [(_ & e & W & K & _)|(N & _)].
  - exists e. split; [exact W|exact K].
  - exfalso. apply N. reflexivity.
Defined.

Lemma written_path_read_witness :
  write_data Corner.ok_writer3 Corner.ok_writer Corner.ok_writer Corner.ok_writer
             empty_frame "night/run.jsonline" "table" = Ok tt /\
  read_data LittleEndian Sample.disk
            (Sample.failing_read_hdf (mkExn ValueError ""))
            Sample.no_reader Sample.no_reader "night/run.jsonline" None None
  = Raise (mkExn NotImplementedError "Unknown data file extension .jsonline").
Proof.
  split; [reflexivity|].
  destruct (written_path_read LittleEndian Sample.disk
              (Sample.failing_read_hdf (mkExn ValueError ""))
              Sample.no_reader Sample.no_reader
              Corner.ok_writer3 Corner.ok_writer Corner.ok_writer
              Corner.ok_writer empty_frame "night/run.jsonline" "table"
              None None eq_refl)
    as [(_ & R)|[(H & _)|[(H & _)|(H & _)]]].
  - exact R.
  - exfalso. simpl in H. repeat (destruct H as [H|H]; [discriminate H|]). exact H.
  - discriminate H.
  - discriminate H.
Defined.

Lemma read_data_needs_write_permission_witness :
  exists e,
    read_data LittleEndian Corner.disk
              (Sample.failing_read_hdf (mkExn TypeError "not a table"))
              Sample.no_reader Sample.no_reader "locked.h5" None None
    = Raise e /\
    exn_cls e = PermissionError.
Proof.
  destruct (read_data_needs_write_permission LittleEndian Corner.disk
              (Sample.failing_read_hdf (mkExn TypeError "not a table"))
              Sample.no_reader Sample.no_reader "locked.h5" None None
              Corner.locked_file
              (mkExn TypeError "not a table"))
    as (e & R & K & _).
  - simpl. tauto.
  - reflexivity.
  - left. reflexivity.
  - reflexivity.
  - reflexivity.
  - exists e. split; [exact R|exact K].
Defined.

(* ================================================================== *)
(** * Further properties: the columns that are read                    *)
(* ================================================================== *)

Lemma for_each_filter {A S} (p : A -> bool) (body : S -> A -> result S)
      (xs : list A) (acc : S) :
  (forall s x, p x = false -> body s x = Ok s) ->
  for_each body (filter p xs) acc = for_each body xs acc.
Proof.
  intros Skip. revert acc. induction xs as [|x xs IH]; intros acc; simpl;
    [reflexivity|].
  destruct (p x) eqn:P; simpl.
  - destruct (body acc x); simpl; [apply IH|reflexivity].
  - rewrite (Skip acc x P). simpl. apply IH.
Qed.

Lemma read_h5py_column_high_rank (host : endian) (group : H5py.group)
      (df : DataFrame) (col : string) :
  low_rank group col = false -> read_h5py_column host group df col = Ok df.
Proof.
  unfold low_rank, read_h5py_column, getitem.
  destruct (assoc col group) as [d|]; [|discriminate].
  intros H. apply negb_false_iff, Nat.ltb_lt in H. simpl.
  assert (A : read_all d = Ok d).
  { unfold read_all. unfold ndim in H. destruct (data d); simpl in H;
      try reflexivity; lia. }
  rewrite A. simpl. rewrite to_native_byteorder_ndim.
  destruct (Nat.eqb_spec (ndim d) 1); [lia|].
  destruct (Nat.eqb_spec (ndim d) 2); [lia|]. reflexivity.
Qed.

(** X9.  [read_h5py] passes over requested datasets of rank three or
    more: the table is the one obtained for the remaining columns, in the
    same order, and no error is raised for them. *)
Theorem read_h5py_skips_high_rank (host : endian) (fs : filesystem)
        (file_path key : string) (cols : list string) (f : h5file)
        (group : H5py.group) :
  File fs file_path ModeRPlus = Ok f ->
  get f key = Some (Group group) ->
  read_h5py host fs file_path key (Some cols)
  = read_h5py host fs file_path key (Some (filter (low_rank group) cols)).
Proof.
  intros O G. unfold read_h5py. rewrite O. simpl. rewrite G. simpl.
  symmetry. apply for_each_filter.
  intros df col. apply read_h5py_column_high_rank.
Qed.

Lemma read_h5py_skips_high_rank_witness :
  read_h5py LittleEndian Corner.disk "mixed.h5" "events"
            (Some ["energy"; "cube"; "position"])
  = read_h5py LittleEndian Corner.disk "mixed.h5" "events"
              (Some ["energy"; "position"]).
Proof.
  exact (read_h5py_skips_high_rank LittleEndian Corner.disk "mixed.h5" "events"
           ["energy"; "cube"; "position"]
           Corner.mixed_file Corner.mixed
           eq_refl eq_refl).
Defined.

Lemma getitem_missing (group : H5py.group) (name : string) :
  assoc name group = None -> getitem group name = Raise (missing_column name).
Proof. intros A. unfold getitem. rewrite A. reflexivity. Qed.

Lemma drop_high_rank_missing (group : H5py.group) (pre post : list string)
      (c : string) :
  Forall (fun col => assoc col group <> None) pre ->
  assoc c group = None ->
  forall columns,
    drop_high_rank group (pre ++ c :: post) columns = Raise (missing_column c).
Proof.
  intros E A. induction pre as [|p pre IH]; intros columns; simpl.
  - rewrite (getitem_missing _ _ A). reflexivity.
  - pose proof (Forall_inv E) as Ep. pose proof (Forall_inv_tail E) as Er.
    unfold getitem. destruct (assoc p group) as [d|] eqn:Ap; [|congruence].
    simpl. destruct (2 <? ndim d)%nat; apply IH; assumption.
Qed.

(** X10.  In a group that is not empty and whose datasets all have the
    same number of rows, a requested column that is no member of the
    group, after requested columns that are, makes both readers fail with
    the [KeyError] of h5py, whose message names the column: [read_h5py]
    raises it after the columns before it have been read, and the
    generator of [read_h5py_chunked] raises it at its first element,
    whatever the chunk size (other than 0), so that no chunk is ever
    yielded. *)
Theorem missing_column_raises (host : endian) (fs : filesystem)
        (file_path key : string) (f : h5file) (group : H5py.group) (n : nat)
        (pre post : list string) (c : string) (chunksize : option Z) :
  File fs file_path ModeRPlus = Ok f ->
  get f key = Some (Group group) ->
  group <> [] ->
  uniform_rows n group ->
  Forall (fun col => assoc col group <> None) pre ->
  assoc c group = None ->
  chunksize <> Some 0 ->
  exists e,
    exn_cls e = KeyError /\
    contains c (exn_msg e) = true /\
    read_h5py host fs file_path key (Some (pre ++ c :: post)) = Raise e /\
    next host fs (Created file_path key (Some (pre ++ c :: post)) chunksize)
    = (Throw e, Finished).
Proof.
  intros O G NE U E A CS. exists (missing_column c).
  split; [reflexivity|]. split.
  { unfold missing_column. cbn [exn_msg]. apply contains_app_l, contains_app_r. }
  split.
  - unfold read_h5py. rewrite O. simpl. rewrite G. simpl.
    rewrite for_each_app.
    rewrite (read_h5py_loop_assign host group n U pre _ E).
    rewrite (assign_all_empty_frame n)
      by (apply column_assignments_of_length, U).
    simpl. unfold read_h5py_column. rewrite (getitem_missing _ _ A). reflexivity.
  - simpl. unfold chunked_prologue. rewrite O. simpl. rewrite G.
    rewrite (h5py_get_n_events_uniform fs group n file_path key f U O G NE).
    simpl.
    destruct chunksize as [c0|]; cbn [Py.bind resolve_columns].
    + rewrite chunk_sizes by congruence. cbn [Py.bind].
      rewrite (drop_high_rank_missing group pre post c E A). reflexivity.
    + rewrite (drop_high_rank_missing group pre post c E A). reflexivity.
Qed.

Lemma missing_column_raises_witness :
  exists e,
    exn_cls e = KeyError /\
    read_h5py LittleEndian Sample.disk "run.hdf5" "events"
              (Some ["energy"; "time"; "position"]) = Raise e /\
    next LittleEndian Sample.disk
         (Created "run.hdf5" "events" (Some ["energy"; "time"; "position"])
                  (Some 4))
    = (Throw e, Finished).
Proof.
  destruct (missing_column_raises LittleEndian Sample.disk "run.hdf5" "events"
              Sample.run_file Sample.events 10 ["energy"] ["position"] "time"
              (Some 4)) as (e & K & _ & R & N).
  - reflexivity.
  - reflexivity.
  - discriminate.
  - repeat constructor.
  - repeat constructor. discriminate.
  - reflexivity.
  - discriminate.
  - exists e. split; [exact K|]. split; [exact R|exact N].
Defined.

(* ================================================================== *)
(** * Further properties: the chunks of any file                       *)
(* ================================================================== *)

Section ChunkBounds.

Variable host : endian.
Variable fs : filesystem.
Variables file_path key : string.
Variable c : Z.

Lemma chunked_prologue_frame (columns : option (list string)) (fr : frame) :
  chunked_prologue fs file_path key columns (Some c) = Ok fr ->
  frame_of_call fs file_path key c fr /\ fr_chunk fr = 0.
Proof.
  unfold chunked_prologue.
  destruct (File fs file_path ModeRPlus) as [f|]; [|discriminate]. simpl.
  destruct (get f key) as [[group|d0]|]; [|discriminate|discriminate].
  destruct (h5py_get_n_events fs file_path key) as [n|] eqn:N; [|discriminate].
  cbn [Py.bind]. destruct (Z.eqb_spec c 0) as [->|NZ]; [discriminate|].
  rewrite chunk_sizes by exact NZ. cbn [Py.bind].
  destruct (drop_high_rank _ _ _); [|discriminate]. simpl.
  intros H; injection H as <-. unfold frame_of_call. simpl. auto.
Qed.

Lemma loop_head_at_call (n : nat) (fr : frame) :
  frame_of_call fs file_path key c fr -> Z.of_nat n = fr_chunk fr ->
  generator_at fs file_path key c (S n) (snd (loop_head host fr)).
Proof.
  intros F K. unfold loop_head.
  destruct (_ <? _); [|exact I].
  destruct (read_chunk host fr); simpl; [|exact I].
  split; [exact F|lia].
Qed.

Lemma next_at_call (n : nat) (g : generator) :
  generator_at fs file_path key c n g ->
  generator_at fs file_path key c (S n) (snd (next host fs g)).
Proof.
  destruct g as [p k cols cs|fr|]; simpl.
  - intros (-> & -> & -> & ->).
    destruct (chunked_prologue fs file_path key cols (Some c)) as [fr|] eqn:P;
      [|exact I].
    apply chunked_prologue_frame in P. destruct P as (F & K).
    apply loop_head_at_call; [exact F|]. simpl. lia.
  - intros (F & K). apply loop_head_at_call.
    + unfold frame_of_call, advance in *. simpl. exact F.
    + unfold advance. simpl. lia.
  - intros _. exact I.
Qed.

Lemma after_at_call (n : nat) (columns : option (list string)) :
  generator_at fs file_path key c n
               (after host fs n (Created file_path key columns (Some c))).
Proof.
  assert (G : forall m k g, generator_at fs file_path key c k g ->
                            generator_at fs file_path key c (m + k)
                                         (after host fs m g)).
  { induction m as [|m IH]; intros k g H; simpl; [exact H|].
    replace (S (m + k)) with (m + S k)%nat by lia.
    apply IH, next_at_call, H. }
  rewrite <- (Nat.add_0_r n) at 1. apply G. simpl. auto.
Qed.

Lemma loop_head_yield_bounds (n : nat) (fr : frame) (df : DataFrame)
      (start stop : Z) (g' : generator) :
  frame_of_call fs file_path key c fr -> Z.of_nat n = fr_chunk fr ->
  fr_n_events fr < 2 ^ 53 ->
  loop_head host fr = (Yield (df, start, stop), g') ->
  0 < c /\
  start = Z.of_nat n * c /\
  (exists N, h5py_get_n_events fs file_path key = Ok N /\
             stop = Z.min N (start + c)) /\
  start < stop /\
  Z.of_nat (n_rows df) = stop - start /\
  stop - start <= c.
Proof.
  intros (CS & NE & NC & NZ) K Few. unfold loop_head.
  destruct (Z.ltb_spec (fr_chunk fr) (fr_n_chunks fr)) as [Lt|]; [|discriminate].
  destruct (read_chunk host fr) as [[[d s] e]|] eqn:R; [|discriminate].
  intros H; injection H as -> -> -> _.
  pose proof (h5py_get_n_events_nonneg fs file_path key _ NE) as N0.
  assert (Pos : 0 < c).
  { destruct (Z.lt_trichotomy c 0) as [Neg|[Z0|P]]; [|contradiction|exact P].
    pose proof (n_chunks_of_negative_size (fr_n_events fr) c N0 Neg). lia. }
  pose proof (ceil_div_bounds (fr_n_events fr) c Pos) as B.
  destruct (n_chunks_of_bounds (fr_n_events fr) c ltac:(lia) Pos) as ((_ & Up) & _).
  assert (OK : frame_ok fr) by (unfold frame_ok; repeat split; lia).
  destruct (read_chunk_index host fr df start stop OK Lt R) as (S1 & S2 & Ix).
  rewrite CS in S1, S2. rewrite <- K in S1, S2.
  split; [exact Pos|]. split; [exact S1|]. split.
  - exists (fr_n_events fr). split; [exact NE|]. rewrite S2, S1. f_equal. lia.
  - unfold n_rows. rewrite Ix, range2_length. nia.
Qed.

(** X11.  Whatever the key and the columns, for a file whose group has
    fewer than 2^53 rows by the count of [h5py_get_n_events]: when the
    generator started with a chunk size [c] yields at its call number [n]
    (counted from 0), then [c] is positive, the chunk starts at row
    [n * c] and ends at [min N (n * c + c)], where [N] is that row count;
    the chunk is not empty and its frame has [stop - start] rows, at most
    [c]. *)
Theorem yielded_chunk_bounds (columns : option (list string)) (n : nat)
        (df : DataFrame) (start stop : Z) (g' : generator) :
  (forall N, h5py_get_n_events fs file_path key = Ok N -> N < 2 ^ 53) ->
  next host fs (after host fs n (Created file_path key columns (Some c)))
  = (Yield (df, start, stop), g') ->
  0 < c /\
  start = Z.of_nat n * c /\
  (exists N, h5py_get_n_events fs file_path key = Ok N /\
             stop = Z.min N (start + c)) /\
  start < stop /\
  Z.of_nat (n_rows df) = stop - start /\
  stop - start <= c.
Proof.
  intros Few Y. pose proof (after_at_call n columns) as G.
  destruct (after host fs n (Created file_path key columns (Some c)))
    as [p k cols cs|fr|]; simpl in Y, G.
  - destruct G as (-> & -> & -> & ->).
    destruct (chunked_prologue fs file_path key cols (Some c)) as [fr|] eqn:P;
      [|discriminate].
    apply chunked_prologue_frame in P. destruct P as (F & K).
    eapply (loop_head_yield_bounds 0 fr); [exact F|simpl; lia| |exact Y].
    apply Few, F.
  - destruct G as (F & K).
    eapply (loop_head_yield_bounds n (advance fr)); [| | |exact Y].
    + unfold frame_of_call, advance in *. simpl. exact F.
    + unfold advance. simpl. lia.
    + apply Few, F.
  - discriminate.
Qed.

End ChunkBounds.

Lemma yielded_chunk_bounds_witness :
  exists df start stop g',
    next LittleEndian Sample.disk
         (after LittleEndian Sample.disk 2
                (Created "run.hdf5" "events" None (Some 4)))
    = (Yield (df, start, stop), g') /\
    start = 8 /\ stop = 10 /\ n_rows df = 2%nat.
Proof.
  destruct (next LittleEndian Sample.disk
                 (after LittleEndian Sample.disk 2
                        (Created "run.hdf5" "events" None (Some 4))))
    as [[[[df start] stop]|e|] g'] eqn:Y;
    try (vm_compute in Y; discriminate Y).
  exists df, start, stop, g'. split; [reflexivity|].
  destruct (yielded_chunk_bounds LittleEndian Sample.disk "run.hdf5" "events" 4
              None 2 df start stop g') as (_ & S1 & (N & E & S2) & _ & R & _).
  - intros N E. vm_compute in E. injection E as <-. reflexivity.
  - exact Y.
  - vm_compute in E. injection E as <-.
    split; [exact S1|]. split; lia.
Defined.

(* ================================================================== *)
(** * Further properties: chunk sizes at the edges                     *)
(* ================================================================== *)

Lemma drain_single (host : endian) (fs : filesystem) (g : generator)
      (fr : frame) (ch : chunk) :
  next host fs g = loop_head host fr ->
  fr_chunk fr = 0 -> fr_n_chunks fr = 1 ->
  read_chunk host fr = Ok ch ->
  forall fuel, (1 < fuel)%nat -> drain host fs fuel g = Some (Ok [ch]).
Proof.
  intros Nx C0 N1 R fuel F.
  destruct fuel as [|[|fuel]]; try lia.
  cbn [drain]. rewrite Nx. unfold loop_head at 1. rewrite C0, N1, R. simpl.
  unfold loop_head, advance. simpl. rewrite C0, N1. reflexivity.
Qed.

Lemma drain_none (host : endian) (fs : filesystem) (g : generator) (fr : frame) :
  next host fs g = loop_head host fr ->
  fr_n_chunks fr <= fr_chunk fr ->
  forall fuel, (0 < fuel)%nat -> drain host fs fuel g = Some (Ok []).
Proof.
  intros Nx C fuel F. destruct fuel as [|fuel]; [lia|].
  cbn [drain]. rewrite Nx. unfold loop_head.
  destruct (Z.ltb_spec (fr_chunk fr) (fr_n_chunks fr)); [lia|reflexivity].
Qed.

Section AnyChunkSize.

Variable host : endian.
Variable fs : filesystem.
Variables file_path key : string.
Variable wanted : option (list string).
Variable f : h5file.
Variable group : H5py.group.
Variable n : nat.

Hypothesis opens : File fs file_path ModeRPlus = Ok f.
Hypothesis found : get f key = Some (Group group).
Hypothesis nonempty : group <> [].
Hypothesis uniform : uniform_rows n group.
Hypothesis requested : requested_exist group wanted.

Local Abbreviation kept :=
  (filter (low_rank group) (resolve_columns group wanted)).
Local Abbreviation table := (table_columns host wanted group).

(** The frame with which the loop over the chunks is entered. *)
Lemma chunked_prologue_any (chunksize : option Z) :
  chunked_prologue fs file_path key wanted chunksize
  = match chunksize with
    | None => Ok (mkFrameState group kept (Z.of_nat n) (Z.of_nat n) 1 0)
    | Some c =>
        if c =? 0 then Raise (mkExn ZeroDivisionError "division by zero")
        else Ok (mkFrameState group kept (Z.of_nat n) c
                              (n_chunks_of (Z.of_nat n) c) 0)
    end.
Proof.
  unfold chunked_prologue. rewrite opens. simpl. rewrite found.
  rewrite (h5py_get_n_events_uniform fs group n file_path key f
             uniform opens found nonempty). simpl.
  pose proof (drop_high_rank_filter group (resolve_columns group wanted) []
                (resolve_columns_exist group wanted requested) (Forall_nil _)) as D.
  simpl in D.
  destruct chunksize as [c|]; cbn [Py.bind].
  - destruct (Z.eqb_spec c 0) as [->|NZ]; [reflexivity|].
    rewrite chunk_sizes by exact NZ. cbn [Py.bind]. rewrite D. reflexivity.
  - rewrite D. reflexivity.
Qed.

(** One chunk of a frame over the group: the rows [start .. stop - 1] of
    the columns of the table. *)
Lemma read_chunk_rows (size n_chunks k start stop : Z) :
  start = k * size ->
  stop = Z.min (Z.of_nat n) ((k + 1) * size) ->
  0 <= start <= stop ->
  read_chunk host (mkFrameState group kept (Z.of_nat n) size n_chunks k)
  = Ok (mkFrame (range2 start stop)
                (map (on_values (fun v => slice v start stop)) table),
        start, stop).
Proof.
  intros Es Ee R.
  assert (R2 : stop <= Z.of_nat n) by lia.
  unfold read_chunk. cbn [fr_chunk fr_chunksize fr_n_events fr_group fr_columns].
  rewrite <- Es, <- Ee.
  rewrite (chunk_loop_assign host group n uniform _ start stop _
             (resolve_columns_exist group wanted requested)).
  rewrite (assign_all_uniform (Z.to_nat (stop - start))).
  - simpl. unfold table_columns. rewrite <- store_all_on_values. reflexivity.
  - simpl. apply range2_length.
  - apply Forall_forall. intros nv Hin.
    apply in_map_iff in Hin. destruct Hin as (nv0 & <- & Hin).
    pose proof (column_assignments_of_length host group n uniform
                  (resolve_columns group wanted)) as L.
    rewrite Forall_forall in L. specialize (L nv0 Hin).
    unfold of_length, on_values in *. simpl.
    apply slice_length; [exact R|]. rewrite L. exact R2.
Qed.

Lemma whole_table : map (on_values (fun v => slice v 0 (Z.of_nat n))) table = table.
Proof.
  rewrite <- (map_id table) at 2. apply map_ext_in. intros [name v] Hin.
  pose proof (table_columns_of_length host wanted group n uniform) as F.
  rewrite Forall_forall in F. specialize (F _ Hin).
  unfold on_values, of_length in *. simpl in *.
  f_equal. rewrite <- F. apply slice_all.
Qed.

(** The chunk that holds all rows. *)
Lemma read_chunk_whole (size : Z) :
  Z.of_nat n <= size ->
  read_chunk host (mkFrameState group kept (Z.of_nat n) size 1 0)
  = Ok (mkFrame (range (Z.of_nat n)) table, 0, Z.of_nat n).
Proof.
  intros S. rewrite (read_chunk_rows size 1 0 0 (Z.of_nat n)) by lia.
  rewrite whole_table, range2_from_zero. reflexivity.
Qed.

(** X12.  With [chunksize=None] the generator yields exactly one chunk,
    with the range (0, N), and then stops, also when the group has no rows
    at all.  The frame of the chunk has the row index 0 .. N-1 and the
    columns of the table that [read_h5py] returns for the same columns; it
    is that table whenever the table has a column. *)
Theorem chunksize_none_single_chunk :
  exists df table_read,
    (forall fuel, (1 < fuel)%nat ->
       drain host fs fuel (Created file_path key wanted None)
       = Some (Ok [(df, 0, Z.of_nat n)])) /\
    read_h5py host fs file_path key wanted = Ok table_read /\
    index df = range (Z.of_nat n) /\
    columns df = columns table_read /\
    (columns table_read <> [] -> df = table_read).
Proof.
  exists (mkFrame (range (Z.of_nat n)) table). eexists.
  split; [|split; [apply (read_h5py_uniform host fs file_path key wanted f group n
                            opens found uniform requested)|]].
  - apply (drain_single host fs _
             (mkFrameState group kept (Z.of_nat n) (Z.of_nat n) 1 0));
      try reflexivity.
    + simpl. rewrite chunked_prologue_any. reflexivity.
    + apply read_chunk_whole. lia.
  - simpl. split; [reflexivity|]. split; [reflexivity|].
    intros NE. destruct (flat_map _ _) eqn:A; [|reflexivity].
    exfalso. apply NE. unfold table_columns. rewrite A. reflexivity.
Qed.

(** X13.  A chunk size of 0 makes the generator raise
    [ZeroDivisionError] at its first element; a negative chunk size makes
    it stop at once, without a chunk and without an error. *)
Theorem chunksize_zero_or_negative (c : Z) :
  (c = 0 ->
   next host fs (Created file_path key wanted (Some c))
   = (Throw (mkExn ZeroDivisionError "division by zero"), Finished)) /\
  (c < 0 ->
   forall fuel, (0 < fuel)%nat ->
     drain host fs fuel (Created file_path key wanted (Some c)) = Some (Ok [])).
Proof.
  split.
  - intros ->. simpl. rewrite chunked_prologue_any. reflexivity.
  - intros Neg.
    apply (drain_none host fs _
             (mkFrameState group kept (Z.of_nat n) c
                           (n_chunks_of (Z.of_nat n) c) 0)).
    + simpl. rewrite chunked_prologue_any.
      destruct (Z.eqb_spec c 0); [lia|reflexivity].
    + simpl. apply n_chunks_of_negative_size; lia.
Qed.

(** X14.  A chunk size of [N] or more, up to 2^1074, for a group of
    [N >= 1] rows, [N] below 2^53, gives what [chunksize=None] gives: the
    single chunk (0, N) with all rows. *)
Theorem chunksize_beyond_rows (c : Z) :
  (1 <= n)%nat ->
  Z.of_nat n < 2 ^ 53 ->
  Z.of_nat n <= c <= 2 ^ 1074 ->
  forall fuel, (1 < fuel)%nat ->
    drain host fs fuel (Created file_path key wanted (Some c))
    = drain host fs fuel (Created file_path key wanted None) /\
    drain host fs fuel (Created file_path key wanted (Some c))
    = Some (Ok [(mkFrame (range (Z.of_nat n)) table, 0, Z.of_nat n)]).
Proof.
  intros N1 Few C fuel F.
  assert (One : n_chunks_of (Z.of_nat n) c = 1).
  { destruct (n_chunks_of_bounds (Z.of_nat n) c ltac:(lia) ltac:(lia))
      as (_ & ->); [|lia].
    pose proof (ceil_div_bounds (Z.of_nat n) c ltac:(lia)). nia. }
  assert (S : drain host fs fuel (Created file_path key wanted (Some c))
              = Some (Ok [(mkFrame (range (Z.of_nat n)) table, 0, Z.of_nat n)])).
  { apply (drain_single host fs _
             (mkFrameState group kept (Z.of_nat n) c 1 0));
      try reflexivity; try exact F.
    - simpl. rewrite chunked_prologue_any, One.
      destruct (Z.eqb_spec c 0); [lia|reflexivity].
    - apply read_chunk_whole. lia. }
  split; [|exact S]. rewrite S. symmetry.
  apply (drain_single host fs _
           (mkFrameState group kept (Z.of_nat n) (Z.of_nat n) 1 0));
    try reflexivity; try exact F.
  - simpl. rewrite chunked_prologue_any. reflexivity.
  - apply read_chunk_whole. lia.
Qed.

(** X15.  On a group without rows a positive chunk size yields no chunk
    at all, whereas [chunksize=None] yields one chunk, (0, 0), with an
    empty frame. *)
Theorem no_rows_no_chunk (c : Z) :
  n = 0%nat ->
  0 < c ->
  (forall fuel, (0 < fuel)%nat ->
     drain host fs fuel (Created file_path key wanted (Some c)) = Some (Ok [])) /\
  (forall fuel, (1 < fuel)%nat ->
     drain host fs fuel (Created file_path key wanted None)
     = Some (Ok [(mkFrame [] table, 0, 0)])).
Proof.
  intros N0 Pos. split.
  - apply (drain_none host fs _
             (mkFrameState group kept (Z.of_nat n) c
                           (n_chunks_of (Z.of_nat n) c) 0)).
    + simpl. rewrite chunked_prologue_any.
      destruct (Z.eqb_spec c 0); [lia|reflexivity].
    + simpl. rewrite N0. simpl Z.of_nat. rewrite n_chunks_of_zero. lia.
  - intros fuel F.
    rewrite (drain_single host fs _
               (mkFrameState group kept (Z.of_nat n) (Z.of_nat n) 1 0)
               (mkFrame (range (Z.of_nat n)) table, 0, Z.of_nat n));
      try reflexivity; try exact F.
    + rewrite N0. reflexivity.
    + simpl. rewrite chunked_prologue_any. reflexivity.
    + apply read_chunk_whole. lia.
Qed.

End AnyChunkSize.

Lemma sample_events_uniform : uniform_rows 10 Sample.events.
Proof. repeat constructor. Qed.

Lemma chunksize_none_single_chunk_witness :
  exists df,
    drain LittleEndian Sample.disk 2
          (Created "run.hdf5" "events" (Some ["energy"; "position"]) None)
    = Some (Ok [(df, 0, 10)]) /\
    read_h5py LittleEndian Sample.disk "run.hdf5" "events"
              (Some ["energy"; "position"]) = Ok df.
Proof.
  destruct (chunksize_none_single_chunk LittleEndian Sample.disk "run.hdf5"
              "events" (Some ["energy"; "position"]) Sample.run_file
              Sample.events 10 eq_refl eq_refl)
    as (df & t & D & R & _ & _ & E).
  - discriminate.
  - exact sample_events_uniform.
  - repeat constructor; discriminate.
  - exists df. split; [apply D; lia|].
    rewrite R. f_equal. symmetry. apply E.
    vm_compute in R. injection R as <-. discriminate.
Defined.

Lemma chunksize_zero_or_negative_witness :
  next LittleEndian Sample.disk (Created "run.hdf5" "events" None (Some 0))
  = (Throw (mkExn ZeroDivisionError "division by zero"), Finished) /\
  drain LittleEndian Sample.disk 1 (Created "run.hdf5" "events" None (Some (-4)))
  = Some (Ok []).
Proof.
  split.
  - apply (chunksize_zero_or_negative LittleEndian Sample.disk "run.hdf5"
             "events" None Sample.run_file Sample.events 10 eq_refl eq_refl);
      [discriminate|exact sample_events_uniform|exact I|reflexivity].
  - apply (chunksize_zero_or_negative LittleEndian Sample.disk "run.hdf5"
             "events" None Sample.run_file Sample.events 10 eq_refl eq_refl);
      [discriminate|exact sample_events_uniform|exact I|lia|lia].
Defined.

Lemma chunksize_beyond_rows_witness :
  drain LittleEndian Sample.disk 2 (Created "run.hdf5" "events" None (Some 25))
  = drain LittleEndian Sample.disk 2 (Created "run.hdf5" "events" None None).
Proof.
  apply (chunksize_beyond_rows LittleEndian Sample.disk "run.hdf5"
           "events" None Sample.run_file Sample.events 10 eq_refl eq_refl);
    [discriminate|exact sample_events_uniform|exact I|lia|reflexivity| |lia].
  split; [lia|]. apply Z.lt_le_incl. reflexivity.
Defined.

Lemma no_rows_no_chunk_witness :
  drain LittleEndian Corner.disk 1 (Created "empty.h5" "runs" None (Some 4))
  = Some (Ok []) /\
  exists df,
    drain LittleEndian Corner.disk 2 (Created "empty.h5" "runs" None None)
    = Some (Ok [(df, 0, 0)]) /\
    n_rows df = 0%nat.
Proof.
  destruct (no_rows_no_chunk LittleEndian Corner.disk "empty.h5" "runs" None
              Corner.empty_file
              Corner.no_rows 0 eq_refl eq_refl) with (c := 4) as (D0 & D1).
  - discriminate.
  - repeat constructor.
  - exact I.
  - reflexivity.
  - lia.
  - split; [apply D0; lia|].
    eexists. split; [apply D1; lia|reflexivity].
Defined.

(* ================================================================== *)
(** * Further properties: a key that names a dataset                   *)
(* ================================================================== *)

(** X21.  When the key names a dataset of the file, [f.get] returns that
    dataset and none of the readers raises the [IOError] for a missing
    group: [h5py_get_n_events] and [read_h5py] with the default columns
    raise h5py's [AttributeError] for the [keys] a dataset does not have,
    the generator of [read_h5py_chunked] raises it at its first element
    whatever the columns and the chunk size, and [read_h5py] asked for no
    column at all returns the empty frame. *)
Theorem dataset_key_raises (host : endian) (fs : filesystem)
        (file_path key : string) (f : h5file) (d : dataset) :
  File fs file_path ModeRPlus = Ok f ->
  get f key = Some (Dataset d) ->
  exists e,
    exn_cls e = AttributeError /\
    e <> group_not_found key /\
    h5py_get_n_events fs file_path key = Raise e /\
    read_h5py host fs file_path key None = Raise e /\
    read_h5py host fs file_path key (Some []) = Ok empty_frame /\
    forall (columns : option (list string)) (chunksize : option Z),
      next host fs (Created file_path key columns chunksize)
      = (Throw e, Finished).
Proof.
  intros O G. exists dataset_has_no_keys.
  split; [reflexivity|]. split; [discriminate|].
  unfold h5py_get_n_events, read_h5py. rewrite O. cbn [Py.bind]. rewrite G.
  split; [reflexivity|]. split; [reflexivity|]. split; [reflexivity|].
  intros columns chunksize. cbn [next]. unfold chunked_prologue.
  rewrite O. cbn [Py.bind]. rewrite G. reflexivity.
Qed.

Lemma dataset_key_raises_witness :
  exists e,
    exn_cls e = AttributeError /\
    h5py_get_n_events Sample.disk "run.hdf5" "events/energy" = Raise e /\
    next LittleEndian Sample.disk
         (Created "run.hdf5" "events/energy" (Some ["energy"]) None)
    = (Throw e, Finished).
Proof.
  destruct (dataset_key_raises LittleEndian Sample.disk "run.hdf5"
              "events/energy" Sample.run_file Sample.energy eq_refl eq_refl)
    as (e & K & _ & N & _ & _ & G).
  exists e. split; [exact K|]. split; [exact N|apply G].
Defined.

(* ================================================================== *)
(** * Further properties: groups without datasets                      *)
(* ================================================================== *)

(** X16.  For a group without datasets [read_h5py], with the default
    columns, returns the empty frame, whereas [h5py_get_n_events] raises
    the [StopIteration] of [next] on the exhausted keys; inside the
    generator of [read_h5py_chunked] that exception becomes a
    [RuntimeError] at the first element, whatever the columns and the
    chunk size. *)
Theorem empty_group_readers (host : endian) (fs : filesystem)
        (file_path key : string) (f : h5file) :
  File fs file_path ModeRPlus = Ok f ->
  get f key = Some (Group []) ->
  read_h5py host fs file_path key None = Ok empty_frame /\
  h5py_get_n_events fs file_path key = Raise (mkExn StopIteration "") /\
  forall (columns : option (list string)) (chunksize : option Z),
    next host fs (Created file_path key columns chunksize)
    = (Throw (mkExn RuntimeError "generator raised StopIteration"), Finished).
Proof.
  intros O G.
  assert (N : h5py_get_n_events fs file_path key = Raise (mkExn StopIteration "")).
  { unfold h5py_get_n_events. rewrite O. simpl. rewrite G. reflexivity. }
  split; [|split; [exact N|]].
  - unfold read_h5py. rewrite O. simpl. rewrite G. reflexivity.
  - intros columns chunksize. simpl. unfold chunked_prologue.
    rewrite O. simpl. rewrite G, N. reflexivity.
Qed.

Lemma empty_group_readers_witness :
  read_h5py LittleEndian Corner.disk "empty.h5" "events" None = Ok empty_frame /\
  next LittleEndian Corner.disk (Created "empty.h5" "events" None (Some 4))
  = (Throw (mkExn RuntimeError "generator raised StopIteration"), Finished).
Proof.
  destruct (empty_group_readers LittleEndian Corner.disk "empty.h5" "events"
              Corner.empty_file
              eq_refl eq_refl) as (R & _ & N).
  split; [exact R|apply N].
Defined.

(* ================================================================== *)
(** * Further properties: datasets of different lengths                *)
(* ================================================================== *)

Lemma slice_prefix {A} (l : list A) (n : nat) :
  (n <= List.length l)%nat -> slice l 0 (Z.of_nat n) = firstn n l.
Proof.
  intros L. rewrite slice_inside by lia. simpl.
  now rewrite Nat.sub_0_r, Nat2Z.id.
Qed.

Lemma slice_short {A} (l : list A) (n : nat) :
  (List.length l <= n)%nat -> slice l 0 (Z.of_nat n) = l.
Proof.
  intros L. unfold slice, slice_bound. simpl.
  destruct (Z.ltb_spec (Z.of_nat n) 0); [lia|].
  rewrite Z.min_r by lia. rewrite Z.min_l by lia. simpl.
  rewrite Z.sub_0_r, Nat2Z.id. apply firstn_all.
Qed.

Section FirstDataset.

Variable host : endian.
Variable fs : filesystem.
Variables file_path key : string.
Variable f : h5file.
Variable group : H5py.group.
Variables first col : string.
Variable d0 : dataset.
Variable n : nat.
Variable bo : byteorder.
Variable xs : list elem.

Hypothesis opens : File fs file_path ModeRPlus = Ok f.
Hypothesis found : get f key = Some (Group group).
Hypothesis leads : hd_error group = Some (first, d0).
Hypothesis rows : hd_error (shape d0) = Some n.
Hypothesis member : assoc col group = Some (mkArray bo (Rank1 xs)).

Lemma h5py_get_n_events_first :
  h5py_get_n_events fs file_path key = Ok (Z.of_nat n).
Proof.
  unfold h5py_get_n_events. rewrite opens. simpl. rewrite found.
  destruct group as [|[k d] rest]; [discriminate|].
  simpl in leads. injection leads as -> ->.
  simpl. unfold getitem. simpl. rewrite String.eqb_refl. simpl.
  unfold shape_at. destruct (shape d0) as [|m sh]; [discriminate|].
  simpl in *. now injection rows as ->.
Qed.

Lemma chunked_prologue_first :
  chunked_prologue fs file_path key (Some [col]) None
  = Ok (mkFrameState group [col] (Z.of_nat n) (Z.of_nat n) 1 0).
Proof.
  unfold chunked_prologue. rewrite opens. simpl. rewrite found.
  rewrite h5py_get_n_events_first. simpl.
  unfold getitem. rewrite member. reflexivity.
Qed.

Lemma chunk_column_first (df : DataFrame) :
  chunk_column host group 0 (Z.of_nat n) df col
  = setitem df col (slice (map (logical host bo) xs) 0 (Z.of_nat n)).
Proof.
  rewrite (chunk_column_assign host group 0 (Z.of_nat n) df col
             (mkArray bo (Rank1 xs)));
    [|unfold getitem; rewrite member; reflexivity|left; reflexivity].
  simpl. unfold assign, on_values. simpl. apply bind_ok_r.
Qed.

(** X17.  The chunked reader takes the number of rows from the first
    dataset of the group alone.  A rank-1 column with more rows than that
    is cut to the first [n] of them, without an error, while [read_h5py]
    returns all its rows for the same column. *)
Theorem chunked_rows_follow_first_dataset :
  (n <= List.length xs)%nat ->
  (forall fuel, (1 < fuel)%nat ->
     drain host fs fuel (Created file_path key (Some [col]) None)
     = Some (Ok [(mkFrame (range (Z.of_nat n))
                          [(col, firstn n (map (logical host bo) xs))],
                  0, Z.of_nat n)])) /\
  read_h5py host fs file_path key (Some [col])
  = Ok (mkFrame (range (Z.of_nat (List.length xs)))
                [(col, map (logical host bo) xs)]).
Proof.
  intros L. split.
  - apply (drain_single host fs _
             (mkFrameState group [col] (Z.of_nat n) (Z.of_nat n) 1 0));
      try reflexivity.
    + simpl. rewrite chunked_prologue_first. reflexivity.
    + unfold read_chunk. cbn [fr_chunk fr_chunksize fr_n_events fr_group fr_columns].
      replace (0 * Z.of_nat n) with 0 by lia.
      replace (Z.min (Z.of_nat n) ((0 + 1) * Z.of_nat n)) with (Z.of_nat n) by lia.
      cbn [for_each]. rewrite chunk_column_first.
      rewrite slice_prefix by (rewrite length_map; exact L).
      rewrite range2_from_zero.
      change (setitem (frame_of_index (range (Z.of_nat n))) col
                      (firstn n (map (logical host bo) xs)))
        with (assign (frame_of_index (range (Z.of_nat n)))
                     (col, firstn n (map (logical host bo) xs))).
      rewrite (assign_uniform n).
      * reflexivity.
      * apply range_length.
      * unfold of_length. simpl. rewrite length_firstn, length_map. lia.
  - unfold read_h5py. rewrite opens. simpl. rewrite found. simpl.
    rewrite (read_h5py_column_assign host group empty_frame col
               (mkArray bo (Rank1 xs)));
      [|unfold getitem; rewrite member; reflexivity|discriminate].
    simpl array_assignments. rewrite bind_ok_r.
    rewrite (assign_all_empty_frame (List.length xs)).
    + reflexivity.
    + repeat constructor. unfold of_length. simpl. apply length_map.
Qed.

(** X18.  A rank-1 column with fewer rows than the first dataset makes
    the generator, started without a chunk size, fail at its first
    element with the [ValueError] of the column assignment: the slice
    holds the column's [m] rows and the index of the frame [n]. *)
Theorem short_column_raises :
  (List.length xs < n)%nat ->
  next host fs (Created file_path key (Some [col]) None)
  = (Throw (mkExn ValueError
              ("Length of values (" ++ str_of_nat (List.length xs)
                 ++ ") does not match length of index ("
                 ++ str_of_nat n ++ ")")%string),
     Finished).
Proof.
  intros L. simpl. rewrite chunked_prologue_first.
  unfold loop_head. cbn [fr_chunk fr_n_chunks]. simpl (0 <? 1).
  unfold read_chunk. cbn [fr_chunk fr_chunksize fr_n_events fr_group fr_columns].
  replace (0 * Z.of_nat n) with 0 by lia.
  replace (Z.min (Z.of_nat n) ((0 + 1) * Z.of_nat n)) with (Z.of_nat n) by lia.
  cbn [for_each]. rewrite chunk_column_first.
  rewrite slice_short by (rewrite length_map; lia).
  rewrite range2_from_zero.
  unfold setitem, frame_of_index. cbn [index columns].
  rewrite length_map, range_length.
  destruct (range (Z.of_nat n)) as [|i idx] eqn:R.
  - apply (f_equal (@List.length Z)) in R. rewrite range_length in R.
    simpl in R. lia.
  - destruct (Nat.eqb_spec (List.length xs) n) as [E|_]; [lia|].
    destruct (List.length xs); reflexivity.
Qed.

End FirstDataset.

Lemma chunked_rows_follow_first_dataset_witness :
  drain LittleEndian Corner.disk 2
        (Created "ragged.h5" "events" (Some ["b_long"]) None)
  = Some (Ok [(mkFrame [0; 1; 2] [("b_long", [[[x0a]]; [[x0b]]; [[x0c]]])], 0, 3)]) /\
  read_h5py LittleEndian Corner.disk "ragged.h5" "events" (Some ["b_long"])
  = Ok (mkFrame [0; 1; 2; 3; 4]
                [("b_long", [[[x0a]]; [[x0b]]; [[x0c]]; [[x0d]]; [[x0e]]])]).
Proof.
  destruct (chunked_rows_follow_first_dataset LittleEndian Corner.disk
              "ragged.h5" "events"
              Corner.ragged_file
              Corner.ragged "a_short" "b_long" Corner.short 3 NotApplicable
              [[[x0a]]; [[x0b]]; [[x0c]]; [[x0d]]; [[x0e]]]
              eq_refl eq_refl eq_refl eq_refl eq_refl) as (D & R).
  - simpl. lia.
  - split; [apply D; lia|exact R].
Defined.

Lemma short_column_raises_witness :
  next LittleEndian Corner.disk
       (Created "ragged.h5" "lagging" (Some ["a_short"]) None)
  = (Throw (mkExn ValueError
              "Length of values (3) does not match length of index (5)"),
     Finished).
Proof.
  apply (short_column_raises LittleEndian Corner.disk "ragged.h5" "lagging"
           Corner.ragged_file
           Corner.lagging "b_long" "a_short" Corner.long 5 NotApplicable
           [[[x01]]; [[x02]]; [[x03]]] eq_refl eq_refl eq_refl eq_refl eq_refl).
  simpl. lia.
Defined.

(* ================================================================== *)
(** * Further properties: the default columns                          *)
(* ================================================================== *)

Lemma assoc_NoDup {A} (l : list (string * A)) (k : string) (v : A) :
  NoDup (map fst l) -> In (k, v) l -> assoc k l = Some v.
Proof.
  induction l as [|[k' v'] l IH]; simpl; intros ND Hin; [contradiction|].
  inversion ND as [|? ? NI ND']; subst.
  destruct (String.eqb_spec k' k) as [->|D].
  - destruct Hin as [E|Hin]; [congruence|].
    exfalso. apply NI. apply (in_map fst) in Hin. exact Hin.
  - destruct Hin as [E|Hin]; [congruence|]. apply IH; assumption.
Qed.

Lemma NoDup_map_filter {A B} (g : A -> B) (p : A -> bool) (l : list A) :
  NoDup (map g l) -> NoDup (map g (filter p l)).
Proof.
  induction l as [|x l IH]; simpl; intros ND; [constructor|].
  inversion ND as [|? ? NI ND']; subst.
  destruct (p x); simpl; [|apply IH, ND'].
  constructor; [|apply IH, ND'].
  intros Hin. apply NI. apply in_map_iff in Hin.
  destruct Hin as (y & E & Hy). apply filter_In in Hy.
  rewrite <- E. apply in_map, Hy.
Qed.

Section DefaultColumns.

Variable host : endian.
Variable group : H5py.group.
Hypothesis distinct : NoDup (keys group).

Lemma default_columns_members_of (l : list (string * dataset)) :
  incl l group ->
  filter (fun col => match assoc col group with
                     | Some d => (ndim d =? 1)%nat
                     | None => false
                     end) (map fst l)
  = map fst (filter rank1_member l).
Proof.
  induction l as [|[k d] l IH]; intros I; [reflexivity|].
  cbn [map filter fst].
  rewrite (assoc_NoDup group k d distinct (I _ (or_introl eq_refl))).
  rewrite IH by (intros x Hx; apply I; right; exact Hx).
  change (rank1_member (k, d)) with (ndim d =? 1)%nat.
  destruct (ndim d =? 1)%nat; reflexivity.
Qed.

Lemma default_columns_members :
  default_columns group = map fst (filter rank1_member group).
Proof. apply default_columns_members_of, incl_refl. Qed.

Lemma rank1_assignments_of (l : list (string * dataset)) :
  incl l group ->
  flat_map (column_assignments host group) (map fst (filter rank1_member l))
  = map (fun m => (fst m, values_1d host (snd m))) (filter rank1_member l).
Proof.
  induction l as [|[k d] l IH]; intros I; [reflexivity|].
  assert (I' : incl l group) by (intros x Hx; apply I; right; exact Hx).
  cbn [filter]. destruct (rank1_member (k, d)) eqn:R; [|apply IH, I'].
  cbn [map flat_map fst snd]. rewrite IH by exact I'.
  unfold column_assignments at 1.
  rewrite (assoc_NoDup group k d distinct (I _ (or_introl eq_refl))).
  unfold rank1_member, array_assignments, values_1d, ndim in *. simpl in R.
  destruct (data d); simpl in R; try discriminate. reflexivity.
Qed.

End DefaultColumns.

(** X19.  With [columns=None] and distinct dataset names, [read_h5py]
    returns one column for each rank-1 dataset of the group, in the order
    of the group's keys, holding the dataset's values; datasets of any
    other rank, rank 2 included, give no column.  Only the rank-1
    datasets have to agree on the number of rows. *)
Theorem default_columns_table (host : endian) (fs : filesystem)
        (file_path key : string) (f : h5file) (group : H5py.group) (n : nat) :
  File fs file_path ModeRPlus = Ok f ->
  get f key = Some (Group group) ->
  NoDup (keys group) ->
  Forall (fun m => rank1_member m = true -> n_rows_of (snd m) = n) group ->
  read_h5py host fs file_path key None
  = Ok (mkFrame (match filter rank1_member group with
                 | [] => []
                 | _ => range (Z.of_nat n)
                 end)
                (map (fun m => (fst m, values_1d host (snd m)))
                     (filter rank1_member group))).
Proof.
  intros O G ND U.
  unfold read_h5py. rewrite O. simpl. rewrite G. simpl.
  rewrite (default_columns_members group ND).
  set (members := filter rank1_member group).
  set (asg := map (fun m => (fst m, values_1d host (snd m))) members).
  assert (In1 : forall m, In m members -> In m group /\ ndim (snd m) = 1%nat).
  { intros m Hm. apply filter_In in Hm. destruct Hm as (Hm & R).
    split; [exact Hm|]. apply Nat.eqb_eq, R. }
  assert (E : for_each (read_h5py_column host group) (map fst members) empty_frame
              = for_each assign asg empty_frame).
  { unfold asg, members.
    rewrite <- (rank1_assignments_of host group ND group (incl_refl _)).
    fold members. rewrite for_each_flat_map. apply for_each_ext_in.
    intros s c Hin. apply in_map_iff in Hin. destruct Hin as ([k d] & <- & Hm).
    destruct (In1 _ Hm) as (Hg & R). simpl in *.
    unfold column_assignments. rewrite (assoc_NoDup group k d ND Hg).
    apply read_h5py_column_assign.
    - unfold getitem. rewrite (assoc_NoDup group k d ND Hg). reflexivity.
    - lia. }
  rewrite E. rewrite (assign_all_empty_frame n).
  - rewrite store_all_fresh.
    + unfold asg. destruct members; reflexivity.
    + unfold asg. rewrite map_map. simpl.
      apply NoDup_map_filter, ND.
    + intros nv _ [].
  - unfold asg. apply Forall_forall. intros nv Hin.
    apply in_map_iff in Hin. destruct Hin as (m & <- & Hm).
    destruct (In1 _ Hm) as (Hg & R).
    rewrite Forall_forall in U. unfold of_length. simpl.
    rewrite values_1d_length by exact R. apply U; [exact Hg|].
    apply Nat.eqb_eq, R.
Qed.

Lemma default_columns_table_witness :
  read_h5py LittleEndian Corner.disk "mixed.h5" "events" None
  = Ok (mkFrame (range 10)
                [("energy", values_1d LittleEndian Sample.energy)]).
Proof.
  apply (default_columns_table LittleEndian Corner.disk "mixed.h5" "events"
           Corner.mixed_file Corner.mixed 10
           eq_refl eq_refl).
  - repeat constructor; simpl; intuition discriminate.
  - repeat constructor; simpl; intros; reflexivity || discriminate.
Defined.

(* ================================================================== *)
(** * Further properties: columns the chunked reader removes           *)
(* ================================================================== *)

Lemma filter_idem {A} (p : A -> bool) (l : list A) :
  filter p (filter p l) = filter p l.
Proof.
  induction l as [|x l IH]; simpl; [reflexivity|].
  destruct (p x) eqn:P; simpl; [rewrite P, IH|]; auto.
Qed.

Lemma chunked_prologue_low_rank (fs : filesystem) (file_path key : string)
      (cols : list string) (chunksize : option Z) (f : h5file)
      (group : H5py.group) :
  File fs file_path ModeRPlus = Ok f ->
  get f key = Some (Group group) ->
  Forall (fun c => assoc c group <> None) cols ->
  chunked_prologue fs file_path key (Some cols) chunksize
  = chunked_prologue fs file_path key (Some (filter (low_rank group) cols))
                     chunksize.
Proof.
  intros O G E. unfold chunked_prologue. rewrite O. simpl. rewrite G.
  cbn [resolve_columns].
  assert (E' : Forall (fun c => assoc c group <> None)
                      (filter (low_rank group) cols)).
  { apply Forall_forall. intros c Hin. apply filter_In in Hin.
    rewrite Forall_forall in E. apply E, Hin. }
  pose proof (drop_high_rank_filter group cols [] E (Forall_nil _)) as D.
  pose proof (drop_high_rank_filter group (filter (low_rank group) cols) []
                E' (Forall_nil _)) as D'.
  simpl in D, D'. rewrite filter_idem in D'. rewrite D, D'. reflexivity.
Qed.

(** X20.  The generator of [read_h5py_chunked] leaves requested datasets
    of rank three or more out of every chunk: asked for columns that all
    exist, it yields, raises and stops exactly as when asked for the
    columns of rank at most two among them, in the same order. *)
Theorem read_h5py_chunked_skips_high_rank (host : endian) (fs : filesystem)
        (file_path key : string) (cols : list string) (chunksize : option Z)
        (f : h5file) (group : H5py.group) :
  File fs file_path ModeRPlus = Ok f ->
  get f key = Some (Group group) ->
  Forall (fun c => assoc c group <> None) cols ->
  next host fs (Created file_path key (Some cols) chunksize)
  = next host fs (Created file_path key
                          (Some (filter (low_rank group) cols)) chunksize) /\
  forall fuel,
    drain host fs fuel (Created file_path key (Some cols) chunksize)
    = drain host fs fuel
            (Created file_path key (Some (filter (low_rank group) cols))
                     chunksize).
Proof.
  intros O G E.
  assert (N : next host fs (Created file_path key (Some cols) chunksize)
              = next host fs (Created file_path key
                                (Some (filter (low_rank group) cols)) chunksize)).
  { cbn [next].
    rewrite (chunked_prologue_low_rank fs file_path key cols chunksize f group
               O G E).
    reflexivity. }
  split; [exact N|].
  intros [|fuel]; [reflexivity|]. cbn [drain]. rewrite N. reflexivity.
Qed.

Lemma read_h5py_chunked_skips_high_rank_witness :
  drain LittleEndian Corner.disk 4
        (Created "mixed.h5" "events" (Some ["energy"; "cube"; "position"])
                 (Some 4))
  = drain LittleEndian Corner.disk 4
          (Created "mixed.h5" "events" (Some ["energy"; "position"]) (Some 4)).
Proof.
  apply (read_h5py_chunked_skips_high_rank LittleEndian Corner.disk "mixed.h5"
           "events" ["energy"; "cube"; "position"] (Some 4)
           Corner.mixed_file Corner.mixed
           eq_refl eq_refl).
  repeat constructor; discriminate.
Defined.
